(** * Click tracking: bot classifier, rate limiter, post registry, analytics

    A shallow embedding of the two storage variants of the click-tracking
    service:

    - [click_tracking_db.py]       (PostgreSQL backed, module [Db]);
    - [click_tracking_railway.py]  (JSON-file backed, module [Railway]).

    The helper functions [is_bot_request], [is_rate_limited] and
    [clean_ip_tracker] have the same text in the two files and are embedded
    once.

    Handlers are functions in a small state-and-exception monad; what the
    environment decides (clock readings, the client address, which calls to
    the storage fail) comes in with the event of a request.

    Conventions.
    - A Python [str] that comes from an HTTP header or from the URL is a
      sequence of code points below 256 (both frameworks decode header bytes
      as latin-1), so it is a Rocq [string].
    - [time.time()] is a rational number of seconds ([Q]); the comparison of
      differences is exact arithmetic.
    - [datetime.now()] is an integer number of microseconds ([Z]); the
      file-backed variant stores its [isoformat()], which is injective and
      never empty, and is represented by the same integer.
    - Python integers are [Z].  *)

From Stdlib Require Import ZArith QArith Lqa Ascii String List Bool Lia.
From Stdlib Require Import DecimalString.
From Stdlib Require Import Sorting.Sorted Sorting.Permutation.
From stdpp Require Import gmap strings list fin_maps.

Local Open Scope string_scope.
Local Open Scope Z_scope.

(** ** Python strings *)

Module PyStr.

(** [str.lower()] on one code point below 256: A-Z, and the latin-1 capitals
    0xC0-0xD6 and 0xD8-0xDE, move up by 32; every other code point stays. *)
Definition lower_char (c : ascii) : ascii :=
  let n := N_of_ascii c in
  if ((65 <=? n) && (n <=? 90) || (192 <=? n) && (n <=? 214)
      || (216 <=? n) && (n <=? 222))%N
  then ascii_of_N (n + 32) else c.

(** [s.lower()] *)
Fixpoint lower (s : string) : string :=
  match s with
  | EmptyString => EmptyString
  | String c s' => String (lower_char c) (lower s')
  end.

(** [s.startswith(t)] *)
Fixpoint startswith (t s : string) : bool :=
  match t, s with
  | EmptyString, _ => true
  | String _ _, EmptyString => false
  | String a t', String b s' => if Ascii.eqb a b then startswith t' s' else false
  end.

(** [t in s]: [t] occurs in [s] as a contiguous substring. *)
Fixpoint contains (t s : string) : bool :=
  match s with
  | EmptyString => startswith t EmptyString
  | String _ s' => startswith t s || contains t s'
  end.

(** [s[:n]] for [n >= 0]. *)
Fixpoint take (n : nat) (s : string) : string :=
  match n, s with
  | O, _ => EmptyString
  | S _, EmptyString => EmptyString
  | S n', String c s' => String c (take n' s')
  end.

(** [not s] for a [str]. *)
Definition falsy (s : string) : bool :=
  match s with EmptyString => true | String _ _ => false end.

(** [f"{x}"] for a value that is a [str] or [None]. *)
Definition fmt (x : option string) : string :=
  match x with Some s => s | None => "None" end.

(** [re.search(pattern, s)] for a pattern made of characters that stand for
    themselves only (letters, digits and [-] outside a class): the pattern
    matches exactly where it occurs as a substring. *)
Definition literal_char (c : ascii) : bool :=
  let n := N_of_ascii c in
  ((97 <=? n) && (n <=? 122) || (48 <=? n) && (n <=? 57) || (n =? 45))%N.

Fixpoint literal_pattern (p : string) : bool :=
  match p with
  | EmptyString => true
  | String c p' => literal_char c && literal_pattern p'
  end.

Definition re_search (pattern s : string) : bool := contains pattern s.

(** Occurrence as a substring, and occurrence up to case, as propositions. *)
Definition substring_of (t s : string) : Prop :=
  exists pre post, s = pre ++ t ++ post.

Definition ci_substring_of (t s : string) : Prop :=
  exists pre mid post, s = pre ++ mid ++ post /\ lower mid = lower t.

End PyStr.

(** ** Bot classifier (both files, [is_bot_request]) *)

Definition BOT_USER_AGENTS : list string :=
  [ "facebookexternalhit"; "Twitterbot"; "LinkedInBot"; "WhatsApp";
    "TelegramBot"; "Slackbot"; "Discordbot"; "Googlebot"; "Bingbot";
    "YandexBot"; "DuckDuckBot"; "Applebot"; "Slurp"; "ia_archiver";
    "Mediapartners-Google"; "Bytespider"; "Pinterest"; "Iframely";
    "MetaInspector"; "bot"; "crawler"; "spider"; "scraper"; "checker";
    "monitor"; "headless"; "selenium"; "phantomjs"; "puppeteer" ].

Definition browser_indicators : list string :=
  [ "mozilla"; "chrome"; "safari"; "firefox"; "edge"; "opera"; "webkit";
    "gecko"; "msie"; "trident" ].

Definition mobile_indicators : list string :=
  [ "mobile"; "android"; "iphone"; "ipad"; "ipod" ].

Definition bot_patterns : list string :=
  [ "python"; "requests"; "urllib"; "curl"; "wget"; "http-client";
    "go-http"; "java"; "okhttp" ].

(** [for bot_ua in BOT_USER_AGENTS: if bot_ua.lower() in user_agent: return True];
    [false] stands for falling out of the loop. *)
Fixpoint deny_list_loop (tokens : list string) (user_agent : string) : bool :=
  match tokens with
  | [] => false
  | bot_ua :: rest =>
      if PyStr.contains (PyStr.lower bot_ua) user_agent then true
      else deny_list_loop rest user_agent
  end.

(** [any(indicator in user_agent for indicator in indicators)] *)
Fixpoint any_indicator (indicators : list string) (user_agent : string) : bool :=
  match indicators with
  | [] => false
  | indicator :: rest =>
      if PyStr.contains indicator user_agent then true
      else any_indicator rest user_agent
  end.

(** [for pattern in bot_patterns: if re.search(pattern, user_agent): return True] *)
Fixpoint pattern_loop (patterns : list string) (user_agent : string) : bool :=
  match patterns with
  | [] => false
  | pattern :: rest =>
      if PyStr.re_search pattern user_agent then true
      else pattern_loop rest user_agent
  end.

(** [is_bot_request(user_agent, ip=None)]; [true] is "bot".  The argument is
    [None] when the caller passes [None], and the callers pass the header with
    default [''].  *)
Definition is_bot_request (user_agent : option string) (ip : option string) : bool :=
  match user_agent with
  | None => true
  | Some ua =>
      if PyStr.falsy ua then true
      else
        let user_agent := PyStr.lower ua in
        if deny_list_loop BOT_USER_AGENTS user_agent then true
        else
          let has_browser := any_indicator browser_indicators user_agent in
          let has_mobile := any_indicator mobile_indicators user_agent in
          if negb has_browser && negb has_mobile then
            if pattern_loop bot_patterns user_agent then true else false
          else false
  end.

(** ** IP activity tracker (both files, [is_rate_limited], [clean_ip_tracker]) *)

(** [a > b] and [a < b] on times. *)
Definition Qgtb (a b : Q) : bool := negb (Qle_bool a b).
Definition Qltb (a b : Q) : bool := negb (Qle_bool b a).

(** The module-level dict [ip_tracker]: key [f"{ip}_{tracking_id}"], value
    [(last_time, count)]. *)
Abbreviation ip_tracker_t := (gmap string (Q * Z)).

Definition tracker_key (ip : option string) (tracking_id : string) : string :=
  PyStr.fmt ip ++ "_" ++ tracking_id.

(** [is_rate_limited(ip, tracking_id)] with [time.time()] read as
    [current_time]; returns the answer and the dict after the call. *)
Definition is_rate_limited (ip : option string) (tracking_id : string)
    (current_time : Q) (ip_tracker : ip_tracker_t) : bool * ip_tracker_t :=
  let key := tracker_key ip tracking_id in
  match ip_tracker !! key with
  | Some (last_time, count) =>
      if Qgtb (current_time - last_time) 3600 then
        (false, <[key := (current_time, 1)]> ip_tracker)
      else
        let time_diff := (current_time - last_time)%Q in
        if Qltb time_diff 60 && (count >=? 5) then (true, ip_tracker)
        else (false, <[key := (current_time, count + 1)]> ip_tracker)
  | None => (false, <[key := (current_time, 1)]> ip_tracker)
  end.

(** [clean_ip_tracker()]: delete every key whose entry is older than an hour. *)
Definition stale (current_time : Q) (entry : Q * Z) : bool :=
  Qgtb (current_time - fst entry) 3600.

Definition clean_ip_tracker (current_time : Q) (ip_tracker : ip_tracker_t)
    : ip_tracker_t :=
  filter (fun kv => stale current_time (snd kv) = false) ip_tracker.

(** Successive calls [is_rate_limited(ip, tracking_id)] at the given clock
    readings: the answers in order, and the dict after the last call. *)
Fixpoint rate_limit_calls (ip : option string) (tracking_id : string)
    (times : list Q) (ip_tracker : ip_tracker_t) : list bool * ip_tracker_t :=
  match times with
  | [] => ([], ip_tracker)
  | t :: rest =>
      let '(limited, tracker1) := is_rate_limited ip tracking_id t ip_tracker in
      let '(answers, tracker2) := rate_limit_calls ip tracking_id rest tracker1 in
      (limited :: answers, tracker2)
  end.

(** ** Control flow: exceptions and state

    A handler is a function of the state that either returns a value or
    raises, and leaves a state behind in both cases (what was written before a
    [raise] stays written).  *)

Definition FINAL_DESTINATION : string := "https://nonai.life/".

Inductive error_kind : Type :=
| DatabaseError     (* psycopg2: connect, execute or commit failed *)
| OSError           (* open() / json.dump() of the data file failed *)
| TypeError
| AttributeError
| KeyError.

(** The text of an error answer: a fixed message, or [str(e)] of the
    exception that was caught. *)
Inductive detail : Type :=
| Detail (s : string)
| StrOfError (k : error_kind)
| StrOfHTTP (status_code : Z) (d : detail).

Inductive exn : Type :=
| HTTPException (status_code : Z) (d : detail)
| Error (k : error_kind).

Definition str_exn (e : exn) : detail :=
  match e with
  | HTTPException c d => StrOfHTTP c d
  | Error k => StrOfError k
  end.

Inductive outcome (A : Type) : Type :=
| Return (a : A)
| Raise (e : exn).
Arguments Return {A} a.
Arguments Raise {A} e.

(** What an endpoint hands back to the HTTP layer. *)
Inductive response (A : Type) : Type :=
| RedirectResponse (url : string) (status_code : Z)
| JSONResponse (status_code : Z) (body : A)
| HTTPError (status_code : Z) (d : detail).
Arguments RedirectResponse {A} url status_code.
Arguments JSONResponse {A} status_code body.
Arguments HTTPError {A} status_code d.

(** What the framework answers when the endpoint function ends: its return
    value, the answer of an [HTTPException], or status 500 for any other
    exception that escapes. *)
Definition serve {A} (o : outcome (response A)) : response A :=
  match o with
  | Return r => r
  | Raise (HTTPException c d) => HTTPError c d
  | Raise (Error _) => HTTPError 500 (Detail "Internal Server Error")
  end.

Definition M (S A : Type) : Type := S -> outcome A * S.

Definition ret {S A} (a : A) : M S A := fun s => (Return a, s).
Definition raise {S A} (e : exn) : M S A := fun s => (Raise e, s).
Definition bind {S A B} (c : M S A) (k : A -> M S B) : M S B :=
  fun s => match c s with
           | (Return a, s') => k a s'
           | (Raise e, s') => (Raise e, s')
           end.
Definition get {S} : M S S := fun s => (Return s, s).
Definition modify {S} (f : S -> S) : M S unit := fun s => (Return tt, f s).

(** [try: body  except Exception as e: handler(e)] *)
Definition try_except {S A} (body : M S A) (handler : exn -> M S A) : M S A :=
  fun s => match body s with
           | (Return a, s') => (Return a, s')
           | (Raise e, s') => handler e s'
           end.

Declare Scope py_scope.
Delimit Scope py_scope with py.
Notation "'let*' x ':=' c 'in' k" := (bind c (fun x => k))
  (at level 10, x name, c at level 100, k at level 200) : py_scope.
Notation "'let*' ' p ':=' c 'in' k" :=
  (bind c (fun x => match x with p => k end))
  (at level 10, p strict pattern, c at level 100, k at level 200) : py_scope.
Notation "'run' c 'then' k" := (bind c (fun _ => k))
  (at level 10, c at level 100, k at level 200) : py_scope.

(** Stable sort by decreasing key: [ORDER BY key DESC] with ties left in the
    order of the input, and [list.sort(key=..., reverse=True)]. *)
Section SortDesc.
Context {A : Type} (key : A -> Z).

Fixpoint insert_desc (x : A) (l : list A) : list A :=
  match l with
  | [] => [x]
  | y :: l' => if key y <=? key x then x :: y :: l' else y :: insert_desc x l'
  end.

Definition sort_desc (l : list A) : list A := foldr insert_desc [] l.
End SortDesc.

(** The sum of a list of integers. *)
Definition sumZ (l : list Z) : Z := foldr Z.add 0 l.

(** Newest first, largest first: every element is at least the ones after it. *)
Definition descending {A} (key : A -> Z) (l : list A) : Prop :=
  StronglySorted (fun a b => key b <= key a) l.

(** [l[-n:]] for [n > 0]: the last [n] elements, all of them when fewer. *)
Definition last_n {A} (n : nat) (l : list A) : list A :=
  drop (length l - n)%nat l.

(** [x or y] on strings. *)
Definition str_or (x y : string) : string := if PyStr.falsy x then y else x.

(** ** The PostgreSQL variant: [click_tracking_db.py]

    A table is the list of its rows.  Every call of psycopg2 that reaches the
    server (connect, execute, commit) may fail: the event of a request carries
    a list of booleans, one consumed per call, [false] meaning that the call
    raises; calls past the end of the list succeed.  This covers an
    unreachable server as well as a statement the server rejects (a value too
    long for its column, an integer out of range).  *)

Module Db.

Record post_row : Type := PostRow {
  tracking_id : string;         (* PRIMARY KEY *)
  username : string;
  badge_type : string;
  platform : string;
  post_url : option string;     (* NULL until the post is confirmed *)
  clicks : Z;                   (* DEFAULT 0 *)
  confirmed : bool;             (* DEFAULT FALSE *)
  first_click : option Z;
  last_click : option Z;
  created_at : Z;               (* DEFAULT NOW() *)
  confirmed_at : option Z }.

(** The SERIAL column [id] of [click_history] is never read and is left out. *)
Record click_row : Type := ClickRow {
  ch_tracking_id : string;      (* REFERENCES posts(tracking_id) *)
  ch_timestamp : Z;             (* DEFAULT NOW() *)
  ch_platform : string;
  ch_badge_type : string;
  ch_ip : string;
  ch_user_agent : string;
  ch_is_human : bool }.

(** The three tables; [stats] is its single row's counter. *)
Record database : Type := Database {
  posts : list post_row;
  click_history : list click_row;
  bot_requests_blocked : Z }.

(** What persists between two requests. *)
Record state : Type := State {
  st_db : database;
  st_tracker : ip_tracker_t }.

(** What a running request sees: the committed database, the view of the
    open connection, the remaining fault list, and [ip_tracker]. *)
Record world : Type := World {
  w_db : database;
  w_conn : database;
  w_oracle : list bool;
  w_tracker : ip_tracker_t }.

Definition set_db (d : database) (w : world) : world :=
  World d (w_conn w) (w_oracle w) (w_tracker w).
Definition set_conn (d : database) (w : world) : world :=
  World (w_db w) d (w_oracle w) (w_tracker w).
Definition set_oracle (o : list bool) (w : world) : world :=
  World (w_db w) (w_conn w) o (w_tracker w).
Definition set_tracker (t : ip_tracker_t) (w : world) : world :=
  World (w_db w) (w_conn w) (w_oracle w) t.

Local Open Scope py_scope.

(** One call that reaches the server. *)
Definition storage_op : M world unit :=
  fun w => match w_oracle w with
           | [] => (Return tt, w)
           | true :: rest => (Return tt, set_oracle rest w)
           | false :: rest => (Raise (Error DatabaseError), set_oracle rest w)
           end.

Definition commit : M world unit :=
  run storage_op then modify (fun w => set_db (w_conn w) w).

Definition rollback : M world unit :=
  modify (fun w => set_conn (w_db w) w).

(** [with get_db_connection() as conn: body]:
    connect; run the body; commit when it ends or returns, roll back and
    raise again when it raises.  *)
Definition with_db_connection {A} (body : M world A) : M world A :=
  run storage_op then
  run modify (fun w => set_conn (w_db w) w) then
  try_except
    (let* a := body in run commit then ret a)
    (fun e => run rollback then raise e).

(** [cur.execute(...)] of a query, of a statement, and of a statement with
    [RETURNING]. *)
Definition execute_query {A} (q : database -> A) : M world A :=
  run storage_op then fun w => (Return (q (w_conn w)), w).

Definition execute_update (f : database -> database) : M world unit :=
  run storage_op then modify (fun w => set_conn (f (w_conn w)) w).

Definition execute_returning {A} (f : database -> database)
    (returning : database -> A) : M world A :=
  run execute_update f then fun w => (Return (returning (w_conn w)), w).

(** A statement that the server rejects on some databases (a constraint). *)
Definition execute_checked (f : database -> option database) : M world unit :=
  run storage_op then
  fun w => match f (w_conn w) with
           | Some d => (Return tt, set_conn d w)
           | None => (Raise (Error DatabaseError), w)
           end.

(** [WHERE tracking_id = %s] *)
Definition has_id (tid : string) (r : post_row) : bool :=
  String.eqb (tracking_id r) tid.

Definition update_where (tid : string) (f : post_row -> post_row)
    (rows : list post_row) : list post_row :=
  map (fun r => if has_id tid r then f r else r) rows.

Definition set_posts (rows : list post_row) (d : database) : database :=
  Database rows (click_history d) (bot_requests_blocked d).

(** [UPDATE stats SET bot_requests_blocked = bot_requests_blocked + 1 WHERE id = 1] *)
Definition increment_bot_counter : M world unit :=
  with_db_connection
    (execute_update (fun d =>
       Database (posts d) (click_history d) (bot_requests_blocked d + 1))).

(** [get_bot_counter()] *)
Definition get_bot_counter : M world Z :=
  with_db_connection (execute_query bot_requests_blocked).

(** *** [GET /track/{tracking_id}] *)

Record click_event : Type := ClickEvent {
  ev_tracking_id : string;
  ev_user_agent : option string;       (* header user-agent, when sent *)
  ev_x_forwarded_for : option string;  (* header x-forwarded-for, when sent *)
  ev_client_host : option string;      (* request.client.host; None: request.client is None *)
  ev_p : option string;                (* query parameter p, when given *)
  ev_b : option string;                (* query parameter b, when given *)
  ev_time_clean : Q;                   (* time.time() in clean_ip_tracker *)
  ev_time_limit : Q;                   (* time.time() in is_rate_limited *)
  ev_now : Z;                          (* datetime.now() *)
  ev_db_now : Z;                       (* NOW() on the server *)
  ev_faults : list bool }.

(** [SELECT clicks, confirmed FROM posts WHERE tracking_id = %s] *)
Definition select_post (tid : string) (d : database) : list post_row :=
  List.filter (has_id tid) (posts d).

(** [SET clicks = clicks + 1, last_click = now,
         first_click = COALESCE(first_click, now)] *)
Definition count_click (now : Z) (r : post_row) : post_row :=
  PostRow (tracking_id r) (username r) (badge_type r) (platform r)
          (post_url r) (clicks r + 1) (confirmed r)
          (match first_click r with Some t => Some t | None => Some now end)
          (Some now) (created_at r) (confirmed_at r).

Definition update_clicks (tid : string) (now : Z) (d : database) : database :=
  set_posts (update_where tid (count_click now) (posts d)) d.

(** [RETURNING clicks] *)
Definition returning_clicks (tid : string) (d : database) : list Z :=
  map clicks (select_post tid d).

(** [INSERT INTO click_history (...) VALUES (...)]; the foreign key rejects
    a tracking id that [posts] does not hold. *)
Definition insert_click (row : click_row) (d : database) : option database :=
  if existsb (has_id (ch_tracking_id row)) (posts d)
  then Some (Database (posts d) (click_history d ++ [row]) (bot_requests_blocked d))
  else None.

Definition redirect : response unit := RedirectResponse FINAL_DESTINATION 302.

(** The body of the [try]. *)
Definition track_click_body (ev : click_event) : M world (response unit) :=
  let tracking_id := ev_tracking_id ev in
  let p := default "unknown" (ev_p ev) in
  let b := default "unknown" (ev_b ev) in
  let user_agent := default "" (ev_user_agent ev) in
  let* host := (match ev_client_host ev with
                | Some h => ret h
                | None => raise (Error AttributeError)
                end) in
  let ip := default host (ev_x_forwarded_for ev) in
  run modify (fun w => set_tracker (clean_ip_tracker (ev_time_clean ev) (w_tracker w)) w) then
  if is_bot_request (Some user_agent) (Some ip) then
    run increment_bot_counter then
    ret redirect
  else
    let* limited := (fun w =>
      let '(r, t) := is_rate_limited (Some ip) tracking_id (ev_time_limit ev) (w_tracker w) in
      (Return r, set_tracker t w)) in
    if limited : bool then ret redirect
    else
      let* early := with_db_connection
        (let* rows := execute_query (select_post tracking_id) in
         match head rows with
         | None => ret (Some redirect)
         | Some post =>
             if negb (confirmed post) then ret (Some redirect)
             else
               let now := ev_now ev in
               let* returned := execute_returning (update_clicks tracking_id now)
                                                  (returning_clicks tracking_id) in
               let* new_click_count := (match head returned with
                                        | Some c => ret c
                                        | None => raise (Error TypeError)
                                        end) in
               run execute_checked (insert_click
                     (ClickRow tracking_id (ev_db_now ev) p b
                               (if PyStr.falsy ip then "unknown" else PyStr.take 15 ip)
                               (PyStr.take 100 user_agent) true)) then
               run commit then
               ret None
         end) in
      match early with
      | Some r => ret r
      | None => ret redirect
      end.

Definition run_handler {A} (h : M world (response A)) (faults : list bool)
    (st : state) : response A * state :=
  let '(o, w) := h (World (st_db st) (st_db st) faults (st_tracker st)) in
  (serve o, State (w_db w) (w_tracker w)).

Definition track_click (ev : click_event) (st : state) : response unit * state :=
  run_handler (try_except (track_click_body ev) (fun _ => ret redirect))
              (ev_faults ev) st.

(** *** [POST /api/confirm-post] *)

Record ConfirmPostRequest : Type := MkConfirmPostRequest {
  cp_tracking_id : string;
  cp_post_url : string;
  cp_platform : string;
  cp_username : option string }.

Record confirm_event : Type := ConfirmEvent {
  ce_data : ConfirmPostRequest;
  ce_now : Z;                          (* datetime.now() *)
  ce_faults : list bool }.

(** [SET post_url = %s, confirmed = TRUE, confirmed_at = %s, platform = %s] *)
Definition confirm_row (post_url platform : string) (now : Z) (r : post_row)
    : post_row :=
  PostRow (tracking_id r) (username r) (badge_type r) platform
          (Some post_url) (clicks r) true
          (first_click r) (last_click r) (created_at r) (Some now).

(** [UPDATE posts SET username = %s WHERE tracking_id = %s] *)
Definition set_username (name : string) (r : post_row) : post_row :=
  PostRow (tracking_id r) name (badge_type r) (platform r)
          (post_url r) (clicks r) (confirmed r)
          (first_click r) (last_click r) (created_at r) (confirmed_at r).

(** [RETURNING tracking_id] *)
Definition returning_ids (tid : string) (d : database) : list string :=
  map tracking_id (select_post tid d).

Record confirm_payload : Type := ConfirmPayload {
  cr_status : string;
  cr_tracking_id : string;
  cr_post_url : string;
  cr_confirmed : bool;
  cr_message : string }.

(** [data.username and data.username != 'unknown'] *)
Definition username_given (u : option string) : bool :=
  match u with
  | None => false
  | Some name => negb (PyStr.falsy name) && negb (String.eqb name "unknown")
  end.

Definition confirm_post_body (ev : confirm_event) : M world (response confirm_payload) :=
  let data := ce_data ev in
  run with_db_connection
    (let* result := execute_returning
         (fun d => set_posts (update_where (cp_tracking_id data)
                                (confirm_row (cp_post_url data) (cp_platform data) (ce_now ev))
                                (posts d)) d)
         (returning_ids (cp_tracking_id data)) in
     match head result with
     | None => raise (HTTPException 404 (Detail "Tracking ID not found"))
     | Some _ =>
         run (if username_given (cp_username data) then
                execute_update (fun d =>
                  set_posts (update_where (cp_tracking_id data)
                               (set_username (default "" (cp_username data)))
                               (posts d)) d)
              else ret tt) then
         commit
     end) then
  ret (JSONResponse 200
         (ConfirmPayload "success" (cp_tracking_id data) (cp_post_url data) true
                         "Post confirmed and ready for tracking")).

(** [except HTTPException: raise]
    [except Exception as e: raise HTTPException(status_code=500, detail=str(e))] *)
Definition reraise_as_500 {A} (e : exn) : M world A :=
  match e with
  | HTTPException c d => raise (HTTPException c d)
  | Error k => raise (HTTPException 500 (str_exn e))
  end.

Definition confirm_post (ev : confirm_event) (st : state)
    : response confirm_payload * state :=
  run_handler (try_except (confirm_post_body ev) reraise_as_500) (ce_faults ev) st.

(** *** [GET /api/analytics] *)

Definition sum_clicks (rows : list post_row) : Z :=
  foldr (fun r acc => clicks r + acc) 0 rows.

(** [FROM posts WHERE confirmed = TRUE] and [... = FALSE] *)
Definition confirmed_rows (d : database) : list post_row :=
  List.filter confirmed (posts d).
Definition pending_rows (d : database) : list post_row :=
  List.filter (fun r => negb (confirmed r)) (posts d).

(** [SELECT ... FROM posts WHERE confirmed = TRUE ORDER BY clicks DESC] *)
Definition select_confirmed_posts (d : database) : list post_row :=
  sort_desc clicks (confirmed_rows d).

(** [SELECT COUNT( * ) as total_posts, SUM(clicks) as total_clicks
     FROM posts WHERE confirmed = TRUE]; the sum of no row is NULL. *)
Record totals_row : Type := TotalsRow {
  total_posts : Z;
  total_clicks : option Z }.

Definition select_totals (d : database) : totals_row :=
  let rows := confirmed_rows d in
  TotalsRow (Z.of_nat (length rows))
            (match rows with [] => None | _ :: _ => Some (sum_clicks rows) end).

(** [SELECT col, SUM(clicks) as clicks FROM posts WHERE confirmed = TRUE
     GROUP BY col] *)
Definition select_group_sums (col : post_row -> string) (d : database)
    : list (string * Z) :=
  let rows := confirmed_rows d in
  map (fun k => (k, sum_clicks (List.filter (fun r => String.eqb (col r) k) rows)))
      (remove_dups (map col rows)).

(** [{row[col]: row['clicks'] for row in cur.fetchall()}] *)
Definition dict_of_rows (rows : list (string * Z)) : gmap string Z :=
  fold_left (fun m kv => <[fst kv := snd kv]> m) rows ∅.

(** [SELECT ch.timestamp, ch.tracking_id, ch.platform, ch.badge_type,
            p.post_url, p.username
     FROM click_history ch JOIN posts p ON ch.tracking_id = p.tracking_id
     WHERE ch.is_human = TRUE ORDER BY ch.timestamp DESC LIMIT 20] *)
Record recent_row : Type := RecentRow {
  rc_timestamp : Z;
  rc_tracking_id : string;
  rc_platform : string;
  rc_badge_type : string;
  rc_post_url : option string;
  rc_username : string }.

Definition join_click (d : database) (ch : click_row) : list recent_row :=
  map (fun p => RecentRow (ch_timestamp ch) (ch_tracking_id ch) (ch_platform ch)
                          (ch_badge_type ch) (post_url p) (username p))
      (select_post (ch_tracking_id ch) d).

Definition human_clicks_joined (d : database) : list recent_row :=
  flat_map (join_click d) (List.filter ch_is_human (click_history d)).

Definition select_recent_clicks (d : database) : list recent_row :=
  take 20 (sort_desc rc_timestamp (human_clicks_joined d)).

(** [SELECT COUNT( * ) FROM posts WHERE confirmed = FALSE], fetched through the
    [RealDictCursor] of this endpoint: the row is a dict whose only key is the
    column name. *)
Definition select_pending_count (d : database) : list (string * Z) :=
  [("count", Z.of_nat (length (pending_rows d)))].

(** [row[key]] on a dict keyed by column names. *)
Inductive py_key : Type :=
| KeyStr (s : string)
| KeyInt (i : Z).

Fixpoint dict_lookup (s : string) (row : list (string * Z)) : option Z :=
  match row with
  | [] => None
  | (k, v) :: rest => if String.eqb k s then Some v else dict_lookup s rest
  end.

Definition getitem (row : list (string * Z)) (key : py_key) : M world Z :=
  match key with
  | KeyStr s => match dict_lookup s row with
                | Some v => ret v
                | None => raise (Error KeyError)
                end
  | KeyInt _ => raise (Error KeyError)
  end.

(** The entries of the answer. *)
Record post_view : Type := PostView {
  pv_tracking_id : string;
  pv_username : string;
  pv_post_url : string;
  pv_platform : string;
  pv_badge_type : string;
  pv_clicks : Z;
  pv_posted_at : Z;
  pv_first_click : option Z;
  pv_last_click : option Z;
  pv_status : string }.

Record click_view : Type := ClickView {
  cv_timestamp : Z;
  cv_tracking_id : string;
  cv_post_url : string;
  cv_platform : string;
  cv_badge_type : string;
  cv_username : string }.

Record stats_view : Type := StatsView {
  sv_human_clicks : Z;
  sv_bot_requests_blocked : Z;
  sv_total_requests : Z;
  sv_confirmed_posts : Z;
  sv_pending_posts : Z }.

Record analytics : Type := Analytics {
  an_total_clicks : Z;
  an_total_posts : Z;
  an_pending_posts : Z;
  an_posts_with_clicks : Z;
  an_posts_without_clicks : Z;
  an_avg_clicks_per_post : Q;
  an_clicks_by_platform : gmap string Z;
  an_clicks_by_badge_type : gmap string Z;
  an_top_posts : list post_view;
  an_recent_clicks : list click_view;
  an_all_posts : list post_view;
  an_bot_requests_blocked : Z;
  an_stats : stats_view }.

(** [x or 'text'] on a nullable text column. *)
Definition text_or (x : option string) (y : string) : string :=
  match x with None => y | Some s => str_or s y end.

Definition view_post (post : post_row) : post_view :=
  PostView (tracking_id post)
           (str_or (username post) "Unknown")
           (text_or (post_url post) "N/A")
           (str_or (platform post) "unknown")
           (str_or (badge_type post) "unknown")
           (clicks post)
           (match confirmed_at post with Some t => t | None => created_at post end)
           (first_click post)
           (last_click post)
           (if 0 <? clicks post then "active" else "no_clicks").

Definition view_click (click : recent_row) : click_view :=
  ClickView (rc_timestamp click) (rc_tracking_id click)
            (text_or (rc_post_url click) "N/A")
            (str_or (rc_platform click) "unknown")
            (str_or (rc_badge_type click) "unknown")
            (str_or (rc_username click) "Unknown").

(** [totals['total_clicks'] or 0] and [totals['total_posts'] or 0] *)
Definition clicks_or_0 (totals : totals_row) : Z := default 0 (total_clicks totals).
Definition posts_or_0 (totals : totals_row) : Z := total_posts totals.

(** [(totals['total_clicks'] or 0) / max(totals['total_posts'] or 1, 1)] *)
Definition avg_clicks_per_post (totals : totals_row) : Q :=
  (inject_Z (clicks_or_0 totals)
   / inject_Z (Z.max (if total_posts totals =? 0 then 1 else total_posts totals) 1))%Q.

(** What the six queries of the [with] block bring back. *)
Record query_results : Type := QueryResults {
  qr_posts : list post_row;
  qr_totals : totals_row;
  qr_platform_stats : gmap string Z;
  qr_badge_stats : gmap string Z;
  qr_recent_clicks : list recent_row;
  qr_pending_posts : Z;
  qr_posts_with_clicks : Z;
  qr_posts_without_clicks : Z }.

Definition analytics_queries : M world query_results :=
  with_db_connection
    (let* posts := execute_query select_confirmed_posts in
     let* totals := execute_query select_totals in
     let* platform_stats := execute_query (fun d => dict_of_rows (select_group_sums platform d)) in
     let* badge_stats := execute_query (fun d => dict_of_rows (select_group_sums badge_type d)) in
     let* recent_clicks := execute_query select_recent_clicks in
     let* pending_row := execute_query select_pending_count in
     let* pending_posts := getitem pending_row (KeyInt 0) in
     let posts_with_clicks :=
       Z.of_nat (length (List.filter (fun p => 0 <? clicks p) posts)) in
     let posts_without_clicks := Z.of_nat (length posts) - posts_with_clicks in
     ret (QueryResults posts totals platform_stats badge_stats recent_clicks
                       pending_posts posts_with_clicks posts_without_clicks)).

(** The [return {...}] of the endpoint, with its three calls of
    [get_bot_counter()] in the order of the dict display. *)
Definition build_analytics (qr : query_results) (bot1 bot2 bot3 : Z) : analytics :=
  let all_posts := map view_post (qr_posts qr) in
  let totals := qr_totals qr in
  Analytics (clicks_or_0 totals) (posts_or_0 totals) (qr_pending_posts qr)
            (qr_posts_with_clicks qr) (qr_posts_without_clicks qr)
            (avg_clicks_per_post totals)
            (qr_platform_stats qr) (qr_badge_stats qr)
            (take 50 all_posts)
            (map view_click (qr_recent_clicks qr))
            all_posts
            bot1
            (StatsView (clicks_or_0 totals) bot2 (clicks_or_0 totals + bot3)
                       (posts_or_0 totals) (qr_pending_posts qr)).

Definition get_analytics_body : M world (response analytics) :=
  let* qr := analytics_queries in
  let* bot1 := get_bot_counter in
  let* bot2 := get_bot_counter in
  let* bot3 := get_bot_counter in
  ret (JSONResponse 200 (build_analytics qr bot1 bot2 bot3)).

(** [except Exception as e: raise HTTPException(status_code=500, detail=str(e))] *)
Definition get_analytics (faults : list bool) (st : state)
    : response analytics * state :=
  run_handler
    (try_except get_analytics_body
                (fun e => raise (HTTPException 500 (str_exn e))))
    faults st.

(** *** [POST /api/reset-all] *)

Record reset_payload : Type := ResetPayload {
  rp_status : string;
  rp_message : string;
  rp_total_clicks : Z;
  rp_total_posts : Z }.

(** [DELETE FROM posts]: the rows of [click_history] that refer to a deleted
    post go with it ([ON DELETE CASCADE]). *)
Definition delete_posts (d : database) : database :=
  Database []
           (List.filter (fun ch => negb (existsb (has_id (ch_tracking_id ch)) (posts d)))
                        (click_history d))
           (bot_requests_blocked d).

Definition reset_all_body : M world (response reset_payload) :=
  run with_db_connection
    (run execute_update (fun d => Database (posts d) [] (bot_requests_blocked d)) then
     run execute_update delete_posts then
     run execute_update (fun d => Database (posts d) (click_history d) 0) then
     commit) then
  run modify (set_tracker ∅) then
  ret (JSONResponse 200 (ResetPayload "success" "All data reset" 0 0)).

Definition reset_all (faults : list bool) (st : state)
    : response reset_payload * state :=
  run_handler
    (try_except reset_all_body (fun e => raise (HTTPException 500 (str_exn e))))
    faults st.

(** *** Endpoints that name the public URL

    [PUBLIC_URL] is fixed when the module is loaded, from the environment;
    [urlencode] is the library's. *)

Section Config.
Variable PUBLIC_URL : string.
Variable urlencode : list (string * string) -> string.

(** *** [POST /api/generate-tracking-url] *)

(** The body of the request, with the defaults of the model filled in. *)
Record TrackingURLRequest : Type := MkTrackingURLRequest {
  tr_platform : string;
  tr_badge_type : string;
  tr_username : string }.

Record generate_event : Type := GenerateEvent {
  ge_data : TrackingURLRequest;
  ge_hexdigest : string;      (* hashlib.md5(...).hexdigest() of the salted text *)
  ge_db_now : Z;              (* NOW() on the server *)
  ge_faults : list bool }.

Record post_info : Type := PostInfo {
  pi_platform : string;
  pi_badge_type : string;
  pi_username : string;
  pi_tracking_id : string;
  pi_initial_clicks : Z;
  pi_confirmed : bool }.

Record generate_payload : Type := GeneratePayload {
  gp_tracking_id : string;
  gp_tracking_url : string;
  gp_public_url : string;
  gp_post_info : post_info }.

(** [INSERT INTO posts (tracking_id, username, badge_type, platform, confirmed)
     VALUES (...)]; the primary key rejects a tracking id that is stored. *)
Definition insert_post (row : post_row) (d : database) : option database :=
  if existsb (has_id (tracking_id row)) (posts d)
  then None
  else Some (Database (posts d ++ [row]) (click_history d) (bot_requests_blocked d)).

Definition generate_tracking_url_body (ev : generate_event)
    : M world (response generate_payload) :=
  let data := ge_data ev in
  let tracking_id := PyStr.take 8 (ge_hexdigest ev) in
  run with_db_connection
    (run execute_checked
       (insert_post (PostRow tracking_id (tr_username data) (tr_badge_type data)
                             (tr_platform data) None 0 false None None
                             (ge_db_now ev) None)) then
     commit) then
  let params := [("p", PyStr.take 3 (tr_platform data));
                 ("b", PyStr.take 1 (tr_badge_type data))] in
  let tracking_url :=
    PUBLIC_URL ++ "/track/" ++ tracking_id ++ "?" ++ urlencode params in
  ret (JSONResponse 200
         (GeneratePayload tracking_id tracking_url PUBLIC_URL
            (PostInfo (tr_platform data) (tr_badge_type data) (tr_username data)
                      tracking_id 0 false))).

Definition generate_tracking_url (ev : generate_event) (st : state)
    : response generate_payload * state :=
  run_handler
    (try_except (generate_tracking_url_body ev)
                (fun e => raise (HTTPException 500 (str_exn e))))
    (ge_faults ev) st.

(** *** [GET /health] *)

Record health_event : Type := HealthEvent {
  he_now : Z;                 (* datetime.now() of the healthy answer *)
  he_now_error : Z;           (* datetime.now() of the unhealthy answer *)
  he_faults : list bool }.

Inductive health_payload : Type :=
| Healthy (timestamp : Z) (total_posts pending_posts total_clicks
           bot_requests_blocked : Z) (public_url : string) (database : string)
          (is_production : bool) (version : string)
| Unhealthy (error : detail) (timestamp : Z).

(** The three counts, read through a plain cursor. *)
Definition count_confirmed (d : database) : Z :=
  Z.of_nat (length (confirmed_rows d)).
Definition count_pending (d : database) : Z :=
  Z.of_nat (length (pending_rows d)).
Definition sum_confirmed (d : database) : option Z :=
  match confirmed_rows d with
  | [] => None
  | _ :: _ => Some (sum_clicks (confirmed_rows d))
  end.

Definition health_body (ev : health_event) : M world (response health_payload) :=
  let* '(confirmed_posts, pending_posts, total_clicks) :=
    with_db_connection
      (let* confirmed_posts := execute_query count_confirmed in
       let* pending_posts := execute_query count_pending in
       let* total := execute_query sum_confirmed in
       ret (confirmed_posts, pending_posts, default 0 total)) in
  let* bot := get_bot_counter in
  ret (JSONResponse 200
         (Healthy (he_now ev) confirmed_posts pending_posts total_clicks bot
                  PUBLIC_URL "PostgreSQL"
                  (PyStr.contains "railway" (PyStr.lower PUBLIC_URL))
                  "6.0_postgres")).

Definition health (ev : health_event) (st : state)
    : response health_payload * state :=
  run_handler
    (try_except (health_body ev)
                (fun e => ret (JSONResponse 200
                                 (Unhealthy (str_exn e) (he_now_error ev)))))
    (he_faults ev) st.

End Config.

End Db.

(** ** The file-backed variant: [click_tracking_railway.py]

    [click_data] is a module-level dict that the handlers mutate in place; an
    exception leaves behind whatever was written before it.  [posts] is a dict
    in insertion order: a list of pairs with distinct keys.  The event of a
    request says whether [save_data()] can write the file.  *)

Module Railway.

Record post : Type := Post {
  clicks : Z;
  platform : string;
  badge_type : string;
  username : string;
  post_url : string;
  first_click : option Z;
  last_click : option Z;
  created_at : Z }.

Record click_record : Type := ClickRecord {
  cr_tracking_id : string;
  cr_timestamp : Z;
  cr_platform : string;
  cr_badge_type : string;
  cr_ip : string;
  cr_user_agent : string;
  cr_is_human : bool }.

Record click_data_t : Type := ClickData {
  total_clicks : Z;
  posts : list (string * post);
  click_history : list click_record;
  bot_requests_blocked : Z }.

(** The running process: [click_data], [ip_tracker], and what the data file
    held after the last successful [save_data()] ([None]: never written). *)
Record state : Type := State {
  st_data : click_data_t;
  st_tracker : ip_tracker_t;
  st_file : option click_data_t }.

Definition set_data (d : click_data_t) (s : state) : state :=
  State d (st_tracker s) (st_file s).
Definition set_tracker (t : ip_tracker_t) (s : state) : state :=
  State (st_data s) t (st_file s).

Local Open Scope py_scope.

(** [k in d], [d[k]] and [d[k] = v] on an insertion-ordered dict. *)
Fixpoint dict_get {V} (k : string) (d : list (string * V)) : option V :=
  match d with
  | [] => None
  | (k', v) :: rest => if String.eqb k' k then Some v else dict_get k rest
  end.

Fixpoint dict_set {V} (k : string) (v : V) (d : list (string * V))
    : list (string * V) :=
  match d with
  | [] => [(k, v)]
  | (k', v') :: rest =>
      if String.eqb k' k then (k', v) :: rest else (k', v') :: dict_set k v rest
  end.

(** [click_data["posts"][tracking_id][field] = ...]: [KeyError] when the
    post is missing. *)
Definition update_post (tracking_id : string) (f : post -> post)
    : M state unit :=
  fun s =>
    let d := st_data s in
    match dict_get tracking_id (posts d) with
    | None => (Raise (Error KeyError), s)
    | Some p =>
        (Return tt,
         set_data (ClickData (total_clicks d)
                             (dict_set tracking_id (f p) (posts d))
                             (click_history d) (bot_requests_blocked d)) s)
    end.

Definition modify_data (f : click_data_t -> click_data_t) : M state unit :=
  modify (fun s => set_data (f (st_data s)) s).

(** [save_data()] *)
Definition save_data (can_write : bool) : M state unit :=
  fun s => if can_write
           then (Return tt, State (st_data s) (st_tracker s) (Some (st_data s)))
           else (Raise (Error OSError), s).

Record click_event : Type := ClickEvent {
  ev_tracking_id : string;
  ev_user_agent : option string;       (* header User-Agent, when sent *)
  ev_x_forwarded_for : option string;  (* header X-Forwarded-For, when sent *)
  ev_remote_addr : option string;      (* request.remote_addr, None when unknown *)
  ev_p : option string;                (* query parameter p, when given *)
  ev_b : option string;                (* query parameter b, when given *)
  ev_time_clean : Q;                   (* time.time() in clean_ip_tracker *)
  ev_time_limit : Q;                   (* time.time() in is_rate_limited *)
  ev_created : Z;                      (* datetime.now() of created_at *)
  ev_now : Z;                          (* datetime.now() of the click *)
  ev_can_write : bool }.

Definition redirect : response unit := RedirectResponse FINAL_DESTINATION 302.

Definition new_post (platform badge_type : string) (created : Z) : post :=
  Post 0 platform badge_type "unknown" "" None None created.

Definition add_click (p : post) : post :=
  Post (clicks p + 1) (platform p) (badge_type p) (username p) (post_url p)
       (first_click p) (last_click p) (created_at p).

(** [if not post["first_click"]: post["first_click"] = now] *)
Definition set_first_click (now : Z) (p : post) : post :=
  Post (clicks p) (platform p) (badge_type p) (username p) (post_url p)
       (match first_click p with Some t => Some t | None => Some now end)
       (last_click p) (created_at p).

Definition set_last_click (now : Z) (p : post) : post :=
  Post (clicks p) (platform p) (badge_type p) (username p) (post_url p)
       (first_click p) (Some now) (created_at p).

(** The body of the [try]. *)
Definition track_click_body (ev : click_event) : M state (response unit) :=
  let tracking_id := ev_tracking_id ev in
  let user_agent := default "" (ev_user_agent ev) in
  let ip := match ev_x_forwarded_for ev with
            | Some s => Some s
            | None => ev_remote_addr ev
            end in
  run modify (fun s => set_tracker (clean_ip_tracker (ev_time_clean ev) (st_tracker s)) s) then
  if is_bot_request (Some user_agent) ip then
    run modify_data (fun d =>
          ClickData (total_clicks d) (posts d) (click_history d)
                    (bot_requests_blocked d + 1)) then
    ret redirect
  else
    let* limited := (fun s =>
      let '(r, t) := is_rate_limited ip tracking_id (ev_time_limit ev) (st_tracker s) in
      (Return r, set_tracker t s)) in
    if limited : bool then ret redirect
    else
      let platform := default "unknown" (ev_p ev) in
      let badge_type := default "unknown" (ev_b ev) in
      run modify_data (fun d =>
            match dict_get tracking_id (posts d) with
            | Some _ => d
            | None =>
                ClickData (total_clicks d)
                          (dict_set tracking_id
                             (new_post platform badge_type (ev_created ev)) (posts d))
                          (click_history d) (bot_requests_blocked d)
            end) then
      run update_post tracking_id add_click then
      run modify_data (fun d =>
            ClickData (total_clicks d + 1) (posts d) (click_history d)
                      (bot_requests_blocked d)) then
      let now := ev_now ev in
      run update_post tracking_id (set_first_click now) then
      run update_post tracking_id (set_last_click now) then
      let* ip15 := (match ip with
                    | Some s => ret (PyStr.take 15 s)
                    | None => raise (Error TypeError)
                    end) in
      let click_record :=
        ClickRecord tracking_id now platform badge_type ip15
                    (PyStr.take 30 user_agent) true in
      run modify_data (fun d =>
            ClickData (total_clicks d) (posts d) (click_history d ++ [click_record])
                      (bot_requests_blocked d)) then
      run modify_data (fun d =>
            if (50 <? length (click_history d))%nat
            then ClickData (total_clicks d) (posts d) (last_n 50 (click_history d))
                           (bot_requests_blocked d)
            else d) then
      run save_data (ev_can_write ev) then
      ret redirect.

Definition run_handler {A} (h : M state (response A)) (st : state)
    : response A * state :=
  let '(o, s) := h st in (serve o, s).

Definition track_click (ev : click_event) (st : state) : response unit * state :=
  run_handler (try_except (track_click_body ev) (fun _ => ret redirect)) st.

(** *** [GET /api/analytics] *)

Record post_view : Type := PostView {
  pv_tracking_id : string;
  pv_clicks : Z;
  pv_platform : string;
  pv_badge_type : string;
  pv_username : string;
  pv_post_url : string;
  pv_first_click : option Z;
  pv_last_click : option Z;
  pv_created_at : Z }.

Record click_view : Type := ClickView {
  cv_timestamp : Z;
  cv_tracking_id : string;
  cv_platform : string;
  cv_badge_type : string }.

Record stats_view : Type := StatsView {
  sv_human_clicks : Z;
  sv_bot_requests_blocked : Z;
  sv_total_requests : Z }.

Record analytics : Type := Analytics {
  an_total_clicks : Z;
  an_total_posts : Z;
  an_clicks_by_platform : gmap string Z;
  an_clicks_by_badge_type : gmap string Z;
  an_top_posts : list post_view;
  an_recent_clicks : list click_view;
  an_avg_clicks_per_post : Q;
  an_bot_requests_blocked : Z;
  an_stats : stats_view }.

Definition view_post (entry : string * post) : post_view :=
  let '(tracking_id, post_data) := entry in
  PostView tracking_id (clicks post_data) (platform post_data)
           (badge_type post_data) (username post_data) (post_url post_data)
           (first_click post_data) (last_click post_data) (created_at post_data).

Definition view_click (click : click_record) : click_view :=
  ClickView (cr_timestamp click) (cr_tracking_id click)
            (cr_platform click) (cr_badge_type click).

(** [sum(p["clicks"] for p in posts_list)] *)
Definition sum_clicks (l : list post_view) : Z :=
  fold_left (fun acc p => acc + pv_clicks p) l 0.

(** [stats[k] = stats.get(k, 0) + post["clicks"]], once per post. *)
Definition add_to (col : post_view -> string) (stats : gmap string Z)
    (p : post_view) : gmap string Z :=
  <[col p := default 0 (stats !! col p) + pv_clicks p]> stats.

Definition stats_by (col : post_view -> string) (l : list post_view)
    : gmap string Z :=
  fold_left (add_to col) l ∅.

Definition build_analytics (d : click_data_t) : analytics :=
  let posts_list := sort_desc pv_clicks (map view_post (posts d)) in
  let total_clicks := sum_clicks posts_list in
  Analytics total_clicks
            (Z.of_nat (length posts_list))
            (stats_by pv_platform posts_list)
            (stats_by pv_badge_type posts_list)
            (take 20 posts_list)
            (map view_click (List.filter cr_is_human (last_n 20 (click_history d))))
            (inject_Z total_clicks
             / inject_Z (Z.max (Z.of_nat (length posts_list)) 1))%Q
            (bot_requests_blocked d)
            (StatsView total_clicks (bot_requests_blocked d)
                       (total_clicks + bot_requests_blocked d)).

Definition get_analytics (st : state) : response analytics * state :=
  run_handler
    (try_except (fun s => (Return (JSONResponse 200 (build_analytics (st_data s))), s))
                (fun e => ret (HTTPError 500 (str_exn e))))
    st.

(** *** [POST /api/update-post-info]

    The body is a JSON object; each of the three keys is absent or holds a
    string. *)

Record update_request : Type := UpdateRequest {
  up_tracking_id : option string;
  up_post_url : option string;
  up_username : option string }.

Record update_event : Type := UpdateEvent {
  ue_data : update_request;
  ue_can_write : bool }.

(** The dict [updates] of the answer. *)
Record updates_view : Type := UpdatesView {
  uv_post_url : option string;
  uv_username : option string }.

Record update_payload : Type := UpdatePayload {
  ua_status : string;
  ua_tracking_id : string;
  ua_current_clicks : Z;
  ua_updates : updates_view }.

Definition set_post_url (url : string) (p : post) : post :=
  Post (clicks p) (platform p) (badge_type p) (username p) url
       (first_click p) (last_click p) (created_at p).

Definition set_username (name : string) (p : post) : post :=
  Post (clicks p) (platform p) (badge_type p) name (post_url p)
       (first_click p) (last_click p) (created_at p).

(** ['username' in data and data['username'] != 'unknown'] *)
Definition username_to_write (u : option string) : option string :=
  match u with
  | Some name => if String.eqb name "unknown" then None else Some name
  | None => None
  end.

(** [click_data["posts"][tracking_id]["clicks"]] *)
Definition read_clicks (tracking_id : string) : M state Z :=
  fun s => match dict_get tracking_id (posts (st_data s)) with
           | Some p => (Return (clicks p), s)
           | None => (Raise (Error KeyError), s)
           end.

Definition invalid_id : response update_payload :=
  HTTPError 404 (Detail "Invalid tracking ID").

Definition update_post_info_body (ev : update_event)
    : M state (response update_payload) :=
  let data := ue_data ev in
  let* d := (fun s => (Return (st_data s), s)) in
  match up_tracking_id data with
  | None => ret invalid_id
  | Some tracking_id =>
      if PyStr.falsy tracking_id
         || negb (bool_decide (is_Some (dict_get tracking_id (posts d))))
      then ret invalid_id
      else
        run (match up_post_url data with
             | Some url => update_post tracking_id (set_post_url url)
             | None => ret tt
             end) then
        run (match username_to_write (up_username data) with
             | Some name => update_post tracking_id (set_username name)
             | None => ret tt
             end) then
        run save_data (ue_can_write ev) then
        let* current_clicks := read_clicks tracking_id in
        ret (JSONResponse 200
               (UpdatePayload "success" tracking_id current_clicks
                  (UpdatesView (up_post_url data)
                               (username_to_write (up_username data)))))
  end.

Definition update_post_info (ev : update_event) (st : state)
    : response update_payload * state :=
  run_handler
    (try_except (update_post_info_body ev)
                (fun e => ret (HTTPError 500 (str_exn e))))
    st.

(** *** [GET /api/debug/<tracking_id>] *)

Record debug_payload : Type := DebugPayload {
  dp_tracking_id : string;
  dp_post_data : post;
  dp_history_clicks_count : Z;
  dp_stored_clicks : Z;
  dp_matches : bool }.

(** [len([c for c in click_history
          if c.get("tracking_id") == tracking_id and c.get("is_human", False)])] *)
Definition history_clicks (tracking_id : string) (d : click_data_t) : Z :=
  Z.of_nat (length (List.filter
                      (fun c => String.eqb (cr_tracking_id c) tracking_id
                                && cr_is_human c)
                      (click_history d))).

Definition debug_tracking (tracking_id : string) (st : state)
    : response debug_payload :=
  match dict_get tracking_id (posts (st_data st)) with
  | Some post_data =>
      let history_clicks := history_clicks tracking_id (st_data st) in
      JSONResponse 200
        (DebugPayload tracking_id post_data history_clicks (clicks post_data)
                      (history_clicks =? clicks post_data))
  | None => HTTPError 404 (Detail "Not found")
  end.

(** *** [POST /api/reset-all] *)

Record reset_payload : Type := ResetPayload {
  rp_status : string;
  rp_message : string;
  rp_total_clicks : Z;
  rp_total_posts : Z }.

Definition initial_data : click_data_t := ClickData 0 [] [] 0.

Definition reset_all_body (can_write : bool) : M state (response reset_payload) :=
  run modify (fun s => State initial_data ∅ (st_file s)) then
  run save_data can_write then
  ret (JSONResponse 200 (ResetPayload "success" "All data reset" 0 0)).

Definition reset_all (can_write : bool) (st : state)
    : response reset_payload * state :=
  run_handler (reset_all_body can_write) st.

(** *** [GET /api/test-bot-detection] *)

Record bot_test_payload : Type := BotTestPayload {
  bt_user_agent : string;
  bt_ip : option string;
  bt_is_bot : bool;
  bt_bot_indicators_found : list string }.

Definition test_bot_detection (user_agent_header x_forwarded_for remote_addr
                               : option string) : response bot_test_payload :=
  let user_agent := default "" user_agent_header in
  let ip := match x_forwarded_for with
            | Some s => Some s
            | None => remote_addr
            end in
  let is_bot := is_bot_request (Some user_agent) ip in
  JSONResponse 200
    (BotTestPayload user_agent ip is_bot
       (List.filter (fun indicator =>
                       PyStr.contains (PyStr.lower indicator) (PyStr.lower user_agent))
                    BOT_USER_AGENTS)).

(** *** Endpoints that name the public URL

    [PUBLIC_URL] is read from the environment when the module is loaded,
    [PORT] likewise; the two other variables are read at each call;
    [urlencode] is the library's. *)

Section Config.
Variable PUBLIC_URL : string.
Variable PORT : Z.
Variable RAILWAY_STATIC_URL : option string.
Variable RAILWAY_PUBLIC_DOMAIN : option string.
Variable urlencode : list (string * string) -> string.

(** [a or b] on two results of [os.getenv]. *)
Definition env_or (a b : option string) : option string :=
  match a with
  | Some s => if PyStr.falsy s then b else Some s
  | None => b
  end.

Definition get_public_url : string :=
  if negb (PyStr.falsy PUBLIC_URL) then
    if PyStr.startswith "http" PUBLIC_URL then PUBLIC_URL
    else "https://" ++ PUBLIC_URL
  else
    match env_or RAILWAY_STATIC_URL RAILWAY_PUBLIC_DOMAIN with
    | Some railway_env =>
        if negb (PyStr.falsy railway_env) then "https://" ++ railway_env
        else "http://localhost:" ++ NilZero.string_of_int (Z.to_int PORT)
    | None => "http://localhost:" ++ NilZero.string_of_int (Z.to_int PORT)
    end.

(** *** [GET /health] *)

Record health_payload : Type := HealthPayload {
  hp_status : string;
  hp_timestamp : Z;
  hp_total_posts : Z;
  hp_total_clicks : Z;
  hp_bot_requests_blocked : Z;
  hp_public_url : string;
  hp_is_production : bool;
  hp_version : string }.

Definition health (now : Z) (st : state) : response health_payload :=
  let d := st_data st in
  JSONResponse 200
    (HealthPayload "healthy" now (Z.of_nat (length (posts d))) (total_clicks d)
                   (bot_requests_blocked d) get_public_url
                   (negb (String.eqb PUBLIC_URL "")) "4.0_railway").

(** *** [POST /api/generate-tracking-url]

    The body is a JSON object; each of the three keys is absent or holds a
    string. *)

Record generate_request : Type := GenerateRequest {
  gr_platform : option string;
  gr_badge_type : option string;
  gr_username : option string }.

Record generate_event : Type := GenerateEvent {
  ge_data : generate_request;
  ge_hexdigest : string;      (* hashlib.md5(...).hexdigest() of the salted text *)
  ge_now : Z;                 (* datetime.now() of created_at *)
  ge_can_write : bool }.

Record post_info : Type := PostInfo {
  pi_platform : string;
  pi_badge_type : string;
  pi_username : string;
  pi_tracking_id : string;
  pi_initial_clicks : Z }.

Record generate_payload : Type := GeneratePayload {
  gp_tracking_id : string;
  gp_tracking_url : string;
  gp_public_url : string;
  gp_post_info : post_info }.

Definition generate_tracking_url_body (ev : generate_event)
    : M state (response generate_payload) :=
  let data := ge_data ev in
  let platform := default "facebook" (gr_platform data) in
  let badge_type := default "gold" (gr_badge_type data) in
  let username := default "unknown" (gr_username data) in
  let tracking_id := PyStr.take 8 (ge_hexdigest ev) in
  run modify_data (fun d =>
        ClickData (total_clicks d)
                  (dict_set tracking_id
                     (Post 0 platform badge_type username "" None None (ge_now ev))
                     (posts d))
                  (click_history d) (bot_requests_blocked d)) then
  run save_data (ge_can_write ev) then
  let params := [("p", PyStr.take 3 platform); ("b", PyStr.take 1 badge_type)] in
  let public_url := get_public_url in
  let tracking_url :=
    public_url ++ "/track/" ++ tracking_id ++ "?" ++ urlencode params in
  ret (JSONResponse 200
         (GeneratePayload tracking_id tracking_url public_url
            (PostInfo platform badge_type username tracking_id 0))).

Definition generate_tracking_url (ev : generate_event) (st : state)
    : response generate_payload * state :=
  run_handler
    (try_except (generate_tracking_url_body ev)
                (fun e => ret (HTTPError 500 (str_exn e))))
    st.

End Config.

End Railway.

(** ** Vocabulary of the statements *)

(** Some token of the list occurs in the user agent, up to case. *)
Definition has_token (tokens : list string) (user_agent : string) : Prop :=
  exists t, In t tokens /\ PyStr.ci_substring_of t user_agent.

(** No call to the storage fails. *)
Definition no_faults (faults : list bool) : Prop := Forall (fun b => b = true) faults.

Module DbSpec.
Import Db.

(** The address that [track_click] works with, when the server names the
    client. *)
Definition ip_of (ev : click_event) (host : string) : string :=
  default host (ev_x_forwarded_for ev).

(** The history row of an accepted click. *)
Definition history_row (ev : click_event) (host : string) : click_row :=
  ClickRow (ev_tracking_id ev) (ev_db_now ev)
           (default "unknown" (ev_p ev)) (default "unknown" (ev_b ev))
           (if PyStr.falsy (ip_of ev host) then "unknown"
            else PyStr.take 15 (ip_of ev host))
           (PyStr.take 100 (default "" (ev_user_agent ev))) true.

(** The database after an accepted click, and after a blocked bot. *)
Definition accepted_db (ev : click_event) (host : string) (d : database)
    : database :=
  Database (update_where (ev_tracking_id ev) (count_click (ev_now ev)) (posts d))
           (click_history d ++ [history_row ev host])
           (bot_requests_blocked d).

Definition bumped_db (d : database) : database :=
  Database (posts d) (click_history d) (bot_requests_blocked d + 1).

(** The counters of the post with this tracking id: clicks, first click,
    last click; a post that is not stored has none. *)
Definition counters (tid : string) (d : database)
    : option (Z * option Z * option Z) :=
  match head (select_post tid d) with
  | Some r => Some (clicks r, first_click r, last_click r)
  | None => None
  end.

(** What [confirm_post] makes of a row with the tracking id of the
    request. *)
Definition confirmed_row (ev : confirm_event) (r : post_row) : post_row :=
  let data := ce_data ev in
  let r1 := confirm_row (cp_post_url data) (cp_platform data) (ce_now ev) r in
  if username_given (cp_username data)
  then set_username (default "" (cp_username data)) r1
  else r1.

Definition not_found : response confirm_payload :=
  HTTPError 404 (Detail "Tracking ID not found").

Definition confirm_ok (ev : confirm_event) : response confirm_payload :=
  JSONResponse 200
    (ConfirmPayload "success" (cp_tracking_id (ce_data ev))
                    (cp_post_url (ce_data ev)) true
                    "Post confirmed and ready for tracking").

(** The results of the queries of [get_analytics] that are read by column
    name, as the endpoint binds them. *)
Definition from_queries (d : database) (qr : query_results) : Prop :=
  qr_posts qr = select_confirmed_posts d
  /\ qr_totals qr = select_totals d
  /\ qr_platform_stats qr = dict_of_rows (select_group_sums platform d)
  /\ qr_badge_stats qr = dict_of_rows (select_group_sums badge_type d)
  /\ qr_recent_clicks qr = select_recent_clicks d.

(** The sum of the clicks of the rows whose column [col] is [k], when there
    is such a row. *)
Definition group_sum (col : post_row -> string) (k : string)
    (rows : list post_row) : option Z :=
  if existsb (fun r => String.eqb (col r) k) rows
  then Some (sumZ (map clicks (List.filter (fun r => String.eqb (col r) k) rows)))
  else None.

(** The constraints of the schema: [tracking_id] is the primary key of
    [posts], and every row of [click_history] refers to a stored post. *)
Definition well_formed (d : database) : Prop :=
  NoDup (map tracking_id (posts d))
  /\ forall ch, In ch (click_history d) ->
                exists p, In p (posts d) /\ tracking_id p = ch_tracking_id ch.

(** No stored post with this tracking id is confirmed (in particular when
    none is stored). *)
Definition never_confirmed (tid : string) (d : database) : Prop :=
  forall r, In r (posts d) -> tracking_id r = tid -> confirmed r = false.
End DbSpec.

Module RailwaySpec.
Import Railway.

(** The address that [track_click] works with. *)
Definition ip_of (ev : click_event) : option string :=
  match ev_x_forwarded_for ev with
  | Some s => Some s
  | None => ev_remote_addr ev
  end.

(** The answers of the two filters for this request. *)
Definition is_bot (ev : click_event) : bool :=
  is_bot_request (Some (default "" (ev_user_agent ev))) (ip_of ev).

Definition limited (ev : click_event) (st : state) : bool :=
  fst (is_rate_limited (ip_of ev) (ev_tracking_id ev) (ev_time_limit ev)
         (clean_ip_tracker (ev_time_clean ev) (st_tracker st))).

(** The post that the click is counted on: the stored one, or the one that
    the handler creates. *)
Definition post_before (ev : click_event) (d : click_data_t) : post :=
  default (new_post (default "unknown" (ev_p ev)) (default "unknown" (ev_b ev))
                    (ev_created ev))
          (dict_get (ev_tracking_id ev) (posts d)).

Definition counted_post (now : Z) (p : post) : post :=
  set_last_click now (set_first_click now (add_click p)).

Definition history_record (ev : click_event) (ip : string) : click_record :=
  ClickRecord (ev_tracking_id ev) (ev_now ev)
              (default "unknown" (ev_p ev)) (default "unknown" (ev_b ev))
              (PyStr.take 15 ip)
              (PyStr.take 30 (default "" (ev_user_agent ev))) true.

(** The history after one more record, cut to the last 50. *)
Definition appended (r : click_record) (h : list click_record)
    : list click_record :=
  if (50 <? length (h ++ [r]))%nat then last_n 50 (h ++ [r]) else h ++ [r].

Definition bumped (d : click_data_t) : click_data_t :=
  ClickData (total_clicks d) (posts d) (click_history d)
            (bot_requests_blocked d + 1).

(** The counters of the post with this tracking id. *)
Definition counters (tid : string) (d : click_data_t)
    : option (Z * option Z * option Z) :=
  match dict_get tid (posts d) with
  | Some p => Some (clicks p, first_click p, last_click p)
  | None => None
  end.

(** A post of this variant has no key [confirmed]: no handler of the file
    writes or reads one, so no stored post is ever confirmed. *)
Definition confirmed (p : post) : bool := false.

(** The stored posts as the analytics sees them, in stored order. *)
Definition all_posts (d : click_data_t) : list post_view :=
  map view_post (posts d).

Definition group_sum (col : post_view -> string) (k : string)
    (l : list post_view) : option Z :=
  if existsb (fun p => String.eqb (col p) k) l
  then Some (sumZ (map pv_clicks (List.filter (fun p => String.eqb (col p) k) l)))
  else None.
End RailwaySpec.

(** ** Sample requests and stores *)

Module Sample.

Definition chrome : string :=
  "Mozilla/5.0 (Windows NT 10.0; Win64; x64) AppleWebKit/537.36 (KHTML, like Gecko) Chrome/120.0.0.0 Safari/537.36".

(** A browser click on tracking id [ab12cd34], read at second [t] of the
    clock and microsecond [now] of the calendar. *)
Definition db_click (addr : string) (t : Q) (now : Z) : Db.click_event :=
  Db.ClickEvent "ab12cd34" (Some chrome) None (Some addr)
                (Some "fac") (Some "g") t t now now [].

Definition railway_click (addr : string) (t : Q) (now : Z)
    : Railway.click_event :=
  Railway.ClickEvent "ab12cd34" (Some chrome) None (Some addr)
                     (Some "fac") (Some "g") t t now now true.

(** A pending post, as [generate_tracking_url] inserts it. *)
Definition pending_post : Db.post_row :=
  Db.PostRow "ab12cd34" "alice" "gold" "facebook" None 0 false None None 1000 None.

Definition db_pending : Db.state :=
  Db.State (Db.Database [pending_post] [] 0) ∅.

Definition db_empty : Db.state := Db.State (Db.Database [] [] 0) ∅.

Definition railway_empty : Railway.state :=
  Railway.State (Railway.ClickData 0 [] [] 0) ∅ None.

Definition confirm : Db.confirm_event :=
  Db.ConfirmEvent
    (Db.MkConfirmPostRequest "ab12cd34" "https://x.com/p/1" "facebook" None)
    2000 [].

(** The pending post once confirmed. *)
Definition db_confirmed : Db.state :=
  snd (Db.confirm_post confirm db_pending).

End Sample.

(** ** Runs of the click endpoint

    A store seen through the counters of its posts, and the events that are
    handled one after the other. *)

Section ClickLog.
Context {St Ev : Type}.
Variable step : Ev -> St -> St.
Variable counters : string -> St -> option (Z * option Z * option Z).
Variable now : Ev -> Z.

(** A post that is not stored has no click. *)
Definition view (tid : string) (st : St) : Z * option Z * option Z :=
  default (0, None, None) (counters tid st).

Definition clicks_of (tid : string) (st : St) : Z := fst (fst (view tid st)).
Definition first_click_of (tid : string) (st : St) : option Z :=
  snd (fst (view tid st)).
Definition last_click_of (tid : string) (st : St) : option Z :=
  snd (view tid st).

Definition run_all (evs : list Ev) (st : St) : St :=
  fold_left (fun s ev => step ev s) evs st.

(** The event is an accepted click on the post: its counter moves. *)
Definition accepted (tid : string) (ev : Ev) (st : St) : bool :=
  negb (clicks_of tid (step ev st) =? clicks_of tid st).

(** The timestamp of the last accepted click on the post during a run. *)
Fixpoint last_accepted (tid : string) (evs : list Ev) (st : St) : option Z :=
  match evs with
  | [] => None
  | ev :: rest =>
      match last_accepted tid rest (step ev st) with
      | Some t => Some t
      | None => if accepted tid ev st then Some (now ev) else None
      end
  end.

(** The number of accepted clicks on the post during a run. *)
Fixpoint count_accepted (tid : string) (evs : list Ev) (st : St) : Z :=
  match evs with
  | [] => 0
  | ev :: rest =>
      (if accepted tid ev st then 1 else 0)
      + count_accepted tid rest (step ev st)
  end.

(** The invariants of the counters of every post, over every run. *)
Definition click_log_invariants : Prop :=
  forall tid : string,
    (* the counter only grows, by the number of accepted clicks *)
    (forall evs st,
       clicks_of tid st <= clicks_of tid (run_all evs st)
       /\ clicks_of tid (run_all evs st)
          = clicks_of tid st + count_accepted tid evs st)
    (* a first click that is set stays as it is *)
    /\ (forall evs st t,
          first_click_of tid st = Some t ->
          first_click_of tid (run_all evs st) = Some t)
    (* an accepted click adds one and stamps the last click *)
    /\ (forall ev st,
          accepted tid ev st = true ->
          clicks_of tid (step ev st) = clicks_of tid st + 1
          /\ last_click_of tid (step ev st) = Some (now ev))
    (* the first accepted click sets the first click, to the same stamp *)
    /\ (forall ev st,
          accepted tid ev st = true ->
          first_click_of tid st = None ->
          first_click_of tid (step ev st) = Some (now ev))
    (* any other event leaves the counters of the post as they were *)
    /\ (forall ev st,
          accepted tid ev st = false -> view tid (step ev st) = view tid st)
    (* the last click is the stamp of the most recent accepted click *)
    /\ (forall evs st,
          last_click_of tid (run_all evs st)
          = match last_accepted tid evs st with
            | Some t => Some t
            | None => last_click_of tid st
            end).
End ClickLog.

Definition db_step (ev : Db.click_event) (st : Db.state) : Db.state :=
  snd (Db.track_click ev st).
Definition db_counters (tid : string) (st : Db.state) :=
  DbSpec.counters tid (Db.st_db st).

Definition railway_step (ev : Railway.click_event) (st : Railway.state)
    : Railway.state :=
  snd (Railway.track_click ev st).
Definition railway_counters (tid : string) (st : Railway.state) :=
  RailwaySpec.counters tid (Railway.st_data st).

Module Sample2.

(** The store of the PostgreSQL variant after the confirmed post was clicked
    from two addresses, with one more post still pending. *)
Definition db_two_clicks : Db.database :=
  let d := Db.st_db (run_all db_step
                       [Sample.db_click "203.0.113.7" 10 5000;
                        Sample.db_click "198.51.100.9" 20 6000]
                       Sample.db_confirmed) in
  Db.Database
    (Db.posts d
     ++ [Db.PostRow "99ff00aa" "bob" "silver" "twitter" None 0 false None None
                    3000 None])
    (Db.click_history d) (Db.bot_requests_blocked d).

Definition queries_two_clicks : Db.query_results :=
  Db.QueryResults (Db.select_confirmed_posts db_two_clicks)
                  (Db.select_totals db_two_clicks)
                  (Db.dict_of_rows (Db.select_group_sums Db.platform db_two_clicks))
                  (Db.dict_of_rows (Db.select_group_sums Db.badge_type db_two_clicks))
                  (Db.select_recent_clicks db_two_clicks)
                  1 1 0.

(** The store of the file-backed variant after two browser clicks on a
    tracking id that was never generated. *)
Definition railway_two_clicks : Railway.click_data_t :=
  Railway.st_data (run_all railway_step
                     [Sample.railway_click "203.0.113.7" 10 5000;
                      Sample.railway_click "198.51.100.9" 20 6000]
                     Sample.railway_empty).

End Sample2.

(** ** Vocabulary of the further statements *)

Module DbTerms.
Import Db DbSpec.

(** What [track_click] leaves behind when the storage works and the server
    names the client. *)
Definition click_result (ev : click_event) (host : string) (st : state) : state :=
  let user_agent := default "" (ev_user_agent ev) in
  let ip := ip_of ev host in
  let swept := clean_ip_tracker (ev_time_clean ev) (st_tracker st) in
  if is_bot_request (Some user_agent) (Some ip) then
    State (bumped_db (st_db st)) swept
  else
    let '(limited, tracker) :=
      is_rate_limited (Some ip) (ev_tracking_id ev) (ev_time_limit ev) swept in
    if limited then State (st_db st) tracker
    else
      match head (select_post (ev_tracking_id ev) (st_db st)) with
      | Some post =>
          if confirmed post then State (accepted_db ev host (st_db st)) tracker
          else State (st_db st) tracker
      | None => State (st_db st) tracker
      end.

(** The number of history rows of a tracking id. *)
Definition history_rows (tid : string) (d : database) : Z :=
  Z.of_nat (length (List.filter (fun ch => String.eqb (ch_tracking_id ch) tid)
                                (click_history d))).

(** The database after a confirmation. *)
Definition confirmed_db (ev : confirm_event) (d : database) : database :=
  set_posts (update_where (cp_tracking_id (ce_data ev)) (confirmed_row ev) (posts d)) d.

(** The row that [generate_tracking_url] inserts. *)
Definition pending_row (ev : generate_event) : post_row :=
  PostRow (PyStr.take 8 (ge_hexdigest ev)) (tr_username (ge_data ev))
          (tr_badge_type (ge_data ev)) (tr_platform (ge_data ev))
          None 0 false None None (ge_db_now ev) None.

Definition generated_db (ev : generate_event) (d : database) : database :=
  Database (posts d ++ [pending_row ev]) (click_history d) (bot_requests_blocked d).



(** The answer of [generate_tracking_url] when the insert is committed. *)
Definition generate_ok (PUBLIC_URL : string)
    (urlencode : list (string * string) -> string) (ev : generate_event)
    : response generate_payload :=
  let data := ge_data ev in
  let tracking_id := PyStr.take 8 (ge_hexdigest ev) in
  JSONResponse 200
    (GeneratePayload tracking_id
       (PUBLIC_URL ++ "/track/" ++ tracking_id ++ "?"
        ++ urlencode [("p", PyStr.take 3 (tr_platform data));
                      ("b", PyStr.take 1 (tr_badge_type data))])
       PUBLIC_URL
       (PostInfo (tr_platform data) (tr_badge_type data) (tr_username data)
                 tracking_id 0 false)).

(** The healthy answer of [health] on a database. *)
Definition healthy (PUBLIC_URL : string) (now : Z) (d : database)
    : health_payload :=
  Healthy now (count_confirmed d) (count_pending d)
          (default 0 (sum_confirmed d)) (bot_requests_blocked d)
          PUBLIC_URL "PostgreSQL"
          (PyStr.contains "railway" (PyStr.lower PUBLIC_URL)) "6.0_postgres".



End DbTerms.

Module Sample3.

(** A preview fetch of the tracking link by a crawler. *)
Definition db_bot_click : Db.click_event :=
  Db.ClickEvent "ab12cd34" (Some "facebookexternalhit/1.1") None
                (Some "203.0.113.7") (Some "fac") (Some "g") 10 10 5000 5000 [].

End Sample3.

Module RailwayTerms.
Import Railway RailwaySpec.

(** [click_data] after a counted click, with the history that it ends with. *)
Definition counted_data (ev : click_event) (d : click_data_t)
    (history : list click_record) : click_data_t :=
  ClickData (total_clicks d + 1)
            (dict_set (ev_tracking_id ev)
               (counted_post (ev_now ev) (post_before ev d)) (posts d))
            history (bot_requests_blocked d).

(** What [track_click] leaves behind. *)
Definition click_result (ev : click_event) (st : state) : state :=
  let d := st_data st in
  let swept := clean_ip_tracker (ev_time_clean ev) (st_tracker st) in
  if is_bot ev then State (bumped d) swept (st_file st)
  else
    let '(limited, tracker) :=
      is_rate_limited (ip_of ev) (ev_tracking_id ev) (ev_time_limit ev) swept in
    if limited then State d tracker (st_file st)
    else
      match ip_of ev with
      | None => State (counted_data ev d (click_history d)) tracker (st_file st)
      | Some ip =>
          let d2 := counted_data ev d
                      (appended (history_record ev ip) (click_history d)) in
          State d2 tracker (if ev_can_write ev then Some d2 else st_file st)
      end.

(** The sum of the click counters of the stored posts. *)
Definition sum_posts (d : click_data_t) : Z :=
  sumZ (map (fun e => clicks (snd e)) (posts d)).

(** The running total agrees with the posts, and the history is within its
    bound. *)
Definition consistent (d : click_data_t) : Prop :=
  total_clicks d = sum_posts d /\ (length (click_history d) <= 50)%nat.

(** No post has more history records than clicks. *)
Definition history_within_clicks (d : click_data_t) : Prop :=
  forall tid, history_clicks tid d
              <= fst (fst (default (0, None, None) (counters tid d))).

(** The post after the writes of [update_post_info]. *)
Definition updated_post (data : update_request) (p : post) : post :=
  let p1 := match up_post_url data with
            | Some url => set_post_url url p
            | None => p
            end in
  match username_to_write (up_username data) with
  | Some name => set_username name p1
  | None => p1
  end.

(** The answer of [update_post_info] and what it leaves behind. *)
Definition update_result (ev : update_event) (st : state)
    : response update_payload * state :=
  let data := ue_data ev in
  let d := st_data st in
  match up_tracking_id data with
  | None => (invalid_id, st)
  | Some tid =>
      if PyStr.falsy tid then (invalid_id, st)
      else
        match dict_get tid (posts d) with
        | None => (invalid_id, st)
        | Some p =>
            let d' := ClickData (total_clicks d)
                                (dict_set tid (updated_post data p) (posts d))
                                (click_history d) (bot_requests_blocked d) in
            if ue_can_write ev
            then (JSONResponse 200
                    (UpdatePayload "success" tid (clicks p)
                       (UpdatesView (up_post_url data)
                                    (username_to_write (up_username data)))),
                  State d' (st_tracker st) (Some d'))
            else (HTTPError 500 (StrOfError OSError),
                  State d' (st_tracker st) (st_file st))
        end
  end.

(** The post that [generate_tracking_url] stores. *)
Definition generated_post (ev : generate_event) : post :=
  Post 0 (default "facebook" (gr_platform (ge_data ev)))
       (default "gold" (gr_badge_type (ge_data ev)))
       (default "unknown" (gr_username (ge_data ev)))
       "" None None (ge_now ev).

Definition generated_id (ev : generate_event) : string :=
  PyStr.take 8 (ge_hexdigest ev).

Definition generated_data (ev : generate_event) (d : click_data_t)
    : click_data_t :=
  ClickData (total_clicks d)
            (dict_set (generated_id ev) (generated_post ev) (posts d))
            (click_history d) (bot_requests_blocked d).

(** The clicks of the post stored under an id, 0 when there is none. *)
Definition stored_clicks (tid : string) (d : click_data_t) : Z :=
  match dict_get tid (posts d) with Some p => clicks p | None => 0 end.

(** The analytics of a store with no post and no click. *)
Definition empty_analytics : analytics :=
  Analytics 0 0 ∅ ∅ [] [] 0 0 (StatsView 0 0 0).

End RailwayTerms.

Module Sample4.

(** A browser click that reaches the file-backed handler with no client
    address. *)
Definition railway_click_no_address : Railway.click_event :=
  Railway.ClickEvent "ab12cd34" (Some Sample.chrome) None None
                     (Some "fac") (Some "g") 10 10 5000 5000 true.

End Sample4.

Module Sample5.

(** A tracker that holds a burst of five requests. *)
Definition busy_tracker : ip_tracker_t :=
  {[ "203.0.113.7_ab12cd34" := (15%Q, 5) ]}.

(** The file-backed store after two clicks, and a request that names the
    post of the clicked link. *)
Definition railway_clicked : Railway.state :=
  Railway.State Sample2.railway_two_clicks ∅ None.

Definition railway_update : Railway.update_event :=
  Railway.UpdateEvent
    (Railway.UpdateRequest (Some "ab12cd34") (Some "https://x.com/p/1")
                           (Some "unknown"))
    true.

End Sample5.

Module Sample6.

(** A request for a link, and the way the sample deployment encodes a query
    string. *)
Definition railway_generate : Railway.generate_event :=
  Railway.GenerateEvent
    (Railway.GenerateRequest (Some "twitter") None (Some "bob"))
    "ab12cd34ef567890ab12cd34ef567890" 7000 true.

Definition amp_join (params : list (string * string)) : string :=
  String.concat "&" (map (fun kv => fst kv ++ "=" ++ snd kv) params).

End Sample6.

Module Sample7.


(** A request for a link on the sample deployment. *)
Definition db_generate : Db.generate_event :=
  Db.GenerateEvent (Db.MkTrackingURLRequest "facebook" "gold" "alice")
                   "ab12cd34ef567890ab12cd34ef567890" 1000 [].

End Sample7.

(** * Properties *)

(** ** Strings *)

Module PyStrFacts.
Import PyStr.

Lemma lower_char_idem (c : ascii) : lower_char (lower_char c) = lower_char c.
Proof. destruct c as [[] [] [] [] [] [] [] []]; reflexivity. Qed.

Lemma lower_idem (s : string) : lower (lower s) = lower s.
Proof.
  induction s as [|c s IH]; simpl; [reflexivity|].
  now rewrite lower_char_idem, IH.
Qed.

Lemma lower_app (a b : string) : lower (a ++ b) = (lower a ++ lower b)%string.
Proof. induction a as [|c a IH]; simpl; [reflexivity | now rewrite IH]. Qed.

(** A split of [lower s] comes from a split of [s]. *)
Lemma lower_app_inv (s x y : string) :
  lower s = (x ++ y)%string ->
  exists a b, s = (a ++ b)%string /\ lower a = x /\ lower b = y.
Proof.
  revert s; induction x as [|c x IH]; intros s H; simpl in H.
  - exists EmptyString, s. auto.
  - destruct s as [|d s]; simpl in H; [discriminate|].
    injection H as Hc Hs.
    destruct (IH s Hs) as (a & b & -> & Ha & Hb).
    exists (String d a), b. simpl. now rewrite Hc, Ha.
Qed.

Lemma startswith_spec (t s : string) :
  startswith t s = true <-> exists post, s = (t ++ post)%string.
Proof.
  revert s; induction t as [|a t IH]; intros s; simpl.
  - split; [intros _; now exists s | reflexivity].
  - destruct s as [|b s].
    + split; [discriminate | intros [post H]; discriminate].
    + destruct (Ascii.eqb_spec a b) as [->|Hne].
      * rewrite IH. split; intros [post H]; exists post.
        -- now rewrite H.
        -- now injection H.
      * split; [discriminate|]. intros [post H]. injection H as H1 _.
        now subst.
Qed.

Lemma contains_spec (t s : string) :
  contains t s = true <-> substring_of t s.
Proof.
  unfold substring_of.
  induction s as [|c s IH]; simpl.
  - rewrite startswith_spec. split.
    + intros [post H]. now exists EmptyString, post.
    + intros (pre & post & H).
      destruct pre; simpl in H; [now exists post | discriminate].
  - rewrite orb_true_iff, IH, startswith_spec. split.
    + intros [[post H] | (pre & post & H)].
      * now exists EmptyString, post.
      * exists (String c pre), post. simpl. now rewrite H.
    + intros (pre & post & H). destruct pre as [|d pre]; simpl in H.
      * left. now exists post.
      * right. injection H as _ H. now exists pre, post.
Qed.

(** [t.lower() in s.lower()] is occurrence up to case. *)
Lemma contains_lower_spec (t s : string) :
  contains (lower t) (lower s) = true <-> ci_substring_of t s.
Proof.
  rewrite contains_spec. unfold substring_of, ci_substring_of. split.
  - intros (pre & post & H).
    apply lower_app_inv in H as (a & b & -> & Ha & Hb).
    apply lower_app_inv in Hb as (m & c & -> & Hm & Hc).
    now exists a, m, c.
  - intros (pre & mid & post & -> & Hmid).
    exists (lower pre), (lower post).
    now rewrite !lower_app, Hmid.
Qed.

(** The same for a token that is already in lower case. *)
Lemma contains_lowercase_spec (t s : string) :
  lower t = t -> (contains t (lower s) = true <-> ci_substring_of t s).
Proof. intros H. rewrite <- contains_lower_spec. now rewrite H. Qed.

Lemma ci_substring_nonempty (t s : string) :
  t <> EmptyString -> ci_substring_of t s -> s <> EmptyString.
Proof.
  intros Ht (pre & mid & post & -> & Hm) Hs.
  destruct pre; [|discriminate]. destruct mid; [|discriminate].
  destruct t; [congruence | discriminate].
Qed.

Lemma take_length (n : nat) (s : string) :
  (String.length (take n s) <= n)%nat.
Proof.
  revert s; induction n as [|n IH]; intros [|c s]; simpl; try lia.
  specialize (IH s). lia.
Qed.

End PyStrFacts.

(** ** Bot classifier *)

Module BotFacts.
Import PyStr PyStrFacts.

(** The patterns handed to [re.search] are read literally. *)
Lemma bot_patterns_literal : forallb literal_pattern bot_patterns = true.
Proof. reflexivity. Qed.

Lemma indicators_lowercase :
  forallb (fun t => String.eqb (lower t) t)
          (browser_indicators ++ mobile_indicators ++ bot_patterns) = true.
Proof. reflexivity. Qed.

Lemma lowercase_of (tokens : list string) :
  forallb (fun t => String.eqb (lower t) t) tokens = true ->
  forall t, In t tokens -> lower t = t.
Proof.
  intros H t Ht. rewrite forallb_forall in H.
  now apply String.eqb_eq, H.
Qed.

Lemma deny_list_loop_spec (tokens : list string) (s : string) :
  deny_list_loop tokens (lower s) = true <-> has_token tokens s.
Proof.
  unfold has_token. induction tokens as [|t ts IH]; simpl.
  - split; [discriminate | intros (t & [] & _)].
  - destruct (contains (lower t) (lower s)) eqn:E.
    + split; [intros _ | reflexivity].
      exists t. split; [now left | now apply contains_lower_spec].
    + rewrite IH. split.
      * intros (u & Hu & H). exists u. split; [now right | exact H].
      * intros (u & [<- | Hu] & H).
        -- apply contains_lower_spec in H. congruence.
        -- now exists u.
Qed.

Lemma any_indicator_spec (tokens : list string) (s : string) :
  (forall t, In t tokens -> lower t = t) ->
  (any_indicator tokens (lower s) = true <-> has_token tokens s).
Proof.
  unfold has_token. induction tokens as [|t ts IH]; simpl; intros Hl.
  - split; [discriminate | intros (t & [] & _)].
  - assert (Ht : lower t = t) by (apply Hl; now left).
    specialize (IH (fun u Hu => Hl u (or_intror Hu))).
    destruct (contains t (lower s)) eqn:E.
    + split; [intros _ | reflexivity].
      exists t. split; [now left | now apply contains_lowercase_spec].
    + rewrite IH. split.
      * intros (u & Hu & H). exists u. split; [now right | exact H].
      * intros (u & [<- | Hu] & H).
        -- apply (contains_lowercase_spec _ _ Ht) in H. congruence.
        -- now exists u.
Qed.

Lemma pattern_loop_spec (tokens : list string) (s : string) :
  (forall t, In t tokens -> lower t = t) ->
  (pattern_loop tokens (lower s) = true <-> has_token tokens s).
Proof.
  intros Hl. rewrite <- (any_indicator_spec tokens s Hl).
  induction tokens as [|t ts IH]; simpl; [reflexivity|].
  unfold re_search. destruct (contains t (lower s)); [reflexivity|].
  apply IH. intros u Hu. apply Hl. now right.
Qed.

Lemma browser_lowercase t : In t browser_indicators -> lower t = t.
Proof.
  apply lowercase_of. reflexivity.
Qed.

Lemma mobile_lowercase t : In t mobile_indicators -> lower t = t.
Proof. apply lowercase_of. reflexivity. Qed.

Lemma patterns_lowercase t : In t bot_patterns -> lower t = t.
Proof. apply lowercase_of. reflexivity. Qed.

(** The classifier as one boolean formula. *)
Lemma is_bot_request_unfold (s : string) (ip : option string) :
  is_bot_request (Some s) ip =
    falsy s
    || deny_list_loop BOT_USER_AGENTS (lower s)
    || (negb (any_indicator browser_indicators (lower s))
        && negb (any_indicator mobile_indicators (lower s))
        && pattern_loop bot_patterns (lower s)).
Proof.
  unfold is_bot_request. cbv zeta.
  generalize (deny_list_loop BOT_USER_AGENTS (lower s))
             (any_indicator browser_indicators (lower s))
             (any_indicator mobile_indicators (lower s))
             (pattern_loop bot_patterns (lower s)).
  intros [] [] [] []; destruct (falsy s); reflexivity.
Qed.

End BotFacts.

(** C2.  [is_bot_request] depends on the user agent alone and answers "bot"
    exactly when (1) the user agent is absent or empty, or (2) a deny-list
    token occurs in it up to case, or (3) no browser token and no mobile
    token occurs in it and a client-library pattern does; in every other case
    it answers "human".  In particular a user agent that holds a browser token
    and no deny-list token is human. *)
Theorem is_bot_request_decision_procedure
    (user_agent : option string) (ip : option string) :
  (is_bot_request user_agent ip = true <->
     (user_agent = None \/ user_agent = Some EmptyString)
     \/ (exists s, user_agent = Some s /\ has_token BOT_USER_AGENTS s)
     \/ (exists s, user_agent = Some s
                   /\ ~ has_token browser_indicators s
                   /\ ~ has_token mobile_indicators s
                   /\ has_token bot_patterns s))
  /\ (forall s, user_agent = Some s ->
                has_token browser_indicators s ->
                ~ has_token BOT_USER_AGENTS s ->
                is_bot_request user_agent ip = false)
  /\ is_bot_request user_agent ip = is_bot_request user_agent None.
Proof.
  destruct user_agent as [s|].
  2:{ split; [|split]; [| discriminate | reflexivity].
      split; [intros _; now left; left | reflexivity]. }
  pose proof (BotFacts.deny_list_loop_spec BOT_USER_AGENTS s) as Hd.
  pose proof (BotFacts.any_indicator_spec browser_indicators s
                BotFacts.browser_lowercase) as Hb.
  pose proof (BotFacts.any_indicator_spec mobile_indicators s
                BotFacts.mobile_lowercase) as Hm.
  pose proof (BotFacts.pattern_loop_spec bot_patterns s
                BotFacts.patterns_lowercase) as Hp.
  rewrite !BotFacts.is_bot_request_unfold.
  split; [|split]; [| | reflexivity].
  - rewrite !orb_true_iff, !andb_true_iff, !negb_true_iff. split.
    + intros [[H | H] | [[H1 H2] H3]].
      * left. right. destruct s; [reflexivity | discriminate].
      * right. left. exists s. split; [reflexivity | now apply Hd].
      * right. right. exists s. split; [reflexivity|].
        split; [|split].
        -- intros H. apply Hb in H. congruence.
        -- intros H. apply Hm in H. congruence.
        -- now apply Hp.
    + intros [[H | H] | [(s' & H & Ht) | (s' & H & Hnb & Hnm & Ht)]].
      * discriminate.
      * injection H as ->. now left; left.
      * injection H as <-. left; right. now apply Hd.
      * injection H as <-. right. split; [split|].
        -- destruct (any_indicator browser_indicators (PyStr.lower s)); [|reflexivity].
           exfalso. now apply Hnb, Hb.
        -- destruct (any_indicator mobile_indicators (PyStr.lower s)); [|reflexivity].
           exfalso. now apply Hnm, Hm.
        -- now apply Hp.
  - intros s' H Hbrowser Hdeny. injection H as <-.
    apply Hb in Hbrowser.
    destruct (deny_list_loop BOT_USER_AGENTS (PyStr.lower s)) eqn:E.
    + exfalso. now apply Hdeny, Hd.
    + destruct s as [|a s]; [discriminate Hbrowser|].
      rewrite Hbrowser. reflexivity.
Qed.

(** C2 at the user agent of a desktop browser. *)
Lemma is_bot_request_desktop_browser :
  is_bot_request
    (Some "Mozilla/5.0 (Windows NT 10.0; Win64; x64) AppleWebKit/537.36 (KHTML, like Gecko) Chrome/120.0.0.0 Safari/537.36")
    (Some "203.0.113.7") = false.
Proof.
  refine (proj1 (proj2 (is_bot_request_decision_procedure _ _)) _ eq_refl _ _).
  - apply (BotFacts.any_indicator_spec _ _ BotFacts.browser_lowercase).
    vm_compute. reflexivity.
  - intros H. apply BotFacts.deny_list_loop_spec in H.
    vm_compute in H. discriminate H.
Defined.

(** ** IP activity tracker *)

Module RateFacts.

Lemma Qgtb_true (a b : Q) : Qgtb a b = true <-> (b < a)%Q.
Proof.
  unfold Qgtb. rewrite negb_true_iff. split.
  - intros H. apply Qnot_le_lt. intros Hle.
    apply Qle_bool_iff in Hle. congruence.
  - intros H. destruct (Qle_bool a b) eqn:E; [|reflexivity].
    apply Qle_bool_iff in E. exfalso. revert E. now apply Qlt_not_le.
Qed.

Lemma Qgtb_false (a b : Q) : Qgtb a b = false <-> ~ (b < a)%Q.
Proof. rewrite <- Qgtb_true. now destruct (Qgtb a b). Qed.

Lemma Qltb_true (a b : Q) : Qltb a b = true <-> (a < b)%Q.
Proof. apply (Qgtb_true b a). Qed.

Lemma Qltb_false (a b : Q) : Qltb a b = false <-> ~ (a < b)%Q.
Proof. apply (Qgtb_false b a). Qed.

(** The key is the text [ip_tracking_id], so two requests can share it. *)
Example tracker_key_shared :
  tracker_key (Some "10.0.0.1_ab") "cd" = tracker_key (Some "10.0.0.1") "ab_cd".
Proof. reflexivity. Qed.

Section OneKey.
Variables (ip : option string) (tracking_id : string).
Let key := tracker_key ip tracking_id.

Lemma limit_no_entry now (tr : ip_tracker_t) :
  tr !! key = None ->
  is_rate_limited ip tracking_id now tr = (false, <[key := (now, 1)]> tr).
Proof. intros H. unfold is_rate_limited. fold key. now rewrite H. Qed.

Lemma limit_expired now (tr : ip_tracker_t) last count :
  tr !! key = Some (last, count) ->
  (3600 < now - last)%Q ->
  is_rate_limited ip tracking_id now tr = (false, <[key := (now, 1)]> tr).
Proof.
  intros H Hage. unfold is_rate_limited. fold key. rewrite H.
  apply Qgtb_true in Hage. now rewrite Hage.
Qed.

Lemma limit_burst now (tr : ip_tracker_t) last count :
  tr !! key = Some (last, count) ->
  ~ (3600 < now - last)%Q ->
  (now - last < 60)%Q -> 5 <= count ->
  is_rate_limited ip tracking_id now tr = (true, tr).
Proof.
  intros H Hage Hburst Hcount. unfold is_rate_limited. fold key. rewrite H.
  apply Qgtb_false in Hage. rewrite Hage.
  apply Qltb_true in Hburst. rewrite Hburst.
  assert ((count >=? 5) = true) as -> by lia. reflexivity.
Qed.

Lemma limit_counted now (tr : ip_tracker_t) last count :
  tr !! key = Some (last, count) ->
  ~ (3600 < now - last)%Q ->
  ~ ((now - last < 60)%Q /\ 5 <= count) ->
  is_rate_limited ip tracking_id now tr
  = (false, <[key := (now, count + 1)]> tr).
Proof.
  intros H Hage Hno. unfold is_rate_limited. fold key. rewrite H.
  apply Qgtb_false in Hage. rewrite Hage.
  destruct (Qltb (now - last) 60) eqn:E1; simpl; [|reflexivity].
  destruct (count >=? 5) eqn:E2; [|reflexivity].
  exfalso. apply Hno. split; [now apply Qltb_true | lia].
Qed.

(** One more counted call inside the burst window. *)
Lemma limit_step now (tr : ip_tracker_t) last count lo :
  (lo <= last)%Q -> (last < lo + 60)%Q ->
  (lo <= now)%Q -> (now < lo + 60)%Q ->
  count < 5 ->
  is_rate_limited ip tracking_id now (<[key := (last, count)]> tr)
  = (false, <[key := (now, count + 1)]> tr).
Proof.
  intros H1 H2 H3 H4 Hc.
  rewrite (limit_counted now _ last count).
  - now rewrite insert_insert_eq.
  - apply lookup_insert_eq.
  - intros H. lra.
  - intros [_ H]. lia.
Qed.

Lemma burst_of_six (tr : ip_tracker_t) t1 t2 t3 t4 t5 t6 lo :
  tr !! key = None ->
  Forall (fun t => (lo <= t)%Q /\ (t < lo + 60)%Q) [t1; t2; t3; t4; t5; t6] ->
  rate_limit_calls ip tracking_id [t1; t2; t3; t4; t5; t6] tr
  = ([false; false; false; false; false; true], <[key := (t5, 5)]> tr).
Proof.
  intros Hnone Hall.
  repeat match goal with
         | H : Forall _ (_ :: _) |- _ =>
             let Hx := fresh "Hx" in
             apply Forall_cons_iff in H as [[? ?] H]
         end.
  cbn [rate_limit_calls].
  rewrite (limit_no_entry t1 tr Hnone).
  rewrite (limit_step t2 tr t1 1 lo) by (assumption || lia).
  rewrite (limit_step t3 tr t2 (1 + 1) lo) by (assumption || lia).
  rewrite (limit_step t4 tr t3 (1 + 1 + 1) lo) by (assumption || lia).
  rewrite (limit_step t5 tr t4 (1 + 1 + 1 + 1) lo) by (assumption || lia).
  rewrite (limit_burst t6 _ t5 (1 + 1 + 1 + 1 + 1)).
  - reflexivity.
  - apply lookup_insert_eq.
  - intros H'. lra.
  - lra.
  - lia.
Qed.
(** The limiter writes counts of at least 1, and keeps them so. *)
Lemma counts_positive_kept now (tr : ip_tracker_t) :
  (forall k last count, tr !! k = Some (last, count) -> 1 <= count) ->
  forall k last count,
    snd (is_rate_limited ip tracking_id now tr) !! k = Some (last, count) ->
    1 <= count.
Proof.
  intros Hpos k last count. unfold is_rate_limited. fold key.
  destruct (tr !! key) as [[last0 count0]|] eqn:E.
  - pose proof (Hpos key last0 count0 E).
    destruct (Qgtb (now - last0) 3600);
      [|destruct (Qltb (now - last0) 60 && (count0 >=? 5))]; cbn [snd];
      try apply Hpos;
      (destruct (decide (key = k)) as [<- | Hne];
       [rewrite lookup_insert_eq; intros [= <- <-]; lia
       |rewrite lookup_insert_ne by exact Hne; apply Hpos]).
  - cbn [snd]. destruct (decide (key = k)) as [<- | Hne].
    + rewrite lookup_insert_eq. intros [= <- <-]. lia.
    + rewrite lookup_insert_ne by exact Hne. apply Hpos.
Qed.

(** A call that is not limited leaves an entry stamped with its time. *)
Lemma not_limited_first now (tr tr' : ip_tracker_t) :
  (forall last count, tr !! key = Some (last, count) -> 1 <= count) ->
  is_rate_limited ip tracking_id now tr = (false, tr') ->
  exists count, tr' !! key = Some (now, count) /\ 1 <= count.
Proof.
  intros Hpos. unfold is_rate_limited. fold key.
  destruct (tr !! key) as [[last count]|] eqn:E.
  - specialize (Hpos last count eq_refl).
    destruct (Qgtb (now - last) 3600).
    + intros H. injection H as <-. exists 1.
      rewrite lookup_insert_eq. split; [reflexivity | lia].
    + destruct (Qltb (now - last) 60 && (count >=? 5)); [discriminate|].
      intros H. injection H as <-. exists (count + 1).
      rewrite lookup_insert_eq. split; [reflexivity | lia].
  - intros H. injection H as <-. exists 1.
    rewrite lookup_insert_eq. split; [reflexivity | lia].
Qed.

(** Inside the window it counts one more. *)
Lemma not_limited_next now (tr tr' : ip_tracker_t) last count lo :
  tr !! key = Some (last, count) ->
  (lo <= last)%Q -> (last < lo + 60)%Q -> (lo <= now)%Q -> (now < lo + 60)%Q ->
  is_rate_limited ip tracking_id now tr = (false, tr') ->
  tr' !! key = Some (now, count + 1).
Proof.
  intros E H1 H2 H3 H4. unfold is_rate_limited. fold key. rewrite E.
  assert (Hage : Qgtb (now - last) 3600 = false) by (apply Qgtb_false; lra).
  rewrite Hage.
  destruct (Qltb (now - last) 60 && (count >=? 5)); [discriminate|].
  intros H. injection H as <-. apply lookup_insert_eq.
Qed.

Lemma sixth_is_limited (tr tr' : ip_tracker_t) t1 t2 t3 t4 t5 t6 lo b :
  (forall last count, tr !! key = Some (last, count) -> 1 <= count) ->
  Forall (fun t => (lo <= t)%Q /\ (t < lo + 60)%Q) [t1; t2; t3; t4; t5; t6] ->
  rate_limit_calls ip tracking_id [t1; t2; t3; t4; t5; t6] tr
  = ([false; false; false; false; false; b], tr') ->
  b = true.
Proof.
  intros Hpos Hall.
  repeat match goal with
         | H : Forall _ (_ :: _) |- _ => apply Forall_cons_iff in H as [[? ?] H]
         end.
  cbn [rate_limit_calls].
  destruct (is_rate_limited ip tracking_id t1 tr) as [b1 tr1] eqn:E1.
  destruct (is_rate_limited ip tracking_id t2 tr1) as [b2 tr2] eqn:E2.
  destruct (is_rate_limited ip tracking_id t3 tr2) as [b3 tr3] eqn:E3.
  destruct (is_rate_limited ip tracking_id t4 tr3) as [b4 tr4] eqn:E4.
  destruct (is_rate_limited ip tracking_id t5 tr4) as [b5 tr5] eqn:E5.
  destruct (is_rate_limited ip tracking_id t6 tr5) as [b6 tr6] eqn:E6.
  intros Hcalls. injection Hcalls as -> -> -> -> -> -> _.
  apply not_limited_first in E1 as (c & K1 & Hc); [|exact Hpos].
  apply (not_limited_next t2 tr1 tr2 t1 c lo K1) in E2; try assumption.
  apply (not_limited_next t3 tr2 tr3 t2 _ lo E2) in E3; try assumption.
  apply (not_limited_next t4 tr3 tr4 t3 _ lo E3) in E4; try assumption.
  apply (not_limited_next t5 tr4 tr5 t4 _ lo E4) in E5; try assumption.
  rewrite (limit_burst t6 tr5 t5 _ E5) in E6;
    [now injection E6 | intros ?; lra | lra | lia].
Qed.

End OneKey.

End RateFacts.

(** C3.  One check of the rate limiter for the key of [(ip, tracking_id)]:
    no entry: the entry becomes [(now, 1)], not limited;
    entry older than 3600 s: the entry becomes [(now, 1)], not limited;
    otherwise entry younger than 60 s with count at least 5: limited, and the
    dict is left as it was;
    otherwise: the entry becomes [(now, count + 1)], not limited.
    Hence six calls for a fresh key within one window of 60 s answer
    not-limited five times and then limited; and whatever was stored before
    (with counts of at least 1, as the limiter writes them), when five calls
    within one window of 60 s are answered not-limited, a sixth call within
    that window is answered limited. *)
Theorem is_rate_limited_window
    (ip : option string) (tracking_id : string) (now : Q) (tr : ip_tracker_t) :
  let key := tracker_key ip tracking_id in
  (tr !! key = None ->
   is_rate_limited ip tracking_id now tr = (false, <[key := (now, 1)]> tr))
  /\ (forall last count,
        tr !! key = Some (last, count) -> (3600 < now - last)%Q ->
        is_rate_limited ip tracking_id now tr = (false, <[key := (now, 1)]> tr))
  /\ (forall last count,
        tr !! key = Some (last, count) -> ~ (3600 < now - last)%Q ->
        (now - last < 60)%Q -> 5 <= count ->
        is_rate_limited ip tracking_id now tr = (true, tr))
  /\ (forall last count,
        tr !! key = Some (last, count) -> ~ (3600 < now - last)%Q ->
        ~ ((now - last < 60)%Q /\ 5 <= count) ->
        is_rate_limited ip tracking_id now tr
        = (false, <[key := (now, count + 1)]> tr))
  /\ (forall t1 t2 t3 t4 t5 lo,
        tr !! key = None ->
        Forall (fun t => (lo <= t)%Q /\ (t < lo + 60)%Q) [t1; t2; t3; t4; t5; now] ->
        fst (rate_limit_calls ip tracking_id [t1; t2; t3; t4; t5; now] tr)
        = [false; false; false; false; false; true])
  /\ (forall t1 t2 t3 t4 t5 lo b tr',
        (forall last count, tr !! key = Some (last, count) -> 1 <= count) ->
        Forall (fun t => (lo <= t)%Q /\ (t < lo + 60)%Q) [t1; t2; t3; t4; t5; now] ->
        rate_limit_calls ip tracking_id [t1; t2; t3; t4; t5; now] tr
        = ([false; false; false; false; false; b], tr') ->
        b = true).
Proof.
  intros key. repeat split.
  - apply RateFacts.limit_no_entry.
  - apply RateFacts.limit_expired.
  - apply RateFacts.limit_burst.
  - apply RateFacts.limit_counted.
  - intros t1 t2 t3 t4 t5 lo Hnone Hall.
    now rewrite (RateFacts.burst_of_six ip tracking_id tr t1 t2 t3 t4 t5 now lo).
  - intros t1 t2 t3 t4 t5 lo b tr' Hpos Hall Hcalls.
    exact (RateFacts.sixth_is_limited ip tracking_id tr tr' t1 t2 t3 t4 t5 now
             lo b Hpos Hall Hcalls).
Qed.

(** C3 at a burst of six calls, ten seconds apart, for a fresh key. *)
Lemma is_rate_limited_sixth_call :
  fst (rate_limit_calls (Some "203.0.113.7") "ab12cd34"
         [0; 10; 20; 30; 40; 50]%Q ∅)
  = [false; false; false; false; false; true].
Proof.
  refine (proj1 (proj2 (proj2 (proj2 (proj2
            (is_rate_limited_window (Some "203.0.113.7") "ab12cd34" 50 ∅)))))
            0 10 20 30 40 0 _ _)%Q.
  - reflexivity.
  - repeat constructor; lra.
Defined.

(** ** The PostgreSQL variant *)

Module DbFacts.
Import Db DbSpec.

Lemma storage_op_cases (w : world) :
  exists o, storage_op w = (Return tt, set_oracle o w)
         \/ storage_op w = (Raise (Error DatabaseError), set_oracle o w).
Proof.
  unfold storage_op. destruct w as [d c o t]; simpl.
  destruct o as [|[] o]; simpl.
  - exists []. now left.
  - exists o. now left.
  - exists o. now right.
Qed.

Lemma storage_op_ok (w : world) :
  no_faults (w_oracle w) ->
  exists o, storage_op w = (Return tt, set_oracle o w) /\ no_faults o.
Proof.
  unfold storage_op, no_faults. destruct w as [d c o t]; simpl.
  intros H. destruct o as [|b o].
  - exists []. now split.
  - apply Forall_cons_iff in H as [-> H]. now exists o.
Qed.

(** Run the next call to the storage: it succeeds or it raises. *)
Ltac exec_storage :=
  match goal with
  | |- context [storage_op ?w] =>
      let o := fresh "o" in
      let E := fresh "E" in
      destruct (storage_op_cases w) as [o [E|E]]; rewrite E; clear E
  end.

(** Run the next call to the storage when no call fails. *)
Ltac exec_storage_ok H :=
  match goal with
  | |- context [storage_op ?w] =>
      let o := fresh "o" in
      let E := fresh "E" in
      let H' := fresh "Hok" in
      destruct (storage_op_ok w H) as (o & E & H'); rewrite E; clear E;
      clear H; rename H' into H
  end.

Ltac db_exec_simpl :=
  cbv beta iota zeta delta
    [bind ret raise modify try_except get fst snd negb
     with_db_connection commit rollback execute_query execute_update
     execute_returning execute_checked set_db set_conn set_oracle set_tracker
     w_db w_conn w_oracle w_tracker serve increment_bot_counter
     get_bot_counter run_handler reraise_as_500 getitem
     st_db st_tracker].

Lemma insert_click_accepted (ev : click_event) (host : string)
    (d d' : database) :
  insert_click (history_row ev host)
               (update_clicks (ev_tracking_id ev) (ev_now ev) d) = Some d' ->
  d' = accepted_db ev host d.
Proof.
  unfold insert_click. destruct (existsb _ _); [|discriminate].
  intros H. injection H as <-. reflexivity.
Qed.

(** Every run of [track_click]: the answer is the redirect, and the database
    is left as it was, or with one more blocked bot, or with the click of a
    confirmed post recorded. *)
Lemma db_track_click_cases (ev : click_event) (st : state) :
  exists db' tr,
    track_click ev st = (redirect, State db' tr)
    /\ (db' = st_db st
        \/ db' = bumped_db (st_db st)
        \/ exists host post,
             ev_client_host ev = Some host
             /\ head (select_post (ev_tracking_id ev) (st_db st)) = Some post
             /\ confirmed post = true
             /\ db' = accepted_db ev host (st_db st)).
Proof.
  destruct st as [d tr0].
  unfold track_click, track_click_body.
  destruct (ev_client_host ev) as [host|] eqn:Hhost; db_exec_simpl.
  2:{ eexists _, _. split; [reflexivity|]. now left. }
  destruct (is_bot_request _ _).
  { db_exec_simpl.
    repeat (exec_storage; db_exec_simpl);
      (eexists _, _; split; [reflexivity|]); auto. }
  db_exec_simpl.
  destruct (is_rate_limited _ _ _ _) as [[] tr1]; db_exec_simpl.
  { eexists _, _; split; [reflexivity|]; auto. }
  exec_storage; db_exec_simpl; [|eexists _, _; split; [reflexivity|]; auto].
  exec_storage; db_exec_simpl; [|eexists _, _; split; [reflexivity|]; auto].
  destruct (head (select_post (ev_tracking_id ev) d)) as [post|] eqn:Hsel;
    db_exec_simpl.
  2:{ exec_storage; db_exec_simpl; eexists _, _; (split; [reflexivity|]); auto. }
  destruct (confirmed post) eqn:Hc; db_exec_simpl.
  2:{ exec_storage; db_exec_simpl; eexists _, _; (split; [reflexivity|]); auto. }
  exec_storage; db_exec_simpl; [|eexists _, _; split; [reflexivity|]; auto].
  destruct (head (returning_clicks _ _)); db_exec_simpl.
  2:{ eexists _, _; split; [reflexivity|]; auto. }
  exec_storage; db_exec_simpl; [|eexists _, _; split; [reflexivity|]; auto].
  fold (ip_of ev host). fold (history_row ev host).
  destruct (insert_click _ _) as [d'|] eqn:Hins; db_exec_simpl.
  2:{ eexists _, _; split; [reflexivity|]; auto. }
  apply insert_click_accepted in Hins. subst d'.
  exec_storage; db_exec_simpl; [|eexists _, _; split; [reflexivity|]; auto].
  exec_storage; db_exec_simpl;
    (eexists _, _; split; [reflexivity|]); right; right;
    exists host, post; auto.
Qed.

End DbFacts.

(** ** The file-backed variant *)

Module RailwayFacts.
Import Railway RailwaySpec.

Section Dict.
Context {V : Type}.
Implicit Types (d : list (string * V)) (k : string) (v : V).

Lemma dict_get_set_eq k v d : dict_get k (dict_set k v d) = Some v.
Proof.
  induction d as [|[k' v'] d IH]; simpl.
  - now rewrite String.eqb_refl.
  - destruct (String.eqb k' k) eqn:E; simpl; rewrite E; [reflexivity | exact IH].
Qed.

Lemma dict_get_set_ne k k' v d :
  k <> k' -> dict_get k' (dict_set k v d) = dict_get k' d.
Proof.
  intros Hne. induction d as [|[k0 v0] d IH]; simpl.
  - destruct (String.eqb_spec k k'); [contradiction | reflexivity].
  - destruct (String.eqb_spec k0 k) as [->|Hk]; simpl.
    + destruct (String.eqb_spec k k'); [contradiction | reflexivity].
    + destruct (String.eqb k0 k'); [reflexivity | exact IH].
Qed.

Lemma dict_set_set k v v' d : dict_set k v (dict_set k v' d) = dict_set k v d.
Proof.
  induction d as [|[k0 v0] d IH]; simpl.
  - now rewrite String.eqb_refl.
  - destruct (String.eqb k0 k) eqn:E; simpl; rewrite E; [reflexivity|].
    now rewrite IH.
Qed.
End Dict.

Ltac railway_exec_simpl :=
  cbv beta iota zeta delta
    [bind ret raise modify try_except get fst snd negb
     update_post modify_data save_data set_data set_tracker
     st_data st_tracker st_file serve run_handler
     total_clicks posts click_history bot_requests_blocked].

(** Every run of [track_click]: the answer is the redirect; a bot is
    tallied, a limited request changes no data, and every other request is
    counted on its post, which is created when it is not stored. *)
Lemma railway_track_click_cases (ev : click_event) (st : state) :
  exists st',
    track_click ev st = (redirect, st')
    /\ ((is_bot ev = true /\ st_data st' = bumped (st_data st))
        \/ (is_bot ev = false /\ limited ev st = true
            /\ st_data st' = st_data st)
        \/ (is_bot ev = false /\ limited ev st = false
            /\ posts (st_data st')
               = dict_set (ev_tracking_id ev)
                   (counted_post (ev_now ev) (post_before ev (st_data st)))
                   (posts (st_data st))
            /\ total_clicks (st_data st') = total_clicks (st_data st) + 1
            /\ bot_requests_blocked (st_data st')
               = bot_requests_blocked (st_data st)
            /\ click_history (st_data st')
               = match ip_of ev with
                 | Some ip => appended (history_record ev ip)
                                       (click_history (st_data st))
                 | None => click_history (st_data st)
                 end)).
Proof.
  destruct st as [[tot ps hist bots] tr0 file].
  unfold track_click, track_click_body, is_bot, limited, post_before.
  fold (ip_of ev). railway_exec_simpl.
  destruct (is_bot_request _ _).
  { railway_exec_simpl. eexists. split; [reflexivity|]. left. now split. }
  railway_exec_simpl.
  destruct (is_rate_limited _ _ _ _) as [[] tr1]; railway_exec_simpl.
  { eexists. split; [reflexivity|]. right; left. now repeat split. }
  assert (Hposts :
    forall p0 (ps0 : list (string * post)),
      dict_set (ev_tracking_id ev)
        (set_last_click (ev_now ev) (set_first_click (ev_now ev) (add_click p0)))
        (dict_set (ev_tracking_id ev) (set_first_click (ev_now ev) (add_click p0))
           (dict_set (ev_tracking_id ev) (add_click p0) ps0))
      = dict_set (ev_tracking_id ev) (counted_post (ev_now ev) p0) ps0).
  { intros. now rewrite !dict_set_set. }
  destruct (dict_get (ev_tracking_id ev) ps) as [p0|] eqn:Hget; railway_exec_simpl.
  - repeat (first [rewrite Hget | rewrite dict_get_set_eq]; railway_exec_simpl).
    rewrite Hposts.
    destruct (ip_of ev) as [ip|]; railway_exec_simpl.
    + fold (history_record ev ip). fold (appended (history_record ev ip) hist).
      unfold appended.
      destruct (50 <? length (hist ++ [history_record ev ip]))%nat;
        destruct (ev_can_write ev); railway_exec_simpl;
        (eexists; split; [reflexivity|]); right; right; now repeat split.
    + eexists; split; [reflexivity|]. right; right. now repeat split.
  - repeat (rewrite dict_get_set_eq; railway_exec_simpl).
    rewrite Hposts, dict_set_set.
    destruct (ip_of ev) as [ip|]; railway_exec_simpl.
    + fold (history_record ev ip). unfold appended.
      destruct (50 <? length (hist ++ [history_record ev ip]))%nat;
        destruct (ev_can_write ev); railway_exec_simpl;
        (eexists; split; [reflexivity|]); right; right; now repeat split.
    + eexists; split; [reflexivity|]. right; right. now repeat split.
Qed.

End RailwayFacts.

(** ** The click endpoint *)

Module ClickFacts.

Lemma head_select_In (tid : string) (d : Db.database) (post : Db.post_row) :
  head (Db.select_post tid d) = Some post ->
  In post (Db.posts d) /\ Db.tracking_id post = tid.
Proof.
  unfold Db.select_post. intros H.
  assert (Hin : In post (List.filter (Db.has_id tid) (Db.posts d))).
  { destruct (List.filter _ _) as [|x l]; [discriminate|].
    injection H as ->. now left. }
  apply filter_In in Hin as [Hin Hid]. split; [exact Hin|].
  now apply String.eqb_eq.
Qed.

Lemma db_click_changes_only_confirmed (ev : Db.click_event) (st : Db.state) :
  let d' := Db.st_db (snd (Db.track_click ev st)) in
  (Db.posts d' = Db.posts (Db.st_db st)
   /\ Db.click_history d' = Db.click_history (Db.st_db st))
  \/ exists post,
       In post (Db.posts (Db.st_db st))
       /\ Db.tracking_id post = Db.ev_tracking_id ev
       /\ Db.confirmed post = true.
Proof.
  destruct (DbFacts.db_track_click_cases ev st)
    as (db' & tr & -> & [-> | [-> | (host & post & _ & Hsel & Hc & _)]]);
    simpl; auto.
  right. exists post. apply head_select_In in Hsel as [? ?]. auto.
Qed.

End ClickFacts.

(** C4.  In both variants the click endpoint answers every request, whatever
    the request, the stored data and the failures of the storage, with the
    redirect to the one fixed destination and status 302. *)
Theorem track_click_always_redirects :
  (forall (ev : Db.click_event) (st : Db.state),
     fst (Db.track_click ev st) = RedirectResponse FINAL_DESTINATION 302)
  /\ (forall (ev : Railway.click_event) (st : Railway.state),
        fst (Railway.track_click ev st) = RedirectResponse FINAL_DESTINATION 302).
Proof.
  split; intros ev st.
  - destruct (DbFacts.db_track_click_cases ev st) as (db' & tr & -> & _).
    reflexivity.
  - destruct (RailwayFacts.railway_track_click_cases ev st) as (st' & -> & _).
    reflexivity.
Qed.

(** C10.  File-backed variant: a click for a tracking id with no stored post,
    from a user agent that is not a bot and is not rate limited, stores a new
    post (platform and badge of the query, username "unknown", empty post
    url) with the click already counted: its counter is 1. *)
Theorem railway_click_creates_post
    (ev : Railway.click_event) (st : Railway.state) :
  Railway.dict_get (Railway.ev_tracking_id ev) (Railway.posts (Railway.st_data st)) = None ->
  RailwaySpec.is_bot ev = false ->
  RailwaySpec.limited ev st = false ->
  Railway.dict_get (Railway.ev_tracking_id ev)
    (Railway.posts (Railway.st_data (snd (Railway.track_click ev st))))
  = Some (Railway.Post 1
            (default "unknown" (Railway.ev_p ev))
            (default "unknown" (Railway.ev_b ev))
            "unknown" ""
            (Some (Railway.ev_now ev)) (Some (Railway.ev_now ev))
            (Railway.ev_created ev)).
Proof.
  intros Hnone Hbot Hlim.
  destruct (RailwayFacts.railway_track_click_cases ev st)
    as (st' & -> & [[H _] | [(_ & H & _) | (_ & _ & Hposts & _)]]);
    [congruence | congruence |].
  simpl. rewrite Hposts, RailwayFacts.dict_get_set_eq.
  unfold RailwaySpec.post_before. rewrite Hnone. reflexivity.
Qed.

(** C10 at a browser click on an empty store. *)
Lemma railway_click_creates_post_sample :
  Railway.dict_get "ab12cd34"
    (Railway.posts (Railway.st_data
       (snd (Railway.track_click (Sample.railway_click "203.0.113.7" 10 5000)
                                 Sample.railway_empty))))
  = Some (Railway.Post 1 "fac" "g" "unknown" "" (Some 5000) (Some 5000) 5000).
Proof.
  apply (railway_click_creates_post (Sample.railway_click "203.0.113.7" 10 5000)
           Sample.railway_empty); reflexivity.
Defined.

(** C1, as the code has it.  PostgreSQL variant: a click for a tracking id
    none of whose stored posts is confirmed (none stored included) leaves the
    posts and the click history as they were, and a click that changes either
    is a click on a stored, confirmed post.  File-backed variant: there is no
    confirmation state, and every click that passes the bot filter and the
    rate limiter is counted on its post, unconfirmed and unknown ones
    included. *)
Theorem unconfirmed_click_not_counted :
  (forall (ev : Db.click_event) (st : Db.state),
     DbSpec.never_confirmed (Db.ev_tracking_id ev) (Db.st_db st) ->
     Db.posts (Db.st_db (snd (Db.track_click ev st))) = Db.posts (Db.st_db st)
     /\ Db.click_history (Db.st_db (snd (Db.track_click ev st)))
        = Db.click_history (Db.st_db st))
  /\ (forall (ev : Db.click_event) (st : Db.state),
        (Db.posts (Db.st_db (snd (Db.track_click ev st))) <> Db.posts (Db.st_db st)
         \/ Db.click_history (Db.st_db (snd (Db.track_click ev st)))
            <> Db.click_history (Db.st_db st)) ->
        exists post,
          In post (Db.posts (Db.st_db st))
          /\ Db.tracking_id post = Db.ev_tracking_id ev
          /\ Db.confirmed post = true)
  /\ (forall (ev : Railway.click_event) (st : Railway.state),
        RailwaySpec.is_bot ev = false ->
        RailwaySpec.limited ev st = false ->
        option_map Railway.clicks
          (Railway.dict_get (Railway.ev_tracking_id ev)
             (Railway.posts (Railway.st_data (snd (Railway.track_click ev st)))))
        = Some (Railway.clicks (RailwaySpec.post_before ev (Railway.st_data st)) + 1)).
Proof.
  split; [|split].
  - intros ev st Hnever.
    destruct (ClickFacts.db_click_changes_only_confirmed ev st)
      as [H | (post & Hin & Hid & Hc)]; [exact H|].
    rewrite (Hnever post Hin Hid) in Hc. discriminate.
  - intros ev st Hchg.
    destruct (ClickFacts.db_click_changes_only_confirmed ev st)
      as [[H1 H2] | H]; [|exact H].
    destruct Hchg as [Hc | Hc]; contradiction.
  - intros ev st Hbot Hlim.
    destruct (RailwayFacts.railway_track_click_cases ev st)
      as (st' & -> & [[H _] | [(_ & H & _) | (_ & _ & Hposts & _)]]);
      [congruence | congruence |].
    simpl. rewrite Hposts, RailwayFacts.dict_get_set_eq. reflexivity.
Qed.

(** C1 at a browser click on a pending post of the PostgreSQL variant. *)
Lemma unconfirmed_click_not_counted_sample :
  Db.posts (Db.st_db (snd (Db.track_click
                             (Sample.db_click "203.0.113.7" 10 5000)
                             Sample.db_pending)))
  = [Sample.pending_post]
  /\ Db.click_history (Db.st_db (snd (Db.track_click
                                        (Sample.db_click "203.0.113.7" 10 5000)
                                        Sample.db_pending)))
     = [].
Proof.
  apply (proj1 unconfirmed_click_not_counted
           (Sample.db_click "203.0.113.7" 10 5000) Sample.db_pending).
  intros r [<- | []] _. reflexivity.
Defined.

(** C1 fails in the file-backed variant: a browser click for a tracking id
    that was never generated, let alone confirmed, is counted and recorded. *)
Lemma railway_counts_unconfirmed_click :
  ~ (forall (ev : Railway.click_event) (st : Railway.state),
       Railway.dict_get (Railway.ev_tracking_id ev)
                        (Railway.posts (Railway.st_data st)) = None ->
       RailwaySpec.counters (Railway.ev_tracking_id ev)
         (Railway.st_data (snd (Railway.track_click ev st)))
       = RailwaySpec.counters (Railway.ev_tracking_id ev) (Railway.st_data st)
       /\ Railway.click_history (Railway.st_data (snd (Railway.track_click ev st)))
          = Railway.click_history (Railway.st_data st)).
Proof.
  intros H.
  destruct (H (Sample.railway_click "203.0.113.7" 10 5000) Sample.railway_empty
              eq_refl) as [H1 _].
  vm_compute in H1. discriminate H1.
Qed.

(** ** Runs of the click endpoint *)

Section ClickLogFacts.
Context {St Ev : Type}.
Variable step : Ev -> St -> St.
Variable counters : string -> St -> option (Z * option Z * option Z).
Variable now : Ev -> Z.

(** Each event leaves the counters of a post alone or counts one click. *)
Hypothesis step_cases :
  forall tid ev st,
    view counters tid (step ev st) = view counters tid st
    \/ view counters tid (step ev st)
       = (clicks_of counters tid st + 1,
          Some (default (now ev) (first_click_of counters tid st)),
          Some (now ev)).

Lemma accepted_true tid ev st :
  accepted step counters tid ev st = true ->
  view counters tid (step ev st)
  = (clicks_of counters tid st + 1,
     Some (default (now ev) (first_click_of counters tid st)),
     Some (now ev)).
Proof.
  unfold accepted, clicks_of. intros H.
  destruct (step_cases tid ev st) as [E | E]; [|exact E].
  rewrite E, Z.eqb_refl in H. discriminate.
Qed.

Lemma accepted_false tid ev st :
  accepted step counters tid ev st = false ->
  view counters tid (step ev st) = view counters tid st.
Proof.
  unfold accepted, clicks_of. intros H.
  destruct (step_cases tid ev st) as [E | E]; [exact E|].
  rewrite E in H. simpl in H.
  apply negb_false_iff, Z.eqb_eq in H. unfold clicks_of in H. lia.
Qed.

Lemma run_counts tid evs st :
  clicks_of counters tid (run_all step evs st)
  = clicks_of counters tid st + count_accepted step counters tid evs st.
Proof.
  revert st; induction evs as [|ev evs IH]; intros st; simpl; [lia|].
  rewrite IH.
  destruct (accepted step counters tid ev st) eqn:E.
  - apply accepted_true in E. unfold clicks_of at 1. rewrite E. simpl. lia.
  - apply accepted_false in E. unfold clicks_of at 1. rewrite E.
    fold (clicks_of counters tid st). lia.
Qed.

Lemma count_accepted_nonneg tid evs st :
  0 <= count_accepted step counters tid evs st.
Proof.
  revert st; induction evs as [|ev evs IH]; intros st; simpl; [lia|].
  specialize (IH (step ev st)).
  destruct (accepted step counters tid ev st); lia.
Qed.

Lemma run_first_click tid evs st t :
  first_click_of counters tid st = Some t ->
  first_click_of counters tid (run_all step evs st) = Some t.
Proof.
  revert st; induction evs as [|ev evs IH]; intros st H; simpl; [exact H|].
  apply IH. unfold first_click_of.
  destruct (step_cases tid ev st) as [E | E]; rewrite E; [exact H|].
  simpl. now rewrite H.
Qed.

Lemma run_last_click tid evs st :
  last_click_of counters tid (run_all step evs st)
  = match last_accepted step counters now tid evs st with
    | Some t => Some t
    | None => last_click_of counters tid st
    end.
Proof.
  revert st; induction evs as [|ev evs IH]; intros st; simpl; [reflexivity|].
  rewrite IH.
  destruct (last_accepted step counters now tid evs (step ev st));
    [reflexivity|].
  unfold last_click_of.
  destruct (accepted step counters tid ev st) eqn:E.
  - apply accepted_true in E. now rewrite E.
  - apply accepted_false in E. now rewrite E.
Qed.

Theorem click_log_invariants_hold : click_log_invariants step counters now.
Proof.
  intros tid. repeat split.
  - rewrite run_counts. pose proof (count_accepted_nonneg tid evs st). lia.
  - apply run_counts.
  - apply run_first_click.
  - apply accepted_true in H. unfold clicks_of at 1. now rewrite H.
  - apply accepted_true in H. unfold last_click_of. now rewrite H.
  - intros ev st H Hnone. apply accepted_true in H.
    unfold first_click_of at 1. rewrite H. simpl. now rewrite Hnone.
  - apply accepted_false.
  - apply run_last_click.
Qed.
End ClickLogFacts.

Module RunFacts.

Lemma head_filter_update (tid tid' : string) (f : Db.post_row -> Db.post_row)
    (rows : list Db.post_row) :
  (forall r, Db.tracking_id (f r) = Db.tracking_id r) ->
  head (List.filter (Db.has_id tid') (Db.update_where tid f rows))
  = option_map (fun r => if Db.has_id tid r then f r else r)
               (head (List.filter (Db.has_id tid') rows)).
Proof.
  intros Hf. induction rows as [|a rows IH]; simpl; [reflexivity|].
  assert (E : Db.has_id tid' (if Db.has_id tid a then f a else a)
              = Db.has_id tid' a).
  { destruct (Db.has_id tid a); [|reflexivity].
    unfold Db.has_id. now rewrite Hf. }
  rewrite E. destruct (Db.has_id tid' a); [reflexivity | exact IH].
Qed.

Lemma head_filter_has_id (tid : string) (rows : list Db.post_row)
    (r : Db.post_row) :
  head (List.filter (Db.has_id tid) rows) = Some r -> Db.tracking_id r = tid.
Proof.
  intros H.
  assert (Hin : In r (List.filter (Db.has_id tid) rows)).
  { destruct (List.filter _ _); [discriminate|]. injection H as ->. now left. }
  apply filter_In in Hin as [_ Hid]. now apply String.eqb_eq.
Qed.

Lemma db_step_cases (tid : string) (ev : Db.click_event) (st : Db.state) :
  view db_counters tid (db_step ev st) = view db_counters tid st
  \/ view db_counters tid (db_step ev st)
     = (clicks_of db_counters tid st + 1,
        Some (default (Db.ev_now ev) (first_click_of db_counters tid st)),
        Some (Db.ev_now ev)).
Proof.
  unfold db_step.
  destruct (DbFacts.db_track_click_cases ev st)
    as (db' & tr & -> & [-> | [-> | (host & post & _ & _ & _ & ->)]]);
    [now left | now left |].
  unfold clicks_of, first_click_of, view, db_counters, DbSpec.counters,
    Db.select_post, DbSpec.accepted_db.
  cbn [snd Db.st_db Db.posts].
  rewrite head_filter_update by reflexivity.
  destruct (head (List.filter (Db.has_id tid) (Db.posts (Db.st_db st))))
    as [r|] eqn:Hr; simpl; [|now left].
  destruct (Db.has_id (Db.ev_tracking_id ev) r); simpl; [|now left].
  right. now destruct (Db.first_click r).
Qed.

Lemma railway_step_cases (tid : string) (ev : Railway.click_event)
    (st : Railway.state) :
  view railway_counters tid (railway_step ev st) = view railway_counters tid st
  \/ view railway_counters tid (railway_step ev st)
     = (clicks_of railway_counters tid st + 1,
        Some (default (Railway.ev_now ev)
                      (first_click_of railway_counters tid st)),
        Some (Railway.ev_now ev)).
Proof.
  unfold railway_step.
  unfold clicks_of, first_click_of, view, railway_counters, RailwaySpec.counters.
  destruct (RailwayFacts.railway_track_click_cases ev st) as (st' & -> & H).
  cbn [snd].
  destruct H as [[_ ->] | [(_ & _ & ->) | (_ & _ & Hposts & _)]];
    [now left | now left |].
  rewrite Hposts.
  destruct (String.eqb_spec (Railway.ev_tracking_id ev) tid) as [<- | Hne].
  - right. rewrite RailwayFacts.dict_get_set_eq.
    unfold RailwaySpec.post_before.
    destruct (Railway.dict_get _ _) as [p|]; simpl;
      [now destruct (Railway.first_click p) | reflexivity].
  - left. now rewrite RailwayFacts.dict_get_set_ne.
Qed.

End RunFacts.

(** C5.  In both variants, for every post and every sequence of click
    requests: the click counter only grows (by one per accepted click);
    a first click that is set never changes, and it is set by the first
    accepted click, to the stamp that the last click gets; every accepted
    click stamps the last click, a request that is not accepted leaves the
    counters alone, so the last click is the stamp of the most recent accepted
    click. *)
Theorem click_counters_invariants :
  click_log_invariants db_step db_counters Db.ev_now
  /\ click_log_invariants railway_step railway_counters Railway.ev_now.
Proof.
  split.
  - apply click_log_invariants_hold, RunFacts.db_step_cases.
  - apply click_log_invariants_hold, RunFacts.railway_step_cases.
Qed.

(** C5 on the PostgreSQL variant: a pending post is confirmed, then clicked
    from two addresses. *)
Lemma click_counters_scenario :
  (clicks_of db_counters "ab12cd34"
     (db_step (Sample.db_click "203.0.113.7" 10 5000) Sample.db_confirmed)
   = clicks_of db_counters "ab12cd34" Sample.db_confirmed + 1
   /\ last_click_of db_counters "ab12cd34"
        (db_step (Sample.db_click "203.0.113.7" 10 5000) Sample.db_confirmed)
      = Some 5000)
  /\ view db_counters "ab12cd34" Sample.db_confirmed = (0, None, None)
  /\ view db_counters "ab12cd34"
       (run_all db_step [Sample.db_click "203.0.113.7" 10 5000]
                Sample.db_confirmed)
     = (1, Some 5000, Some 5000)
  /\ view db_counters "ab12cd34"
       (run_all db_step [Sample.db_click "203.0.113.7" 10 5000;
                         Sample.db_click "198.51.100.9" 20 6000]
                Sample.db_confirmed)
     = (2, Some 5000, Some 6000).
Proof.
  split; [|repeat split; vm_compute; reflexivity].
  apply (proj1 (proj2 (proj2 (proj1 click_counters_invariants "ab12cd34")))
           (Sample.db_click "203.0.113.7" 10 5000) Sample.db_confirmed).
  vm_compute. reflexivity.
Defined.

(** ** Confirmation *)

Module ConfirmFacts.
Import Db DbSpec DbFacts.

Lemma filter_update_where (tid tid' : string) (f : post_row -> post_row)
    (rows : list post_row) :
  (forall r, tracking_id (f r) = tracking_id r) ->
  List.filter (has_id tid') (update_where tid f rows)
  = map (fun r => if has_id tid r then f r else r)
        (List.filter (has_id tid') rows).
Proof.
  intros Hf. induction rows as [|a rows IH]; simpl; [reflexivity|].
  assert (E : has_id tid' (if has_id tid a then f a else a) = has_id tid' a).
  { destruct (has_id tid a); [|reflexivity]. unfold has_id. now rewrite Hf. }
  rewrite E. destruct (has_id tid' a); simpl; now rewrite IH.
Qed.

Lemma update_where_twice (tid : string) (f g : post_row -> post_row)
    (rows : list post_row) :
  (forall r, tracking_id (f r) = tracking_id r) ->
  update_where tid g (update_where tid f rows)
  = update_where tid (fun r => g (f r)) rows.
Proof.
  intros Hf. unfold update_where. rewrite map_map.
  apply map_ext. intros r. destruct (has_id tid r) eqn:E; [|now rewrite E].
  unfold has_id in *. now rewrite Hf, E.
Qed.

(** The rows that [RETURNING tracking_id] brings back. *)
Lemma returning_none (tid : string) (f : post_row -> post_row) (d : database) :
  (forall r, tracking_id (f r) = tracking_id r) ->
  head (returning_ids tid (set_posts (update_where tid f (posts d)) d)) = None ->
  select_post tid d = [].
Proof.
  intros Hf. unfold returning_ids, select_post. cbn [posts set_posts].
  rewrite filter_update_where by exact Hf.
  now destruct (List.filter (has_id tid) (posts d)).
Qed.

Lemma returning_some (tid : string) (f : post_row -> post_row) (d : database)
    (x : string) :
  (forall r, tracking_id (f r) = tracking_id r) ->
  head (returning_ids tid (set_posts (update_where tid f (posts d)) d)) = Some x ->
  select_post tid d <> [].
Proof.
  intros Hf. unfold returning_ids, select_post. cbn [posts set_posts].
  rewrite filter_update_where by exact Hf.
  now destruct (List.filter (has_id tid) (posts d)).
Qed.

(** An answer 404 comes from the missing row and from nowhere else. *)
Lemma confirm_404 (ev : confirm_event) (st : state) (d : detail) :
  fst (confirm_post ev st) = HTTPError 404 d ->
  select_post (cp_tracking_id (ce_data ev)) (st_db st) = [].
Proof.
  destruct st as [db tr].
  unfold confirm_post, confirm_post_body. db_exec_simpl.
  exec_storage; db_exec_simpl; [|discriminate].
  exec_storage; db_exec_simpl; [|discriminate].
  destruct (head (returning_ids _ _)) eqn:Hret; db_exec_simpl.
  - destruct (username_given _); db_exec_simpl;
      repeat (exec_storage; db_exec_simpl); discriminate.
  - intros _. now apply returning_none in Hret.
Qed.

(** The run of [confirm_post] when no call to the storage fails. *)
Lemma confirm_no_faults (ev : confirm_event) (st : state) :
  no_faults (ce_faults ev) ->
  (select_post (cp_tracking_id (ce_data ev)) (st_db st) = []
   /\ confirm_post ev st = (not_found, st))
  \/ (select_post (cp_tracking_id (ce_data ev)) (st_db st) <> []
      /\ confirm_post ev st
         = (confirm_ok ev,
            State (set_posts (update_where (cp_tracking_id (ce_data ev))
                                (confirmed_row ev) (posts (st_db st)))
                             (st_db st))
                  (st_tracker st))).
Proof.
  intros Hok. destruct st as [db tr].
  unfold confirm_post, confirm_post_body, confirmed_row. db_exec_simpl.
  exec_storage_ok Hok; db_exec_simpl.
  exec_storage_ok Hok; db_exec_simpl.
  destruct (head (returning_ids _ _)) eqn:Hret; db_exec_simpl.
  - right. apply returning_some in Hret; [|reflexivity].
    split; [exact Hret|].
    destruct (username_given _); db_exec_simpl.
    + exec_storage_ok Hok; db_exec_simpl.
      exec_storage_ok Hok; db_exec_simpl.
      exec_storage_ok Hok; db_exec_simpl.
      unfold set_posts; cbn [posts click_history bot_requests_blocked].
      now rewrite update_where_twice.
    + exec_storage_ok Hok; db_exec_simpl.
      exec_storage_ok Hok; db_exec_simpl.
      reflexivity.
  - left. apply returning_none in Hret; [|reflexivity]. now split.
Qed.

End ConfirmFacts.

(** C6.  [confirm_post] answers 404 only when no stored post has the
    tracking id; when the storage does not fail it answers 404 exactly then
    and changes nothing, and otherwise it answers success and rewrites the
    post, pending or already confirmed alike: post url and platform of the
    request, confirmed, confirmed at the time of the request. *)
Theorem confirm_post_not_found_iff (ev : Db.confirm_event) (st : Db.state) :
  let data := Db.ce_data ev in
  let tid := Db.cp_tracking_id data in
  (forall d, fst (Db.confirm_post ev st) = HTTPError 404 d ->
             Db.select_post tid (Db.st_db st) = [])
  /\ (no_faults (Db.ce_faults ev) ->
      (Db.select_post tid (Db.st_db st) = [] ->
       Db.confirm_post ev st = (DbSpec.not_found, st))
      /\ (Db.select_post tid (Db.st_db st) <> [] ->
          fst (Db.confirm_post ev st) = DbSpec.confirm_ok ev
          /\ Db.posts (Db.st_db (snd (Db.confirm_post ev st)))
             = Db.update_where tid (DbSpec.confirmed_row ev)
                               (Db.posts (Db.st_db st))
          /\ forall r,
               In r (Db.posts (Db.st_db (snd (Db.confirm_post ev st)))) ->
               Db.tracking_id r = tid ->
               Db.post_url r = Some (Db.cp_post_url data)
               /\ Db.platform r = Db.cp_platform data
               /\ Db.confirmed r = true
               /\ Db.confirmed_at r = Some (Db.ce_now ev))).
Proof.
  intros data tid. split.
  - intros d. apply ConfirmFacts.confirm_404.
  - intros Hok.
    destruct (ConfirmFacts.confirm_no_faults ev st Hok) as [[Hsel E] | [Hsel E]];
      fold data tid in Hsel, E; (split; [intros H | intros H]);
      try contradiction; try exact E.
    rewrite E. cbn [fst snd Db.st_db Db.posts Db.set_posts].
    split; [reflexivity|]. split; [reflexivity|].
    intros r Hin Hid. unfold Db.update_where in Hin.
    apply in_map_iff in Hin as (r0 & <- & _).
    destruct (Db.has_id tid r0) eqn:Hr0.
    + unfold DbSpec.confirmed_row. fold data.
      destruct (Db.username_given _); now repeat split.
    + apply String.eqb_neq in Hr0. contradiction.
Qed.

(** C6 on the sample store: an unknown tracking id, and a pending post. *)
Lemma confirm_post_sample :
  Db.confirm_post Sample.confirm Sample.db_empty
  = (DbSpec.not_found, Sample.db_empty)
  /\ fst (Db.confirm_post Sample.confirm Sample.db_pending)
     = DbSpec.confirm_ok Sample.confirm
  /\ Db.posts (Db.st_db (snd (Db.confirm_post Sample.confirm Sample.db_pending)))
     = [Db.PostRow "ab12cd34" "alice" "gold" "facebook"
                   (Some "https://x.com/p/1") 0 true None None 1000 (Some 2000)].
Proof.
  split.
  - apply (proj2 (confirm_post_not_found_iff Sample.confirm Sample.db_empty)).
    + constructor.
    + reflexivity.
  - destruct (proj2 (proj2 (confirm_post_not_found_iff Sample.confirm
                              Sample.db_pending) (List.Forall_nil _)))
      as (H1 & H2 & _); [discriminate|].
    split; [exact H1 | exact H2].
Defined.

(** ** Sums and orders *)

Module ListFacts.

Section Sort.
Context {A : Type} (key : A -> Z).

Lemma insert_desc_perm (x : A) (l : list A) :
  Permutation (insert_desc key x l) (x :: l).
Proof.
  induction l as [|y l IH]; simpl; [reflexivity|].
  destruct (key y <=? key x); [reflexivity|].
  rewrite IH. apply perm_swap.
Qed.

Lemma sort_desc_perm (l : list A) : Permutation (sort_desc key l) l.
Proof.
  induction l as [|x l IH]; simpl; [reflexivity|].
  rewrite insert_desc_perm. now constructor.
Qed.

Lemma insert_desc_sorted (x : A) (l : list A) :
  descending key l -> descending key (insert_desc key x l).
Proof.
  unfold descending. induction l as [|y l IH]; simpl; intros Hs.
  - repeat constructor.
  - apply StronglySorted_inv in Hs as [Hs Hy].
    destruct (key y <=? key x) eqn:E.
    + constructor; [now constructor|].
      constructor; [lia|].
      rewrite List.Forall_forall in Hy |- *. intros z Hz.
      specialize (Hy z Hz). simpl in Hy. lia.
    + constructor; [now apply IH|].
      rewrite List.Forall_forall in Hy |- *. intros z Hz.
      apply (Permutation_in _ (insert_desc_perm x l)) in Hz.
      destruct Hz as [<- | Hz]; [lia | now apply Hy].
Qed.

Lemma sort_desc_sorted (l : list A) : descending key (sort_desc key l).
Proof.
  induction l as [|x l IH]; simpl; [constructor|].
  now apply insert_desc_sorted.
Qed.

Lemma sort_desc_In (l : list A) (x : A) : In x (sort_desc key l) <-> In x l.
Proof.
  split; apply Permutation_in; [|symmetry]; apply sort_desc_perm.
Qed.

Lemma sort_desc_length (l : list A) : length (sort_desc key l) = length l.
Proof. apply Permutation_length, sort_desc_perm. Qed.
End Sort.

Lemma sumZ_app (l l' : list Z) : sumZ (l ++ l') = sumZ l + sumZ l'.
Proof. induction l as [|x l IH]; simpl; [reflexivity | rewrite IH; lia]. Qed.

Lemma sumZ_perm (l l' : list Z) : Permutation l l' -> sumZ l = sumZ l'.
Proof. induction 1; simpl; lia. Qed.

Lemma fold_left_add {A} (f : A -> Z) (l : list A) (a : Z) :
  fold_left (fun acc x => acc + f x) l a = a + sumZ (map f l).
Proof.
  revert a; induction l as [|x l IH]; intros a; simpl; [lia|].
  rewrite IH. lia.
Qed.

Lemma filter_perm {A} (g : A -> bool) (l l' : list A) :
  Permutation l l' -> Permutation (List.filter g l) (List.filter g l').
Proof.
  induction 1; simpl.
  - reflexivity.
  - destruct (g x); [now constructor | assumption].
  - destruct (g x), (g y); try reflexivity. apply perm_swap.
  - etransitivity; eassumption.
Qed.

Lemma existsb_perm {A} (g : A -> bool) (l l' : list A) :
  Permutation l l' -> existsb g l = existsb g l'.
Proof.
  induction 1; simpl; try congruence.
  now destruct (g x), (g y).
Qed.

Lemma existsb_false_filter {A} (g : A -> bool) (l : list A) :
  existsb g l = false -> List.filter g l = [].
Proof.
  induction l as [|x l IH]; simpl; [reflexivity|].
  destruct (g x); simpl; [discriminate | exact IH].
Qed.

(** The first [n] of a descending list are at least the rest. *)
Lemma descending_take_drop {A} (key : A -> Z) (n : nat) (l : list A) :
  descending key l ->
  forall x y, In x (take n l) -> In y (drop n l) -> key y <= key x.
Proof.
  unfold descending. revert l; induction n as [|n IH]; intros l Hs x y Hx Hy.
  - rewrite take_0 in Hx. destruct Hx.
  - destruct l as [|a l]; [destruct Hx|].
    apply StronglySorted_inv in Hs as [Hs Ha].
    simpl in Hx, Hy. destruct Hx as [<- | Hx].
    + rewrite List.Forall_forall in Ha. apply Ha.
      apply list_elem_of_In. apply list_elem_of_In in Hy.
      now apply (subseteq_drop n l).
    + now apply (IH l Hs).
Qed.

Lemma descending_take {A} (key : A -> Z) (n : nat) (l : list A) :
  descending key l -> descending key (take n l).
Proof.
  unfold descending. revert l; induction n as [|n IH]; intros l Hs.
  - rewrite take_0. constructor.
  - destruct l as [|a l]; [constructor|]. simpl.
    apply StronglySorted_inv in Hs as [Hs Ha].
    constructor; [now apply IH|].
    rewrite List.Forall_forall in Ha |- *. intros z Hz. apply Ha.
    apply list_elem_of_In. apply list_elem_of_In in Hz.
    now apply (subseteq_take n l).
Qed.

End ListFacts.

(** ** Analytics *)

Module AnalyticsFacts.

Lemma sum_clicks_total (rows : list Db.post_row) :
  Db.sum_clicks rows = sumZ (map Db.clicks rows).
Proof. induction rows as [|r rows IH]; simpl; [reflexivity | now rewrite IH]. Qed.

Lemma dict_of_keys_lookup (g : string -> Z) (ks : list string)
    (m : gmap string Z) (k : string) :
  fold_left (fun m kv => <[fst kv := snd kv]> m) (map (fun k => (k, g k)) ks) m !! k
  = if bool_decide (k ∈ ks) then Some (g k) else m !! k.
Proof.
  revert m; induction ks as [|a ks IH]; intros m; cbn [map fold_left fst snd].
  - rewrite bool_decide_eq_false_2; [reflexivity | apply not_elem_of_nil].
  - rewrite IH. destruct (decide (k ∈ ks)) as [Hin | Hnin].
    + rewrite !bool_decide_eq_true_2; [reflexivity | | exact Hin].
      apply elem_of_cons. now right.
    + rewrite (bool_decide_eq_false_2 _ Hnin).
      destruct (decide (k = a)) as [-> | Hne].
      * rewrite lookup_insert_eq, bool_decide_eq_true_2; [reflexivity|].
        apply elem_of_cons. now left.
      * rewrite lookup_insert_ne by congruence.
        rewrite bool_decide_eq_false_2; [reflexivity|].
        rewrite elem_of_cons. intros [? | ?]; contradiction.
Qed.

Lemma mem_keys {A} (col : A -> string) (rows : list A) (k : string) :
  bool_decide (k ∈ remove_dups (map col rows))
  = existsb (fun r => String.eqb (col r) k) rows.
Proof.
  destruct (existsb _ rows) eqn:E.
  - apply bool_decide_eq_true_2, elem_of_remove_dups, list_elem_of_In.
    apply existsb_exists in E as (r & Hr & Hk).
    apply String.eqb_eq in Hk. subst k. now apply in_map.
  - apply bool_decide_eq_false_2. intros H.
    apply elem_of_remove_dups, list_elem_of_In, in_map_iff in H
      as (r & Hk & Hr).
    assert (existsb (fun r => String.eqb (col r) k) rows = true); [|congruence].
    apply existsb_exists. exists r. split; [exact Hr|].
    now apply String.eqb_eq.
Qed.

Lemma group_sums_lookup (col : Db.post_row -> string) (d : Db.database)
    (k : string) :
  Db.dict_of_rows (Db.select_group_sums col d) !! k
  = DbSpec.group_sum col k (Db.confirmed_rows d).
Proof.
  unfold Db.dict_of_rows, Db.select_group_sums, DbSpec.group_sum.
  rewrite (dict_of_keys_lookup
             (fun k => Db.sum_clicks
                         (List.filter (fun r => String.eqb (col r) k)
                                      (Db.confirmed_rows d)))).
  rewrite mem_keys, lookup_empty, sum_clicks_total. reflexivity.
Qed.

Lemma totals_clicks (d : Db.database) :
  Db.clicks_or_0 (Db.select_totals d) = sumZ (map Db.clicks (Db.confirmed_rows d)).
Proof.
  unfold Db.clicks_or_0, Db.select_totals.
  destruct (Db.confirmed_rows d) as [|r rows]; [reflexivity|].
  cbn [Db.total_clicks default]. apply sum_clicks_total.
Qed.

Lemma avg_formula (d : Db.database) :
  Db.avg_clicks_per_post (Db.select_totals d)
  = (inject_Z (sumZ (map Db.clicks (Db.confirmed_rows d)))
     / inject_Z (Z.max (Z.of_nat (length (Db.confirmed_rows d))) 1))%Q.
Proof.
  unfold Db.avg_clicks_per_post. rewrite totals_clicks.
  unfold Db.select_totals. cbn [Db.total_posts].
  destruct (Z.eqb_spec (Z.of_nat (length (Db.confirmed_rows d))) 0) as [E | E];
    [rewrite E|]; reflexivity.
Qed.

Lemma confirmed_rows_In (d : Db.database) (r : Db.post_row) :
  In r (Db.confirmed_rows d) <-> In r (Db.posts d) /\ Db.confirmed r = true.
Proof. apply filter_In. Qed.

Lemma top_posts_confirmed (d : Db.database) (n : nat) (v : Db.post_view) :
  In v (take n (map Db.view_post (Db.select_confirmed_posts d))) ->
  exists r, In r (Db.posts d) /\ Db.confirmed r = true /\ v = Db.view_post r.
Proof.
  intros H. apply list_elem_of_In, (subseteq_take n), list_elem_of_In in H.
  apply in_map_iff in H as (r & <- & Hr).
  apply ListFacts.sort_desc_In, confirmed_rows_In in Hr as [? ?].
  now exists r.
Qed.

(** The relational endpoint never gets to its answer: its cursor hands out
    rows as dicts keyed by column name, and the pending count is read with
    [[0]]. *)
Lemma db_get_analytics_fails (faults : list bool) (st : Db.state) :
  exists d, Db.get_analytics faults st = (HTTPError 500 d, st).
Proof.
  destruct st as [db tr].
  unfold Db.get_analytics, Db.get_analytics_body, Db.analytics_queries.
  DbFacts.db_exec_simpl.
  repeat (DbFacts.exec_storage; DbFacts.db_exec_simpl);
    eexists; reflexivity.
Qed.

(** File-backed variant. *)

Lemma stats_by_lookup (col : Railway.post_view -> string)
    (l : list Railway.post_view) (m : gmap string Z) (k : string) :
  fold_left (Railway.add_to col) l m !! k
  = if existsb (fun p => String.eqb (col p) k) l
    then Some (default 0 (m !! k)
               + sumZ (map Railway.pv_clicks
                          (List.filter (fun p => String.eqb (col p) k) l)))
    else m !! k.
Proof.
  revert m; induction l as [|p l IH]; intros m; simpl; [reflexivity|].
  rewrite IH. unfold Railway.add_to.
  destruct (String.eqb_spec (col p) k) as [<- | Hne]; simpl.
  - rewrite lookup_insert_eq. simpl.
    destruct (existsb _ l) eqn:E.
    + f_equal. lia.
    + rewrite (ListFacts.existsb_false_filter _ _ E). simpl. f_equal. lia.
  - now rewrite lookup_insert_ne.
Qed.

Lemma stats_by_sorted (col : Railway.post_view -> string) (d : Railway.click_data_t)
    (k : string) :
  Railway.stats_by col
    (sort_desc Railway.pv_clicks (RailwaySpec.all_posts d)) !! k
  = RailwaySpec.group_sum col k (RailwaySpec.all_posts d).
Proof.
  unfold Railway.stats_by, RailwaySpec.group_sum.
  pose proof (ListFacts.sort_desc_perm Railway.pv_clicks
                (RailwaySpec.all_posts d)) as Hp.
  rewrite stats_by_lookup, lookup_empty.
  rewrite (ListFacts.existsb_perm _ _ _ Hp).
  destruct (existsb _ _); [|reflexivity].
  f_equal. simpl.
  apply ListFacts.sumZ_perm, Permutation_map, ListFacts.filter_perm, Hp.
Qed.

End AnalyticsFacts.

(** C7, as the code has it.  PostgreSQL variant: the answer that
    [get_analytics] builds from its queries has total clicks, post count,
    per-platform and per-badge sums, top posts and average taken over the
    confirmed posts only, the average being total clicks over
    [max(post count, 1)]; the pending query counts the other posts.
    File-backed variant: the same figures are taken over all stored posts,
    and there is no pending count. *)
Theorem analytics_aggregates :
  (forall (d : Db.database) (qr : Db.query_results) (b1 b2 b3 : Z),
     DbSpec.from_queries d qr ->
     let a := Db.build_analytics qr b1 b2 b3 in
     let rows := Db.confirmed_rows d in
     Db.an_total_clicks a = sumZ (map Db.clicks rows)
     /\ Db.an_total_posts a = Z.of_nat (length rows)
     /\ (forall k, Db.an_clicks_by_platform a !! k
                   = DbSpec.group_sum Db.platform k rows)
     /\ (forall k, Db.an_clicks_by_badge_type a !! k
                   = DbSpec.group_sum Db.badge_type k rows)
     /\ (forall v, In v (Db.an_top_posts a) ->
                   exists r, In r (Db.posts d) /\ Db.confirmed r = true
                             /\ v = Db.view_post r)
     /\ Db.an_avg_clicks_per_post a
        = (inject_Z (sumZ (map Db.clicks rows))
           / inject_Z (Z.max (Z.of_nat (length rows)) 1))%Q
     /\ Db.dict_lookup "count" (Db.select_pending_count d)
        = Some (Z.of_nat (length (Db.pending_rows d))))
  /\ (forall d : Railway.click_data_t,
        let a := Railway.build_analytics d in
        let l := RailwaySpec.all_posts d in
        Railway.an_total_clicks a = sumZ (map Railway.pv_clicks l)
        /\ Railway.an_total_posts a = Z.of_nat (length l)
        /\ (forall k, Railway.an_clicks_by_platform a !! k
                      = RailwaySpec.group_sum Railway.pv_platform k l)
        /\ (forall k, Railway.an_clicks_by_badge_type a !! k
                      = RailwaySpec.group_sum Railway.pv_badge_type k l)
        /\ (forall v, In v (Railway.an_top_posts a) -> In v l)
        /\ Railway.an_avg_clicks_per_post a
           = (inject_Z (sumZ (map Railway.pv_clicks l))
              / inject_Z (Z.max (Z.of_nat (length l)) 1))%Q).
Proof.
  split.
  - intros d qr b1 b2 b3 (Hposts & Htotals & Hplat & Hbadge & _) a rows.
    subst a rows. unfold Db.build_analytics.
    cbn [Db.an_total_clicks Db.an_total_posts Db.an_clicks_by_platform
         Db.an_clicks_by_badge_type Db.an_top_posts Db.an_avg_clicks_per_post].
    rewrite Hposts, Htotals, Hplat, Hbadge.
    repeat split.
    + apply AnalyticsFacts.totals_clicks.
    + intros k. apply AnalyticsFacts.group_sums_lookup.
    + intros k. apply AnalyticsFacts.group_sums_lookup.
    + intros v. apply AnalyticsFacts.top_posts_confirmed.
    + apply AnalyticsFacts.avg_formula.
  - intros d a l. subst a l. unfold Railway.build_analytics.
    cbn [Railway.an_total_clicks Railway.an_total_posts
         Railway.an_clicks_by_platform Railway.an_clicks_by_badge_type
         Railway.an_top_posts Railway.an_avg_clicks_per_post].
    fold (RailwaySpec.all_posts d).
    pose proof (ListFacts.sort_desc_perm Railway.pv_clicks
                  (RailwaySpec.all_posts d)) as Hp.
    assert (Hsum : Railway.sum_clicks
                     (sort_desc Railway.pv_clicks (RailwaySpec.all_posts d))
                   = sumZ (map Railway.pv_clicks (RailwaySpec.all_posts d))).
    { unfold Railway.sum_clicks. rewrite ListFacts.fold_left_add, Z.add_0_l.
      apply ListFacts.sumZ_perm, Permutation_map, Hp. }
    rewrite Hsum, ListFacts.sort_desc_length.
    repeat split.
    + intros k. apply AnalyticsFacts.stats_by_sorted.
    + intros k. apply AnalyticsFacts.stats_by_sorted.
    + intros v H.
      apply list_elem_of_In, (subseteq_take 20), list_elem_of_In in H.
      now apply ListFacts.sort_desc_In in H.
Qed.

(** C7 on the sample store of the PostgreSQL variant: one confirmed post with
    two clicks, one pending post. *)
Lemma analytics_aggregates_sample :
  Db.an_total_clicks (Db.build_analytics Sample2.queries_two_clicks 0 0 0) = 2
  /\ Db.an_total_posts (Db.build_analytics Sample2.queries_two_clicks 0 0 0) = 1.
Proof.
  assert (H : DbSpec.from_queries Sample2.db_two_clicks Sample2.queries_two_clicks)
    by (repeat split).
  pose proof (proj1 analytics_aggregates Sample2.db_two_clicks
                Sample2.queries_two_clicks 0 0 0 H) as (H1 & H2 & _).
  split; [exact H1 | exact H2].
Defined.

(** C7 fails in the file-backed variant: a post that nobody confirmed is
    counted, with its clicks. *)
Lemma railway_analytics_counts_unconfirmed :
  ~ (forall d : Railway.click_data_t,
       Railway.an_total_posts (Railway.build_analytics d)
       = Z.of_nat (length (List.filter (fun e => RailwaySpec.confirmed (snd e))
                                       (Railway.posts d)))
       /\ Railway.an_total_clicks (Railway.build_analytics d)
          = sumZ (map (fun e => Railway.clicks (snd e))
                      (List.filter (fun e => RailwaySpec.confirmed (snd e))
                                   (Railway.posts d)))).
Proof.
  intros H. destruct (H Sample2.railway_two_clicks) as [H1 _].
  vm_compute in H1. discriminate H1.
Qed.

(** ** Recent clicks *)

Module RecentFacts.

Lemma descending_map {A B} (f : A -> B) (kb : B -> Z) (ka : A -> Z)
    (l : list A) :
  (forall x, kb (f x) = ka x) ->
  descending ka l -> descending kb (map f l).
Proof.
  unfold descending. intros Hk. induction 1 as [|a l Hs IH Ha]; simpl.
  - constructor.
  - constructor; [exact IH|].
    rewrite List.Forall_forall in Ha |- *. intros y Hy.
    apply in_map_iff in Hy as (x & <- & Hx). rewrite !Hk. now apply Ha.
Qed.

Lemma sublist_filter {A} (g : A -> bool) (l : list A) :
  sublist (List.filter g l) l.
Proof.
  induction l as [|x l IH]; simpl; [constructor|].
  destruct (g x); now constructor.
Qed.

Lemma sublist_map {A B} (f : A -> B) (l1 l2 : list A) :
  sublist l1 l2 -> sublist (map f l1) (map f l2).
Proof. induction 1; simpl; now constructor. Qed.

Lemma filter_length_le {A} (g : A -> bool) (l : list A) :
  (length (List.filter g l) <= length l)%nat.
Proof.
  induction l as [|x l IH]; simpl; [lia|]. destruct (g x); simpl; lia.
Qed.

Lemma last_n_length {A} (n : nat) (l : list A) :
  (length (last_n n l) <= n)%nat.
Proof. unfold last_n. rewrite length_drop. lia. Qed.

(** The rows that the join of the human clicks with the posts brings back. *)
Lemma human_clicks_joined_In (d : Db.database) (x : Db.recent_row) :
  In x (Db.human_clicks_joined d) <->
  exists ch p,
    In ch (Db.click_history d) /\ Db.ch_is_human ch = true
    /\ In p (Db.posts d) /\ Db.tracking_id p = Db.ch_tracking_id ch
    /\ x = Db.RecentRow (Db.ch_timestamp ch) (Db.ch_tracking_id ch)
                        (Db.ch_platform ch) (Db.ch_badge_type ch)
                        (Db.post_url p) (Db.username p).
Proof.
  unfold Db.human_clicks_joined, Db.join_click, Db.select_post.
  rewrite in_flat_map. split.
  - intros (ch & Hch & Hx).
    apply filter_In in Hch as [Hch Hh].
    apply in_map_iff in Hx as (p & <- & Hp).
    apply filter_In in Hp as [Hp Hid]. apply String.eqb_eq in Hid.
    now exists ch, p.
  - intros (ch & p & Hch & Hh & Hp & Hid & ->).
    exists ch. split; [now apply filter_In|].
    apply in_map_iff. exists p. split; [reflexivity|].
    apply filter_In. split; [exact Hp|]. now apply String.eqb_eq.
Qed.

(** Under the primary key, a stored post is the one row with its id. *)
Lemma select_unique (rows : list Db.post_row) (p : Db.post_row) :
  NoDup (map Db.tracking_id rows) -> In p rows ->
  List.filter (Db.has_id (Db.tracking_id p)) rows = [p].
Proof.
  induction rows as [|a rows IH]; intros Hnd Hin; [destruct Hin|].
  simpl in Hnd. apply NoDup_cons in Hnd as [Ha Hnd].
  rewrite list_elem_of_In in Ha.
  simpl. destruct Hin as [-> | Hin].
  - unfold Db.has_id at 1. rewrite String.eqb_refl. f_equal.
    clear IH Hnd. induction rows as [|b rows IH]; [reflexivity|].
    simpl in Ha |- *.
    destruct (String.eqb_spec (Db.tracking_id b) (Db.tracking_id p)) as [E|E].
    + exfalso. apply Ha. now left.
    + unfold Db.has_id at 1.
      destruct (String.eqb_spec (Db.tracking_id b) (Db.tracking_id p));
        [contradiction|].
      apply IH. intros H. apply Ha. now right.
  - unfold Db.has_id at 1.
    destruct (String.eqb_spec (Db.tracking_id a) (Db.tracking_id p)) as [E|E].
    + exfalso. apply Ha. rewrite E. now apply in_map.
    + now apply IH.
Qed.

(** Under the constraints of the schema the join keeps every human click,
    once. *)
Lemma human_clicks_joined_stamps (d : Db.database) :
  DbSpec.well_formed d ->
  map Db.rc_timestamp (Db.human_clicks_joined d)
  = map Db.ch_timestamp (List.filter Db.ch_is_human (Db.click_history d)).
Proof.
  intros [Hpk Hfk]. unfold Db.human_clicks_joined.
  assert (Hsub : forall ch,
             In ch (List.filter Db.ch_is_human (Db.click_history d)) ->
             In ch (Db.click_history d)).
  { intros ch H. now apply filter_In in H. }
  induction (List.filter Db.ch_is_human (Db.click_history d)) as [|ch l IH];
    [reflexivity|].
  simpl. rewrite map_app, IH by (intros c Hc; apply Hsub; now right).
  destruct (Hfk ch (Hsub ch (or_introl eq_refl))) as (p & Hp & Hid).
  unfold Db.join_click, Db.select_post. rewrite <- Hid.
  now rewrite (select_unique _ p Hpk Hp).
Qed.

(** The click endpoint and the confirmation keep the constraints. *)
Lemma track_click_well_formed (ev : Db.click_event) (st : Db.state) :
  DbSpec.well_formed (Db.st_db st) ->
  DbSpec.well_formed (Db.st_db (snd (Db.track_click ev st))).
Proof.
  intros [Hpk Hfk].
  destruct (DbFacts.db_track_click_cases ev st)
    as (db' & tr & -> & [-> | [-> | (host & post & _ & Hsel & _ & ->)]]);
    cbn [snd Db.st_db]; [now split | now split |].
  assert (Hids : map Db.tracking_id
                   (Db.update_where (Db.ev_tracking_id ev)
                      (Db.count_click (Db.ev_now ev)) (Db.posts (Db.st_db st)))
                 = map Db.tracking_id (Db.posts (Db.st_db st))).
  { unfold Db.update_where. rewrite map_map. apply map_ext.
    intros r. now destruct (Db.has_id _ r). }
  assert (Hkeep : forall p, In p (Db.posts (Db.st_db st)) ->
            exists p', In p' (Db.update_where (Db.ev_tracking_id ev)
                                (Db.count_click (Db.ev_now ev))
                                (Db.posts (Db.st_db st)))
                       /\ Db.tracking_id p' = Db.tracking_id p).
  { intros p Hp.
    exists (if Db.has_id (Db.ev_tracking_id ev) p
            then Db.count_click (Db.ev_now ev) p else p).
    split; [|now destruct (Db.has_id _ p)].
    unfold Db.update_where. apply in_map_iff. now exists p. }
  split; cbn [DbSpec.accepted_db Db.posts Db.click_history].
  - now rewrite Hids.
  - intros ch Hch. apply in_app_or in Hch as [Hch | [<- | []]].
    + destruct (Hfk ch Hch) as (p & Hp & Hid).
      destruct (Hkeep p Hp) as (p' & Hp' & Hid'). exists p'. split; congruence.
    + apply ClickFacts.head_select_In in Hsel as [Hp Hid].
      destruct (Hkeep post Hp) as (p' & Hp' & Hid'). exists p'.
      split; [exact Hp' | now rewrite Hid'].
Qed.

End RecentFacts.

(** C8, as the code has it.  PostgreSQL variant: the recent clicks that
    [get_analytics] builds from its query are the first 20 of the human click
    records (joined with their posts) in the order newest first, so they are
    at most 20, newest first, and none of the records left out is newer than
    one that is kept; under the constraints of the schema the join keeps each
    human click record once.  File-backed variant: the recent clicks are the human
    records among the last 20 stored records, in stored order, oldest
    first. *)
Theorem recent_clicks_selection :
  (forall (d : Db.database) (qr : Db.query_results) (b1 b2 b3 : Z),
     DbSpec.from_queries d qr ->
     let recent := Db.an_recent_clicks (Db.build_analytics qr b1 b2 b3) in
     let sorted := sort_desc Db.rc_timestamp (Db.human_clicks_joined d) in
     recent = map Db.view_click (take 20 sorted)
     /\ descending Db.cv_timestamp recent
     /\ length recent = Nat.min 20 (length (Db.human_clicks_joined d))
     /\ Permutation (take 20 sorted ++ drop 20 sorted) (Db.human_clicks_joined d)
     /\ (forall x y, In x (take 20 sorted) -> In y (drop 20 sorted) ->
                     Db.rc_timestamp y <= Db.rc_timestamp x)
     /\ (forall x, In x (Db.human_clicks_joined d) ->
                   exists ch, In ch (Db.click_history d)
                              /\ Db.ch_is_human ch = true
                              /\ Db.rc_timestamp x = Db.ch_timestamp ch
                              /\ Db.rc_tracking_id x = Db.ch_tracking_id ch)
     /\ (DbSpec.well_formed d ->
         map Db.rc_timestamp (Db.human_clicks_joined d)
         = map Db.ch_timestamp
               (List.filter Db.ch_is_human (Db.click_history d))))
  /\ (forall d : Railway.click_data_t,
        let recent := Railway.an_recent_clicks (Railway.build_analytics d) in
        recent = map Railway.view_click
                     (List.filter Railway.cr_is_human
                                  (last_n 20 (Railway.click_history d)))
        /\ (length recent <= 20)%nat
        /\ sublist recent (map Railway.view_click (Railway.click_history d))
        /\ (forall v, In v recent ->
                      exists c, In c (last_n 20 (Railway.click_history d))
                                /\ Railway.cr_is_human c = true
                                /\ v = Railway.view_click c)).
Proof.
  split.
  - intros d qr b1 b2 b3 (_ & _ & _ & _ & Hrecent) recent sorted.
    subst recent. unfold Db.build_analytics. cbn [Db.an_recent_clicks].
    rewrite Hrecent. unfold Db.select_recent_clicks. fold sorted.
    pose proof (ListFacts.sort_desc_sorted Db.rc_timestamp
                  (Db.human_clicks_joined d)) as Hs. fold sorted in Hs.
    split; [reflexivity|]. split; [|split; [|split; [|split; [|split]]]].
    + apply (RecentFacts.descending_map _ _ Db.rc_timestamp); [reflexivity|].
      now apply ListFacts.descending_take.
    + rewrite length_map, length_take. unfold sorted.
      now rewrite ListFacts.sort_desc_length.
    + rewrite take_drop. apply ListFacts.sort_desc_perm.
    + now apply ListFacts.descending_take_drop.
    + intros x Hx.
      apply RecentFacts.human_clicks_joined_In in Hx
        as (ch & p & Hch & Hh & _ & _ & ->).
      now exists ch.
    + apply RecentFacts.human_clicks_joined_stamps.
  - intros d recent. subst recent. unfold Railway.build_analytics.
    cbn [Railway.an_recent_clicks].
    split; [reflexivity|]. split; [|split].
    + rewrite length_map.
      pose proof (RecentFacts.filter_length_le Railway.cr_is_human
                    (last_n 20 (Railway.click_history d))).
      pose proof (RecentFacts.last_n_length 20 (Railway.click_history d)). lia.
    + apply RecentFacts.sublist_map.
      etransitivity; [apply RecentFacts.sublist_filter|].
      apply sublist_drop.
    + intros v Hv. apply in_map_iff in Hv as (c & <- & Hc).
      apply filter_In in Hc as [Hc Hh]. now exists c.
Qed.

(** C8 on the sample store of the PostgreSQL variant: the two clicks, newest
    first. *)
Lemma recent_clicks_selection_sample :
  map Db.cv_timestamp
      (Db.an_recent_clicks (Db.build_analytics Sample2.queries_two_clicks 0 0 0))
  = [6000; 5000].
Proof.
  assert (H : DbSpec.from_queries Sample2.db_two_clicks Sample2.queries_two_clicks)
    by (repeat split).
  pose proof (proj1 recent_clicks_selection Sample2.db_two_clicks
                Sample2.queries_two_clicks 0 0 0 H) as (H1 & _).
  cbv zeta in H1. rewrite H1. vm_compute. reflexivity.
Defined.

(** C8 fails in the file-backed variant: after two clicks the recent clicks
    are listed oldest first. *)
Lemma railway_recent_clicks_oldest_first :
  ~ (forall d : Railway.click_data_t,
       descending Railway.cv_timestamp
                  (Railway.an_recent_clicks (Railway.build_analytics d))).
Proof.
  intros H. specialize (H Sample2.railway_two_clicks).
  assert (E : Railway.an_recent_clicks
                (Railway.build_analytics Sample2.railway_two_clicks)
              = [Railway.ClickView 5000 "ab12cd34" "fac" "g";
                 Railway.ClickView 6000 "ab12cd34" "fac" "g"])
    by (vm_compute; reflexivity).
  rewrite E in H. apply StronglySorted_inv in H as [_ H].
  apply Forall_inv in H. simpl in H. lia.
Qed.

(** * Further properties *)

(** ** The click endpoint of the PostgreSQL variant *)

Module DbClickFacts.
Import Db DbSpec DbTerms DbFacts.

Lemma head_select_stored (tid : string) (d : database) (post : post_row) :
  head (select_post tid d) = Some post ->
  In post (posts d) /\ has_id tid post = true.
Proof.
  unfold select_post. intros H.
  assert (Hin : In post (List.filter (has_id tid) (posts d))).
  { destruct (List.filter _ _); [discriminate|]. injection H as ->. now left. }
  now apply filter_In in Hin.
Qed.

Lemma insert_click_ok (ev : click_event) (host : string) (d : database)
    (post : post_row) :
  head (select_post (ev_tracking_id ev) d) = Some post ->
  insert_click (history_row ev host)
               (update_clicks (ev_tracking_id ev) (ev_now ev) d)
  = Some (accepted_db ev host d).
Proof.
  intros H. apply head_select_stored in H as [Hin Hid].
  unfold insert_click.
  assert (E : existsb (has_id (ch_tracking_id (history_row ev host)))
                (posts (update_clicks (ev_tracking_id ev) (ev_now ev) d)) = true).
  { apply existsb_exists. exists (count_click (ev_now ev) post). split.
    - cbn [update_clicks set_posts posts]. unfold update_where.
      apply in_map_iff. exists post. now rewrite Hid.
    - exact Hid. }
  now rewrite E.
Qed.

Lemma returning_clicks_some (tid : string) (now : Z) (d : database)
    (post : post_row) :
  head (select_post tid d) = Some post ->
  head (returning_clicks tid (update_clicks tid now d)) = Some (clicks post + 1).
Proof.
  intros H. pose proof (head_select_stored _ _ _ H) as [_ Hid].
  unfold returning_clicks, select_post in *. cbn [update_clicks set_posts posts].
  rewrite ConfirmFacts.filter_update_where by reflexivity.
  destruct (List.filter (has_id tid) (posts d)) as [|r l]; [discriminate|].
  injection H as ->. simpl. now rewrite Hid.
Qed.

(** The run of [track_click] when no call to the storage fails. *)
Lemma db_track_click_ok (ev : click_event) (st : state) (host : string) :
  no_faults (ev_faults ev) ->
  ev_client_host ev = Some host ->
  track_click ev st = (redirect, click_result ev host st).
Proof.
  intros Hok Hhost. destruct st as [d tr0].
  unfold track_click, track_click_body, click_result. rewrite Hhost.
  db_exec_simpl. fold (ip_of ev host).
  destruct (is_bot_request _ _).
  { db_exec_simpl. repeat (exec_storage_ok Hok; db_exec_simpl). reflexivity. }
  db_exec_simpl.
  destruct (is_rate_limited _ _ _ _) as [[] tr1]; db_exec_simpl; [reflexivity|].
  exec_storage_ok Hok; db_exec_simpl.
  exec_storage_ok Hok; db_exec_simpl.
  destruct (head (select_post (ev_tracking_id ev) d)) as [post|] eqn:Hsel;
    db_exec_simpl.
  2:{ exec_storage_ok Hok; db_exec_simpl. reflexivity. }
  destruct (confirmed post); db_exec_simpl.
  2:{ exec_storage_ok Hok; db_exec_simpl. reflexivity. }
  exec_storage_ok Hok; db_exec_simpl.
  rewrite (returning_clicks_some _ _ _ _ Hsel). db_exec_simpl.
  exec_storage_ok Hok; db_exec_simpl.
  fold (history_row ev host). rewrite (insert_click_ok _ _ _ _ Hsel).
  db_exec_simpl.
  exec_storage_ok Hok; db_exec_simpl.
  exec_storage_ok Hok; db_exec_simpl.
  reflexivity.
Qed.

(** A request that is turned away before the lookup: the tracker after it,
    and what it may do to the database, whatever fails. *)
Lemma db_track_click_early (ev : click_event) (st : state) (host : string) :
  ev_client_host ev = Some host ->
  let ua := default "" (ev_user_agent ev) in
  let swept := clean_ip_tracker (ev_time_clean ev) (st_tracker st) in
  (is_bot_request (Some ua) (Some (ip_of ev host)) = true ->
   exists d', track_click ev st = (redirect, State d' swept)
              /\ (d' = st_db st \/ d' = bumped_db (st_db st)))
  /\ (is_bot_request (Some ua) (Some (ip_of ev host)) = false ->
      fst (is_rate_limited (Some (ip_of ev host)) (ev_tracking_id ev)
             (ev_time_limit ev) swept) = true ->
      track_click ev st = (redirect, State (st_db st) swept)).
Proof.
  intros Hhost ua swept. subst ua swept. destruct st as [d tr0].
  unfold track_click, track_click_body. rewrite Hhost.
  db_exec_simpl. fold (ip_of ev host). split.
  - intros ->. db_exec_simpl.
    repeat (exec_storage; db_exec_simpl);
      (eexists; split; [reflexivity|]); auto.
  - intros -> Hlim. db_exec_simpl.
    destruct (is_rate_limited _ _ _ _) as [lim tr1] eqn:E.
    cbn [fst] in Hlim. subst lim. db_exec_simpl.
    assert (tr1 = clean_ip_tracker (ev_time_clean ev) tr0) as ->; [|reflexivity].
    revert E. unfold is_rate_limited.
    destruct (_ !! _) as [[last count]|]; [|discriminate].
    destruct (Qgtb _ _); [discriminate|].
    destruct (_ && _); [|discriminate]. now intros [= <-].
Qed.

End DbClickFacts.

(** X1.  PostgreSQL variant, storage working and client named: a bot request
    adds one to the bot counter and nothing else; a rate-limited request
    leaves the database alone; a click on an unknown or unconfirmed post
    leaves it alone; a click on a stored, confirmed post adds one click to it
    and appends its history row. *)
Theorem db_click_decision (ev : Db.click_event) (st : Db.state) (host : string) :
  no_faults (Db.ev_faults ev) ->
  Db.ev_client_host ev = Some host ->
  let ip := DbSpec.ip_of ev host in
  let swept := clean_ip_tracker (Db.ev_time_clean ev) (Db.st_tracker st) in
  let bot := is_bot_request (Some (default "" (Db.ev_user_agent ev))) (Some ip) in
  let limited := fst (is_rate_limited (Some ip) (Db.ev_tracking_id ev)
                        (Db.ev_time_limit ev) swept) in
  let d := Db.st_db st in
  let d' := Db.st_db (snd (Db.track_click ev st)) in
  (bot = true -> d' = DbSpec.bumped_db d)
  /\ (bot = false -> limited = true -> d' = d)
  /\ (bot = false -> limited = false ->
      (forall post, head (Db.select_post (Db.ev_tracking_id ev) d) = Some post ->
                    Db.confirmed post = false) ->
      d' = d)
  /\ (bot = false -> limited = false ->
      forall post, head (Db.select_post (Db.ev_tracking_id ev) d) = Some post ->
                   Db.confirmed post = true ->
                   d' = DbSpec.accepted_db ev host d).
Proof.
  intros Hok Hhost ip swept bot limited d d'.
  subst d'. rewrite (DbClickFacts.db_track_click_ok ev st host Hok Hhost).
  cbn [snd]. unfold DbTerms.click_result.
  fold ip swept bot d. subst limited.
  destruct (is_rate_limited (Some ip) (Db.ev_tracking_id ev)
              (Db.ev_time_limit ev) swept) as [lim tr1].
  cbn [fst].
  repeat split.
  - intros ->. reflexivity.
  - intros -> ->. reflexivity.
  - intros -> -> Hnot.
    destruct (head (Db.select_post (Db.ev_tracking_id ev) d)) as [post|];
      [|reflexivity].
    now rewrite (Hnot post eq_refl).
  - intros -> -> post -> ->. reflexivity.
Qed.

(** X1 on the sample store: a browser click on the confirmed post. *)
Lemma db_click_decision_sample :
  Db.st_db (snd (Db.track_click (Sample.db_click "203.0.113.7" 10 5000)
                                Sample.db_confirmed))
  = DbSpec.accepted_db (Sample.db_click "203.0.113.7" 10 5000) "203.0.113.7"
                       (Db.st_db Sample.db_confirmed).
Proof.
  refine (proj2 (proj2 (proj2
            (db_click_decision (Sample.db_click "203.0.113.7" 10 5000)
               Sample.db_confirmed "203.0.113.7" _ eq_refl)))
            eq_refl eq_refl _ eq_refl eq_refl).
  constructor.
Defined.

(** X2.  PostgreSQL variant, whatever fails in the storage: a click request
    either leaves posts and history as they were, or it does both updates of
    an accepted click on a stored, confirmed post: one more click on the post
    and one more history row.  Never one without the other. *)
Theorem db_click_all_or_nothing (ev : Db.click_event) (st : Db.state) :
  let d := Db.st_db st in
  let d' := Db.st_db (snd (Db.track_click ev st)) in
  (Db.posts d' = Db.posts d /\ Db.click_history d' = Db.click_history d)
  \/ (exists host post,
        head (Db.select_post (Db.ev_tracking_id ev) d) = Some post
        /\ Db.confirmed post = true
        /\ Db.posts d'
           = Db.update_where (Db.ev_tracking_id ev) (Db.count_click (Db.ev_now ev))
                             (Db.posts d)
        /\ Db.click_history d'
           = (Db.click_history d ++ [DbSpec.history_row ev host])%list
        /\ DbSpec.counters (Db.ev_tracking_id ev) d'
           = Some (Db.clicks post + 1,
                   Some (default (Db.ev_now ev) (Db.first_click post)),
                   Some (Db.ev_now ev))
        /\ Db.bot_requests_blocked d' = Db.bot_requests_blocked d).
Proof.
  intros d d'. subst d d'.
  destruct (DbFacts.db_track_click_cases ev st)
    as (db' & tr & -> & [-> | [-> | (host & post & _ & Hsel & Hc & ->)]]);
    cbn [snd Db.st_db]; [now left | now left |].
  right. exists host, post. repeat split; try assumption.
  unfold DbSpec.counters, Db.select_post, DbSpec.accepted_db. cbn [Db.posts].
  rewrite RunFacts.head_filter_update by reflexivity.
  unfold Db.select_post in Hsel. rewrite Hsel. cbn [option_map].
  apply DbClickFacts.head_select_stored in Hsel as [_ ->].
  cbn. now destruct (Db.first_click post).
Qed.

(** X3.  PostgreSQL variant, whatever fails in the storage: a bot request
    changes no post and no history row and leaves the rate limiter with its
    sweep only; a rate-limited request changes nothing in the database and
    does not touch the limiter's entries either. *)
Theorem db_rejected_requests (ev : Db.click_event) (st : Db.state) (host : string) :
  Db.ev_client_host ev = Some host ->
  let ip := DbSpec.ip_of ev host in
  let swept := clean_ip_tracker (Db.ev_time_clean ev) (Db.st_tracker st) in
  let bot := is_bot_request (Some (default "" (Db.ev_user_agent ev))) (Some ip) in
  let limited := fst (is_rate_limited (Some ip) (Db.ev_tracking_id ev)
                        (Db.ev_time_limit ev) swept) in
  let st' := snd (Db.track_click ev st) in
  (bot = true ->
   Db.posts (Db.st_db st') = Db.posts (Db.st_db st)
   /\ Db.click_history (Db.st_db st') = Db.click_history (Db.st_db st)
   /\ (Db.bot_requests_blocked (Db.st_db st') = Db.bot_requests_blocked (Db.st_db st)
       \/ Db.bot_requests_blocked (Db.st_db st')
          = Db.bot_requests_blocked (Db.st_db st) + 1)
   /\ Db.st_tracker st' = swept)
  /\ (bot = false -> limited = true -> st' = Db.State (Db.st_db st) swept).
Proof.
  intros Hhost ip swept bot limited st'. subst st'.
  destruct (DbClickFacts.db_track_click_early ev st host Hhost) as [Hbot Hlim].
  split.
  - intros H. destruct (Hbot H) as (d' & -> & [-> | ->]); cbn; auto.
  - intros H1 H2. now rewrite (Hlim H1 H2).
Qed.

(** X3 on the sample store: the preview fetch of a crawler. *)
Lemma db_rejected_requests_sample :
  Db.posts (Db.st_db (snd (Db.track_click Sample3.db_bot_click Sample.db_confirmed)))
  = Db.posts (Db.st_db Sample.db_confirmed)
  /\ Db.st_tracker (snd (Db.track_click Sample3.db_bot_click Sample.db_confirmed))
     = clean_ip_tracker 10 (Db.st_tracker Sample.db_confirmed).
Proof.
  destruct (proj1 (db_rejected_requests Sample3.db_bot_click Sample.db_confirmed
                     "203.0.113.7" eq_refl) eq_refl)
    as (H1 & _ & _ & H2).
  split; [exact H1 | exact H2].
Defined.

Module DbRunFacts.
Import Db DbSpec DbTerms.

Lemma history_rows_app (tid : string) (d : database) (row : click_row)
    (rows : list post_row) (bots : Z) :
  history_rows tid (Database rows (click_history d ++ [row]) bots)
  = history_rows tid d + (if String.eqb (ch_tracking_id row) tid then 1 else 0).
Proof.
  unfold history_rows. cbn [click_history].
  rewrite List.filter_app, length_app. simpl.
  destruct (String.eqb (ch_tracking_id row) tid); simpl; lia.
Qed.

(** One request adds a history row of a tracking id exactly when it is an
    accepted click on it. *)
Lemma db_step_history (tid : string) (ev : click_event) (st : state) :
  history_rows tid (st_db (db_step ev st))
  = history_rows tid (st_db st)
    + (if accepted db_step db_counters tid ev st then 1 else 0).
Proof.
  unfold accepted, clicks_of, view, db_counters, db_step.
  destruct (DbFacts.db_track_click_cases ev st)
    as (db' & tr & -> & [-> | [-> | (host & post & _ & Hsel & _ & ->)]]);
    cbn [snd st_db].
  - rewrite Z.eqb_refl. simpl. lia.
  - unfold counters, select_post, bumped_db, history_rows.
    cbn [posts click_history]. rewrite Z.eqb_refl. simpl. lia.
  - unfold accepted_db at 1. rewrite history_rows_app. f_equal.
    unfold counters, select_post, accepted_db. cbn [posts history_row ch_tracking_id].
    rewrite RunFacts.head_filter_update by reflexivity.
    destruct (String.eqb_spec (ev_tracking_id ev) tid) as [<- | Hne].
    + unfold select_post in Hsel. rewrite Hsel. cbn [option_map default fst].
      apply DbClickFacts.head_select_stored in Hsel as [_ ->]. simpl.
      replace (clicks post + 1 =? clicks post) with false
        by (symmetry; apply Z.eqb_neq; lia).
      reflexivity.
    + destruct (head (List.filter (has_id tid) (posts (st_db st)))) as [r|] eqn:Hr;
        cbn [option_map default fst]; [|reflexivity].
      apply RunFacts.head_filter_has_id in Hr.
      assert (has_id (ev_tracking_id ev) r = false) as ->.
      { unfold has_id. rewrite Hr. apply String.eqb_neq. congruence. }
      simpl. now rewrite Z.eqb_refl.
Qed.

Lemma db_run_history (tid : string) (evs : list click_event) (st : state) :
  history_rows tid (st_db (run_all db_step evs st))
  = history_rows tid (st_db st) + count_accepted db_step db_counters tid evs st.
Proof.
  revert st; induction evs as [|ev evs IH]; intros st; simpl; [lia|].
  rewrite IH, db_step_history. lia.
Qed.

End DbRunFacts.

(** X4.  PostgreSQL variant: over every sequence of click requests, whatever
    fails in the storage, the number of history rows of a tracking id grows
    by exactly the number of accepted clicks on it, and so by exactly as much
    as the click counter of its post. *)
Theorem db_history_in_step (tid : string) (evs : list Db.click_event)
    (st : Db.state) :
  DbTerms.history_rows tid (Db.st_db (run_all db_step evs st))
  = DbTerms.history_rows tid (Db.st_db st)
    + count_accepted db_step db_counters tid evs st
  /\ DbTerms.history_rows tid (Db.st_db (run_all db_step evs st))
     - DbTerms.history_rows tid (Db.st_db st)
     = clicks_of db_counters tid (run_all db_step evs st)
       - clicks_of db_counters tid st.
Proof.
  pose proof (DbRunFacts.db_run_history tid evs st) as H.
  pose proof (run_counts db_step db_counters Db.ev_now RunFacts.db_step_cases
                tid evs st) as Hc.
  split; [exact H | lia].
Qed.

(** ** The click endpoint of the file-backed variant *)

Module RailwayClickFacts.
Import Railway RailwaySpec RailwayTerms RailwayFacts.

(** The run of [track_click]. *)
Lemma railway_track_click_result (ev : click_event) (st : state) :
  track_click ev st = (redirect, click_result ev st).
Proof.
  destruct st as [[tot ps hist bots] tr0 file].
  unfold track_click, track_click_body, click_result, counted_data, is_bot,
    post_before, bumped.
  fold (ip_of ev). railway_exec_simpl.
  destruct (is_bot_request _ _); railway_exec_simpl; [reflexivity|].
  destruct (is_rate_limited _ _ _ _) as [[] tr1]; railway_exec_simpl;
    [reflexivity|].
  assert (Hposts :
    forall p0 (ps0 : list (string * post)),
      dict_set (ev_tracking_id ev)
        (set_last_click (ev_now ev) (set_first_click (ev_now ev) (add_click p0)))
        (dict_set (ev_tracking_id ev) (set_first_click (ev_now ev) (add_click p0))
           (dict_set (ev_tracking_id ev) (add_click p0) ps0))
      = dict_set (ev_tracking_id ev) (counted_post (ev_now ev) p0) ps0).
  { intros. now rewrite !dict_set_set. }
  destruct (dict_get (ev_tracking_id ev) ps) as [p0|] eqn:Hget;
    railway_exec_simpl.
  - repeat (first [rewrite Hget | rewrite dict_get_set_eq]; railway_exec_simpl).
    rewrite Hposts.
    destruct (ip_of ev) as [ip|]; railway_exec_simpl; [|reflexivity].
    fold (history_record ev ip). unfold appended.
    destruct (50 <? length (hist ++ [history_record ev ip]))%nat;
      destruct (ev_can_write ev); reflexivity.
  - repeat (rewrite dict_get_set_eq; railway_exec_simpl).
    rewrite Hposts, dict_set_set.
    destruct (ip_of ev) as [ip|]; railway_exec_simpl; [|reflexivity].
    fold (history_record ev ip). unfold appended.
    destruct (50 <? length (hist ++ [history_record ev ip]))%nat;
      destruct (ev_can_write ev); reflexivity.
Qed.

Lemma sum_dict_set (k : string) (v : post) (l : list (string * post)) :
  sumZ (map (fun e => clicks (snd e)) (dict_set k v l))
  = sumZ (map (fun e => clicks (snd e)) l)
    - match dict_get k l with Some p => clicks p | None => 0 end
    + clicks v.
Proof.
  induction l as [|[k' p'] l IH]; simpl; [lia|].
  destruct (String.eqb k' k); simpl; [lia|]. rewrite IH. lia.
Qed.

Lemma counted_post_clicks (now : Z) (p : post) :
  clicks (counted_post now p) = clicks p + 1.
Proof. reflexivity. Qed.

Lemma appended_length (r : click_record) (h : list click_record) :
  (length (appended r h) <= 50)%nat \/ appended r h = (h ++ [r])%list.
Proof.
  unfold appended. destruct (50 <? length (h ++ [r]))%nat eqn:E.
  - left. unfold last_n. rewrite length_drop.
    apply Nat.ltb_lt in E. lia.
  - right. reflexivity.
Qed.

Lemma appended_bound (r : click_record) (h : list click_record) :
  (length (appended r h) <= 50)%nat.
Proof.
  unfold appended. destruct (50 <? length (h ++ [r]))%nat eqn:E.
  - unfold last_n. rewrite length_drop. apply Nat.ltb_lt in E. lia.
  - apply Nat.ltb_ge in E. exact E.
Qed.

Lemma consistent_step (ev : click_event) (st : state) :
  consistent (st_data st) -> consistent (st_data (railway_step ev st)).
Proof.
  intros [Hsum Hlen]. unfold railway_step.
  rewrite railway_track_click_result. cbn [snd]. unfold click_result.
  destruct (is_bot ev); [now split|].
  destruct (is_rate_limited _ _ _ _) as [[] tr1]; [now split|].
  assert (Hs : total_clicks (st_data st) + 1
               = sumZ (map (fun e => clicks (snd e))
                           (dict_set (ev_tracking_id ev)
                              (counted_post (ev_now ev) (post_before ev (st_data st)))
                              (posts (st_data st))))).
  { rewrite sum_dict_set, counted_post_clicks. unfold post_before.
    unfold sum_posts in Hsum. rewrite Hsum.
    destruct (dict_get _ _); simpl; lia. }
  destruct (ip_of ev) as [ip|]; cbn [st_data]; (split; [exact Hs|]);
    cbn [counted_data click_history]; [apply appended_bound | exact Hlen].
Qed.

Lemma consistent_run (evs : list click_event) (st : state) :
  consistent (st_data st) -> consistent (st_data (run_all railway_step evs st)).
Proof.
  revert st; induction evs as [|ev evs IH]; intros st H; simpl; [exact H|].
  now apply IH, consistent_step.
Qed.

Lemma analytics_total (d : click_data_t) :
  an_total_clicks (build_analytics d) = sum_posts d.
Proof.
  unfold build_analytics, sum_posts. cbn [an_total_clicks].
  unfold sum_clicks. rewrite ListFacts.fold_left_add, Z.add_0_l.
  rewrite (ListFacts.sumZ_perm _ (map pv_clicks (map view_post (posts d)))).
  - rewrite map_map. f_equal. apply map_ext. now intros [k p].
  - apply Permutation_map, ListFacts.sort_desc_perm.
Qed.

End RailwayClickFacts.

(** X5.  File-backed variant: a request that passes the bot filter and the
    rate limiter is counted in memory even when the rest of the handler
    fails.  Without a client address the post and the running total are
    updated but no history record is appended and nothing is saved; with an
    address and a failing save the click and its record stay in memory. *)
Theorem railway_click_partial_update (ev : Railway.click_event)
    (st : Railway.state) :
  RailwaySpec.is_bot ev = false ->
  RailwaySpec.limited ev st = false ->
  let d := Railway.st_data st in
  let st' := snd (Railway.track_click ev st) in
  fst (Railway.track_click ev st) = Railway.redirect
  /\ Railway.total_clicks (Railway.st_data st') = Railway.total_clicks d + 1
  /\ (RailwaySpec.ip_of ev = None ->
      Railway.st_data st'
      = RailwayTerms.counted_data ev d (Railway.click_history d)
      /\ Railway.st_file st' = Railway.st_file st)
  /\ (forall ip, RailwaySpec.ip_of ev = Some ip ->
      Railway.st_data st'
      = RailwayTerms.counted_data ev d
          (RailwaySpec.appended (RailwaySpec.history_record ev ip)
                                (Railway.click_history d))
      /\ Railway.st_file st'
         = if Railway.ev_can_write ev then Some (Railway.st_data st')
           else Railway.st_file st).
Proof.
  intros Hbot Hlim d st'. subst d st'.
  rewrite RailwayClickFacts.railway_track_click_result. cbn [fst snd].
  unfold RailwayTerms.click_result. rewrite Hbot.
  unfold RailwaySpec.limited in Hlim.
  destruct (is_rate_limited _ _ _ _) as [lim tr1]. cbn [fst] in Hlim. subst lim.
  split; [reflexivity|].
  destruct (RailwaySpec.ip_of ev) as [ip|]; cbn [Railway.st_data Railway.st_file].
  - split; [reflexivity|]. split; [discriminate|].
    intros ip' [= <-]. now destruct (Railway.ev_can_write ev).
  - split; [reflexivity|]. split; [now split | discriminate].
Qed.

(** X5 on a first click that carries no address. *)
Lemma railway_click_partial_update_sample :
  Railway.st_data (snd (Railway.track_click Sample4.railway_click_no_address
                                            Sample.railway_empty))
  = Railway.ClickData 1
      [("ab12cd34", Railway.Post 1 "fac" "g" "unknown" "" (Some 5000) (Some 5000) 5000)]
      [] 0
  /\ Railway.st_file (snd (Railway.track_click Sample4.railway_click_no_address
                                               Sample.railway_empty))
     = None.
Proof.
  exact (proj1 (proj2 (proj2
           (railway_click_partial_update Sample4.railway_click_no_address
              Sample.railway_empty eq_refl eq_refl))) eq_refl).
Defined.

Module RailwayRunFacts.
Import Railway RailwaySpec RailwayTerms RailwayFacts RailwayClickFacts.

Lemma counted_clicks (ev : click_event) (d : click_data_t)
    (h : list click_record) (tid : string) :
  fst (fst (default (0, None, None) (counters tid (counted_data ev d h))))
  = fst (fst (default (0, None, None) (counters tid d)))
    + (if String.eqb (ev_tracking_id ev) tid then 1 else 0).
Proof.
  unfold counters, counted_data. cbn [posts].
  destruct (String.eqb_spec (ev_tracking_id ev) tid) as [<-|Hne].
  - rewrite dict_get_set_eq. unfold post_before.
    destruct (dict_get _ _); simpl; lia.
  - rewrite dict_get_set_ne by exact Hne.
    destruct (dict_get _ _); simpl; lia.
Qed.

Lemma filter_drop_length {A} (f : A -> bool) (n : nat) (l : list A) :
  (length (List.filter f (drop n l)) <= length (List.filter f l))%nat.
Proof.
  revert l; induction n as [|n IH]; intros l.
  - now rewrite drop_0.
  - destruct l as [|x l]; simpl; [lia|].
    specialize (IH l). destruct (f x); simpl; lia.
Qed.

Lemma history_clicks_appended (ev : click_event) (ip tid : string)
    (d : click_data_t) :
  history_clicks tid
    (counted_data ev d (appended (history_record ev ip) (click_history d)))
  <= history_clicks tid d
     + (if String.eqb (ev_tracking_id ev) tid then 1 else 0).
Proof.
  unfold history_clicks, counted_data. cbn [click_history].
  set (f := fun c => String.eqb (cr_tracking_id c) tid && cr_is_human c).
  assert (Happ : Z.of_nat (length (List.filter f
                    (click_history d ++ [history_record ev ip])))
                 = Z.of_nat (length (List.filter f (click_history d)))
                   + (if String.eqb (ev_tracking_id ev) tid then 1 else 0)).
  { rewrite List.filter_app, length_app. unfold f at 2. simpl.
    destruct (String.eqb (ev_tracking_id ev) tid); simpl; lia. }
  unfold appended.
  destruct (50 <? length (click_history d ++ [history_record ev ip]))%nat.
  - unfold last_n.
    pose proof (filter_drop_length f
                  (length (click_history d ++ [history_record ev ip]) - 50)
                  (click_history d ++ [history_record ev ip])).
    lia.
  - lia.
Qed.

Lemma history_within_clicks_step (ev : click_event) (st : state) :
  history_within_clicks (st_data st) ->
  history_within_clicks (st_data (railway_step ev st)).
Proof.
  intros H tid. specialize (H tid). unfold railway_step.
  rewrite railway_track_click_result. cbn [snd]. unfold click_result.
  destruct (is_bot ev); [exact H|].
  destruct (is_rate_limited _ _ _ _) as [[] tr1]; [exact H|].
  destruct (ip_of ev) as [ip|]; cbn [st_data]; rewrite counted_clicks.
  - pose proof (history_clicks_appended ev ip tid (st_data st)). lia.
  - unfold history_clicks, counted_data in *. cbn [click_history].
    destruct (String.eqb (ev_tracking_id ev) tid); lia.
Qed.

Lemma history_within_clicks_run (evs : list click_event) (st : state) :
  history_within_clicks (st_data st) ->
  history_within_clicks (st_data (run_all railway_step evs st)).
Proof.
  revert st; induction evs as [|ev evs IH]; intros st H; simpl; [exact H|].
  now apply IH, history_within_clicks_step.
Qed.

End RailwayRunFacts.

(** X6.  File-backed variant: click requests keep the running total
    [total_clicks] equal to the sum of the click counters of the posts, and
    the history at 50 records at most.  So after any sequence of click
    requests the analytics, which adds up the posts, and the health check,
    which reads the running total, report the same number of clicks. *)
Theorem railway_totals_consistent (evs : list Railway.click_event)
    (st : Railway.state) :
  RailwayTerms.consistent (Railway.st_data st) ->
  let st' := run_all railway_step evs st in
  Railway.total_clicks (Railway.st_data st')
  = RailwayTerms.sum_posts (Railway.st_data st')
  /\ (length (Railway.click_history (Railway.st_data st')) <= 50)%nat
  /\ forall PUBLIC_URL PORT RAILWAY_STATIC_URL RAILWAY_PUBLIC_DOMAIN now payload,
       Railway.health PUBLIC_URL PORT RAILWAY_STATIC_URL RAILWAY_PUBLIC_DOMAIN
                      now st'
       = JSONResponse 200 payload ->
       Railway.hp_total_clicks payload
       = Railway.an_total_clicks (Railway.build_analytics (Railway.st_data st')).
Proof.
  intros H st'.
  pose proof (RailwayClickFacts.consistent_run evs st H) as [Hsum Hlen].
  fold st' in Hsum, Hlen.
  split; [exact Hsum|]. split; [exact Hlen|].
  intros PU PORT RS RD now payload [= <-]. cbn [Railway.hp_total_clicks].
  now rewrite RailwayClickFacts.analytics_total.
Qed.

(** X6 on two browser clicks from two addresses, starting with no data. *)
Lemma railway_totals_consistent_sample :
  Railway.total_clicks Sample2.railway_two_clicks
  = RailwayTerms.sum_posts Sample2.railway_two_clicks.
Proof.
  refine (proj1 (railway_totals_consistent
                   [Sample.railway_click "203.0.113.7" 10 5000;
                    Sample.railway_click "198.51.100.9" 20 6000]
                   Sample.railway_empty _)).
  split; [reflexivity | simpl; lia].
Defined.

(** X7.  File-backed variant: a post never has more human records in the
    history than clicks on its counter, over any sequence of click requests;
    so [debug_tracking] never reports a history count above the stored
    counter. *)
Theorem railway_debug_history_bound (evs : list Railway.click_event)
    (st : Railway.state) (tid : string) (payload : Railway.debug_payload) :
  RailwayTerms.history_within_clicks (Railway.st_data st) ->
  Railway.debug_tracking tid (run_all railway_step evs st)
  = JSONResponse 200 payload ->
  Railway.dp_history_clicks_count payload <= Railway.dp_stored_clicks payload.
Proof.
  intros H Hdebug.
  pose proof (RailwayRunFacts.history_within_clicks_run evs st H tid) as Hrun.
  unfold Railway.debug_tracking in Hdebug.
  unfold RailwaySpec.counters in Hrun.
  destruct (Railway.dict_get tid _) as [p|]; [|discriminate].
  injection Hdebug as <-. exact Hrun.
Qed.

(** X7 on two browser clicks from two addresses, starting with no data. *)
Lemma railway_debug_history_bound_sample :
  Railway.history_clicks "ab12cd34" Sample2.railway_two_clicks <= 2.
Proof.
  refine (railway_debug_history_bound
            [Sample.railway_click "203.0.113.7" 10 5000;
             Sample.railway_click "198.51.100.9" 20 6000]
            Sample.railway_empty "ab12cd34"
            (Railway.DebugPayload "ab12cd34"
               (Railway.Post 2 "fac" "g" "unknown" "" (Some 5000) (Some 6000) 5000)
               2 2 true) _ eq_refl).
  intros tid. vm_compute. discriminate.
Defined.

(** ** The sweep of the tracker *)

Module SweepFacts.

Lemma stale_later (tc t last : Q) (c : Z) :
  (tc <= t)%Q -> stale tc (last, c) = true -> Qgtb (t - last) 3600 = true.
Proof.
  unfold stale. cbn [fst]. rewrite !RateFacts.Qgtb_true. intros. lra.
Qed.

Lemma fresh_not_stale (tc t : Q) (c : Z) :
  (tc <= t)%Q -> stale tc (t, c) = false.
Proof.
  unfold stale. cbn [fst]. rewrite RateFacts.Qgtb_false. intros. lra.
Qed.

Lemma clean_insert (tc t : Q) (c : Z) (k : string) (tr : ip_tracker_t) :
  (tc <= t)%Q ->
  clean_ip_tracker tc (<[k := (t, c)]> tr)
  = <[k := (t, c)]> (clean_ip_tracker tc tr).
Proof.
  intros H. unfold clean_ip_tracker.
  apply map_filter_insert_True. cbn [snd]. now apply fresh_not_stale.
Qed.

End SweepFacts.

(** X8.  Both variants: sweeping the tracker before a rate-limit check never
    changes the answer of the check.  When the clock of the sweep is not after
    the clock of the check, checking the swept tracker gives the same answer
    as checking the tracker as it was, and the tracker it leaves is the swept
    form of the one the plain check leaves. *)
Theorem sweep_keeps_rate_limit (ip : option string) (tid : string) (tc t : Q)
    (tr : ip_tracker_t) :
  (tc <= t)%Q ->
  is_rate_limited ip tid t (clean_ip_tracker tc tr)
  = (fst (is_rate_limited ip tid t tr),
     clean_ip_tracker tc (snd (is_rate_limited ip tid t tr))).
Proof.
  intros H. unfold is_rate_limited.
  set (key := tracker_key ip tid).
  destruct (tr !! key) as [[last count]|] eqn:E.
  - destruct (stale tc (last, count)) eqn:Es.
    + assert (Hn : clean_ip_tracker tc tr !! key = None).
      { unfold clean_ip_tracker. apply map_lookup_filter_None. right.
        intros x Hx. rewrite E in Hx. injection Hx as <-. cbn [snd].
        now rewrite Es. }
      rewrite Hn, (SweepFacts.stale_later tc t last count H Es). cbn [fst snd].
      now rewrite SweepFacts.clean_insert.
    + assert (Hs : clean_ip_tracker tc tr !! key = Some (last, count)).
      { unfold clean_ip_tracker. apply map_lookup_filter_Some. now split. }
      rewrite Hs.
      destruct (Qgtb (t - last) 3600); cbn [fst snd];
        [now rewrite SweepFacts.clean_insert|].
      destruct (Qltb (t - last) 60 && (count >=? 5)); cbn [fst snd];
        [reflexivity | now rewrite SweepFacts.clean_insert].
  - assert (Hn : clean_ip_tracker tc tr !! key = None).
    { unfold clean_ip_tracker. apply map_lookup_filter_None. now left. }
    rewrite Hn. cbn [fst snd]. now rewrite SweepFacts.clean_insert.
Qed.

(** X8 on a sixth request of a burst: limited, swept or not. *)
Lemma sweep_keeps_rate_limit_sample :
  is_rate_limited (Some "203.0.113.7") "ab12cd34" 20
                  (clean_ip_tracker 18 Sample5.busy_tracker)
  = (fst (is_rate_limited (Some "203.0.113.7") "ab12cd34" 20 Sample5.busy_tracker),
     clean_ip_tracker 18
       (snd (is_rate_limited (Some "203.0.113.7") "ab12cd34" 20
                             Sample5.busy_tracker))).
Proof.
  apply (sweep_keeps_rate_limit (Some "203.0.113.7") "ab12cd34" 18 20
           Sample5.busy_tracker).
  unfold Qle. simpl. lia.
Defined.

(** ** The bot test endpoint *)

Module BotTestFacts.

Lemma deny_list_found (tokens : list string) (ua : string) :
  List.filter (fun indicator => PyStr.contains (PyStr.lower indicator) ua) tokens
  <> [] ->
  deny_list_loop tokens ua = true.
Proof.
  induction tokens as [|x l IH]; simpl; [congruence|].
  destruct (PyStr.contains (PyStr.lower x) ua); [reflexivity | exact IH].
Qed.

Lemma deny_list_none (tokens : list string) (ua : string) :
  deny_list_loop tokens ua = false ->
  List.filter (fun indicator => PyStr.contains (PyStr.lower indicator) ua) tokens
  = [].
Proof.
  induction tokens as [|x l IH]; simpl; [reflexivity|].
  destruct (PyStr.contains (PyStr.lower x) ua); [discriminate | exact IH].
Qed.

Lemma json_body {A} (c c' : Z) (a b : A) :
  @JSONResponse A c a = JSONResponse c' b -> a = b.
Proof. now intros [= _ ->]. Qed.

End BotTestFacts.

(** X9.  File-backed variant: the bot test endpoint and the click endpoint
    agree.  Whenever the test lists a deny-list indicator it reports a bot,
    and a verdict "not a bot" comes with an empty list; and for the same
    headers, a request reported as a bot is only tallied by [track_click],
    while a request reported as no bot never moves the bot tally. *)
Theorem railway_bot_test_agrees (ev : Railway.click_event) (st : Railway.state)
    (payload : Railway.bot_test_payload) :
  Railway.test_bot_detection (Railway.ev_user_agent ev)
    (Railway.ev_x_forwarded_for ev) (Railway.ev_remote_addr ev)
  = JSONResponse 200 payload ->
  (Railway.bt_bot_indicators_found payload <> [] ->
   Railway.bt_is_bot payload = true)
  /\ (Railway.bt_is_bot payload = false ->
      Railway.bt_bot_indicators_found payload = []
      /\ Railway.bt_user_agent payload <> "")
  /\ (Railway.bt_is_bot payload = true ->
      Railway.st_data (snd (Railway.track_click ev st))
      = RailwaySpec.bumped (Railway.st_data st))
  /\ (Railway.bt_is_bot payload = false ->
      Railway.bot_requests_blocked (Railway.st_data (snd (Railway.track_click ev st)))
      = Railway.bot_requests_blocked (Railway.st_data st)).
Proof.
  unfold Railway.test_bot_detection. intros H.
  apply BotTestFacts.json_body in H. subst payload.
  cbn [Railway.bt_bot_indicators_found Railway.bt_is_bot Railway.bt_user_agent].
  rewrite RailwayClickFacts.railway_track_click_result. cbn [snd].
  unfold RailwayTerms.click_result, RailwaySpec.is_bot. fold (RailwaySpec.ip_of ev).
  set (ua := default "" (Railway.ev_user_agent ev)).
  split; [|split; [|split]].
  - intros Hfound. unfold is_bot_request.
    destruct (PyStr.falsy ua); [reflexivity|].
    rewrite (BotTestFacts.deny_list_found _ _ Hfound). reflexivity.
  - intros H. unfold is_bot_request in H.
    destruct ua as [|c ua']; [discriminate|]. cbn [PyStr.falsy] in H.
    split; [|discriminate].
    destruct (deny_list_loop BOT_USER_AGENTS (PyStr.lower (String c ua'))) eqn:E;
      [discriminate|].
    apply BotTestFacts.deny_list_none. exact E.
  - intros ->. reflexivity.
  - intros ->.
    destruct (is_rate_limited _ _ _ _) as [[] tr1]; [reflexivity|].
    destruct (RailwaySpec.ip_of ev); reflexivity.
Qed.

(** X9 on the headers of a crawler. *)
Lemma railway_bot_test_agrees_sample :
  Railway.st_data
    (snd (Railway.track_click
            (Railway.ClickEvent "ab12cd34" (Some "facebookexternalhit/1.1") None
               (Some "203.0.113.7") None None 10 10 5000 5000 true)
            Sample.railway_empty))
  = Railway.ClickData 0 [] [] 1.
Proof.
  exact (proj1 (proj2 (proj2
           (railway_bot_test_agrees
              (Railway.ClickEvent "ab12cd34" (Some "facebookexternalhit/1.1") None
                 (Some "203.0.113.7") None None 10 10 5000 5000 true)
              Sample.railway_empty
              (Railway.BotTestPayload "facebookexternalhit/1.1"
                 (Some "203.0.113.7") true ["facebookexternalhit"])
              eq_refl))) eq_refl).
Defined.

(** ** The update endpoint of the file-backed variant *)

Module RailwayUpdateFacts.
Import Railway RailwaySpec RailwayTerms RailwayFacts.

Lemma dict_set_same {V} (k : string) (v : V) (d : list (string * V)) :
  dict_get k d = Some v -> dict_set k v d = d.
Proof.
  induction d as [|[k' v'] d IH]; simpl; [discriminate|].
  destruct (String.eqb_spec k' k) as [->|Hne].
  - now intros [= ->].
  - intros H. now rewrite IH.
Qed.

Lemma dict_set_keys {V} (k : string) (v v' : V) (d : list (string * V)) :
  dict_get k d = Some v' -> map fst (dict_set k v d) = map fst d.
Proof.
  induction d as [|[k0 v0] d IH]; simpl; [discriminate|].
  destruct (String.eqb k0 k); simpl; [reflexivity|].
  intros H. now rewrite IH.
Qed.

(** The run of [update_post_info]. *)
Lemma railway_update_result (ev : update_event) (st : state) :
  update_post_info ev st = update_result ev st.
Proof.
  destruct st as [[tot ps hist bots] tr file].
  destruct ev as [[tid url name] can_write].
  unfold update_post_info, update_post_info_body, update_result, updated_post,
    read_clicks.
  cbn [ue_data ue_can_write up_tracking_id up_post_url up_username].
  railway_exec_simpl.
  destruct tid as [tid|]; [|reflexivity].
  destruct (PyStr.falsy tid); [reflexivity|]. cbn [orb].
  destruct (dict_get tid ps) as [p|] eqn:Hget.
  2:{ rewrite bool_decide_eq_false_2 by (intros [? ?]; discriminate).
      reflexivity. }
  rewrite bool_decide_eq_true_2 by eauto. railway_exec_simpl.
  destruct url as [url|]; destruct (username_to_write name) as [n|];
    railway_exec_simpl;
    repeat (first [rewrite Hget | rewrite dict_get_set_eq | rewrite dict_set_set];
            railway_exec_simpl);
    try rewrite (dict_set_same tid p ps Hget);
    destruct can_write; railway_exec_simpl;
    repeat (first [rewrite Hget | rewrite dict_get_set_eq]; railway_exec_simpl);
    reflexivity.
Qed.

Lemma updated_post_counters (data : update_request) (p : post) :
  clicks (updated_post data p) = clicks p
  /\ first_click (updated_post data p) = first_click p
  /\ last_click (updated_post data p) = last_click p.
Proof.
  unfold updated_post.
  destruct (up_post_url data), (username_to_write (up_username data));
    repeat split.
Qed.

Lemma updated_post_username (data : update_request) (p : post) :
  username (updated_post data p) = "unknown" -> username p = "unknown".
Proof.
  unfold updated_post, username_to_write.
  destruct (up_username data) as [name|].
  - destruct (String.eqb_spec name "unknown") as [->|Hne].
    + now destruct (up_post_url data).
    + destruct (up_post_url data); simpl; congruence.
  - now destruct (up_post_url data).
Qed.

End RailwayUpdateFacts.

(** X10.  File-backed variant, [update_post_info].  The request never
    changes a click counter, a click timestamp, the running total, the
    history, the bot tally, the tracker or the set of stored tracking ids.
    With no tracking id, an empty one or one that is not stored, the answer is
    404 and nothing changes.  For a stored id only this post is rewritten:
    its URL when one is given, its username when one other than "unknown" is
    given, so that a named post never goes back to "unknown"; the answer is
    200 with the stored click count when the save works, and 500, with the
    change kept in memory, when it fails. *)
Theorem railway_update_post_info (ev : Railway.update_event) (st : Railway.state) :
  let data := Railway.ue_data ev in
  let d := Railway.st_data st in
  let r := fst (Railway.update_post_info ev st) in
  let st' := snd (Railway.update_post_info ev st) in
  (Railway.total_clicks (Railway.st_data st') = Railway.total_clicks d
   /\ Railway.click_history (Railway.st_data st') = Railway.click_history d
   /\ Railway.bot_requests_blocked (Railway.st_data st')
      = Railway.bot_requests_blocked d
   /\ Railway.st_tracker st' = Railway.st_tracker st
   /\ map fst (Railway.posts (Railway.st_data st')) = map fst (Railway.posts d)
   /\ forall tid, RailwaySpec.counters tid (Railway.st_data st')
                  = RailwaySpec.counters tid d)
  /\ ((forall tid, Railway.up_tracking_id data = Some tid -> tid <> "" ->
         Railway.dict_get tid (Railway.posts d) = None) ->
      r = Railway.invalid_id /\ st' = st)
  /\ (forall tid p,
        Railway.up_tracking_id data = Some tid -> tid <> "" ->
        Railway.dict_get tid (Railway.posts d) = Some p ->
        Railway.dict_get tid (Railway.posts (Railway.st_data st'))
        = Some (RailwayTerms.updated_post data p)
        /\ (forall tid', tid <> tid' ->
              Railway.dict_get tid' (Railway.posts (Railway.st_data st'))
              = Railway.dict_get tid' (Railway.posts d))
        /\ (Railway.username (RailwayTerms.updated_post data p) = "unknown" ->
            Railway.username p = "unknown")
        /\ (Railway.ue_can_write ev = true ->
            r = JSONResponse 200
                  (Railway.UpdatePayload "success" tid (Railway.clicks p)
                     (Railway.UpdatesView (Railway.up_post_url data)
                        (Railway.username_to_write (Railway.up_username data))))
            /\ Railway.st_file st' = Some (Railway.st_data st'))
        /\ (Railway.ue_can_write ev = false ->
            r = HTTPError 500 (StrOfError OSError)
            /\ Railway.st_file st' = Railway.st_file st)).
Proof.
  intros data d r st'. subst r st'.
  rewrite RailwayUpdateFacts.railway_update_result.
  unfold RailwayTerms.update_result. fold data d.
  destruct (Railway.up_tracking_id data) as [tid|].
  2:{ cbn [fst snd]. split; [now repeat split|]. split; [now split|].
      discriminate. }
  destruct tid as [|c tid'] eqn:Etid.
  { cbn [PyStr.falsy fst snd]. split; [now repeat split|]. split; [now split|].
    intros tid0 p [= <-]. congruence. }
  rewrite <- Etid. replace (PyStr.falsy tid) with false by now subst tid.
  assert (Hne : tid <> "") by now subst tid. clear Etid.
  destruct (Railway.dict_get tid (Railway.posts d)) as [p|] eqn:Hget.
  2:{ cbn [fst snd]. split; [now repeat split|]. split; [now split|].
      intros tid0 p [= <-]. congruence. }
  pose proof (RailwayUpdateFacts.updated_post_counters data p)
    as (Hc & Hf & Hl).
  assert (Hframe :
    forall file,
      let st1 := Railway.State
                   (Railway.ClickData (Railway.total_clicks d)
                      (Railway.dict_set tid (RailwayTerms.updated_post data p)
                                        (Railway.posts d))
                      (Railway.click_history d) (Railway.bot_requests_blocked d))
                   (Railway.st_tracker st) file in
      Railway.total_clicks (Railway.st_data st1) = Railway.total_clicks d
      /\ Railway.click_history (Railway.st_data st1) = Railway.click_history d
      /\ Railway.bot_requests_blocked (Railway.st_data st1)
         = Railway.bot_requests_blocked d
      /\ Railway.st_tracker st1 = Railway.st_tracker st
      /\ map fst (Railway.posts (Railway.st_data st1)) = map fst (Railway.posts d)
      /\ forall tid0, RailwaySpec.counters tid0 (Railway.st_data st1)
                      = RailwaySpec.counters tid0 d).
  { intros file st1. subst st1. cbn [Railway.st_data Railway.st_tracker
      Railway.total_clicks Railway.click_history Railway.bot_requests_blocked
      Railway.posts].
    repeat (split; [reflexivity|]).
    split; [now apply RailwayUpdateFacts.dict_set_keys with (v' := p)|].
    intros tid0. unfold RailwaySpec.counters. cbn [Railway.posts].
    destruct (String.eqb_spec tid tid0) as [<-|Hd].
    - rewrite RailwayFacts.dict_get_set_eq, Hget. now rewrite Hc, Hf, Hl.
    - now rewrite RailwayFacts.dict_get_set_ne. }
  destruct (Railway.ue_can_write ev); cbn [fst snd];
    (split; [apply Hframe|]);
    (split; [intros Hnone; specialize (Hnone tid eq_refl Hne); congruence|]);
    intros tid0 p0 [= <-] _ Hp0; rewrite Hget in Hp0; injection Hp0 as <-;
    cbn [Railway.st_data Railway.st_file Railway.posts];
    (split; [apply RailwayFacts.dict_get_set_eq|]);
    (split; [intros other Hd; now apply RailwayFacts.dict_get_set_ne|]);
    (split; [apply RailwayUpdateFacts.updated_post_username|]);
    split; intros; try discriminate; now split.
Qed.

(** X10 on the clicked link: the URL is written, the username "unknown" of
    the request is not, and the two clicks stay. *)
Lemma railway_update_post_info_sample :
  Railway.dict_get "ab12cd34"
    (Railway.posts (Railway.st_data
       (snd (Railway.update_post_info Sample5.railway_update
                                      Sample5.railway_clicked))))
  = Some (Railway.Post 2 "fac" "g" "unknown" "https://x.com/p/1"
                       (Some 5000) (Some 6000) 5000).
Proof.
  exact (proj1 (proj2 (proj2
           (railway_update_post_info Sample5.railway_update
              Sample5.railway_clicked))
           "ab12cd34"
           (Railway.Post 2 "fac" "g" "unknown" "" (Some 5000) (Some 6000) 5000)
           eq_refl ltac:(discriminate) eq_refl)).
Defined.

(** ** Generating a link and resetting, file-backed variant *)

Module RailwayAdminFacts.
Import Railway RailwaySpec RailwayTerms RailwayFacts.

Section Config.
Variable PUBLIC_URL : string.
Variable PORT : Z.
Variable RAILWAY_STATIC_URL : option string.
Variable RAILWAY_PUBLIC_DOMAIN : option string.
Variable urlencode : list (string * string) -> string.

Lemma public_url_scheme :
  PyStr.startswith "http"
    (get_public_url PUBLIC_URL PORT RAILWAY_STATIC_URL RAILWAY_PUBLIC_DOMAIN)
  = true.
Proof.
  unfold get_public_url.
  destruct (PyStr.falsy PUBLIC_URL); cbn [negb].
  - destruct (env_or _ _) as [e|]; [|reflexivity].
    destruct (PyStr.falsy e); reflexivity.
  - destruct (PyStr.startswith "http" PUBLIC_URL) eqn:E; [exact E | reflexivity].
Qed.

(** The run of [generate_tracking_url]. *)
Lemma railway_generate_result (ev : generate_event) (st : state) :
  generate_tracking_url PUBLIC_URL PORT RAILWAY_STATIC_URL RAILWAY_PUBLIC_DOMAIN
                        urlencode ev st
  = let d' := generated_data ev (st_data st) in
    let public_url :=
      get_public_url PUBLIC_URL PORT RAILWAY_STATIC_URL RAILWAY_PUBLIC_DOMAIN in
    if ge_can_write ev
    then (JSONResponse 200
            (GeneratePayload (generated_id ev)
               (public_url ++ "/track/" ++ generated_id ev ++ "?"
                ++ urlencode [("p", PyStr.take 3 (platform (generated_post ev)));
                              ("b", PyStr.take 1 (badge_type (generated_post ev)))])
               public_url
               (PostInfo (platform (generated_post ev))
                         (badge_type (generated_post ev))
                         (username (generated_post ev)) (generated_id ev) 0)),
          State d' (st_tracker st) (Some d'))
    else (HTTPError 500 (StrOfError OSError),
          State d' (st_tracker st) (st_file st)).
Proof.
  destruct st as [d tr file].
  unfold generate_tracking_url, generate_tracking_url_body, generated_data,
    generated_id, generated_post.
  railway_exec_simpl.
  destruct (ge_can_write ev); reflexivity.
Qed.

End Config.

Lemma clean_empty (now : Q) : clean_ip_tracker now ∅ = ∅.
Proof. unfold clean_ip_tracker. apply map_filter_empty. Qed.

End RailwayAdminFacts.

(** X11.  File-backed variant, [generate_tracking_url].  The new post is
    stored under the first eight characters of the digest with zero clicks and
    no click timestamps, whether or not the save works; no other post, and
    neither the running total, the history, the bot tally nor the tracker,
    changes.  When a post is already stored under that id it is replaced, so
    the sum of the click counters drops by its clicks while [total_clicks]
    stays.  When the save works the answer is 200 and the link is
    [<public_url>/track/<id>?<query>] with a public URL that starts with
    "http"; when it fails the answer is 500. *)
Theorem railway_generate_tracking_url
    (PUBLIC_URL : string) (PORT : Z)
    (RAILWAY_STATIC_URL RAILWAY_PUBLIC_DOMAIN : option string)
    (urlencode : list (string * string) -> string)
    (ev : Railway.generate_event) (st : Railway.state) :
  let d := Railway.st_data st in
  let tid := RailwayTerms.generated_id ev in
  let res := Railway.generate_tracking_url PUBLIC_URL PORT RAILWAY_STATIC_URL
               RAILWAY_PUBLIC_DOMAIN urlencode ev st in
  let d' := Railway.st_data (snd res) in
  d' = RailwayTerms.generated_data ev d
  /\ Railway.st_tracker (snd res) = Railway.st_tracker st
  /\ Railway.dict_get tid (Railway.posts d') = Some (RailwayTerms.generated_post ev)
  /\ (forall other, tid <> other ->
        Railway.dict_get other (Railway.posts d')
        = Railway.dict_get other (Railway.posts d))
  /\ RailwayTerms.sum_posts d'
     = RailwayTerms.sum_posts d - RailwayTerms.stored_clicks tid d
  /\ (Railway.ge_can_write ev = true ->
      Railway.st_file (snd res) = Some d'
      /\ exists payload,
           fst res = JSONResponse 200 payload
           /\ Railway.gp_tracking_id payload = tid
           /\ PyStr.startswith "http" (Railway.gp_public_url payload) = true
           /\ Railway.gp_tracking_url payload
              = (Railway.gp_public_url payload ++ "/track/" ++ tid ++ "?"
                 ++ urlencode
                      [("p", PyStr.take 3 (Railway.pi_platform
                                             (Railway.gp_post_info payload)));
                       ("b", PyStr.take 1 (Railway.pi_badge_type
                                             (Railway.gp_post_info payload)))])%string)
  /\ (Railway.ge_can_write ev = false ->
      fst res = HTTPError 500 (StrOfError OSError)
      /\ Railway.st_file (snd res) = Railway.st_file st).
Proof.
  intros d tid res d'. subst res d'.
  rewrite RailwayAdminFacts.railway_generate_result.
  assert (Hsum : RailwayTerms.sum_posts (RailwayTerms.generated_data ev d)
                 = RailwayTerms.sum_posts d - RailwayTerms.stored_clicks tid d).
  { unfold RailwayTerms.sum_posts, RailwayTerms.generated_data,
      RailwayTerms.stored_clicks. cbn [Railway.posts].
    rewrite RailwayClickFacts.sum_dict_set. fold tid.
    destruct (Railway.dict_get tid (Railway.posts d)); simpl; lia. }
  cbv zeta. fold d.
  destruct (Railway.ge_can_write ev); cbn [fst snd Railway.st_data
    Railway.st_tracker Railway.st_file];
    (split; [reflexivity|]); (split; [reflexivity|]);
    (split; [apply RailwayFacts.dict_get_set_eq|]);
    (split; [intros other Hd; now apply RailwayFacts.dict_get_set_ne|]);
    (split; [exact Hsum|]); split; intros Hw; try discriminate.
  - split; [reflexivity|]. eexists. split; [reflexivity|].
    cbn [Railway.gp_tracking_id Railway.gp_public_url Railway.gp_tracking_url
         Railway.gp_post_info Railway.pi_platform Railway.pi_badge_type].
    split; [reflexivity|].
    split; [apply RailwayAdminFacts.public_url_scheme | reflexivity].
  - now split.
Qed.

(** X11 on a deployment with a public domain: the link that is answered. *)
Lemma railway_generate_tracking_url_sample :
  Railway.st_file
    (snd (Railway.generate_tracking_url "" 5000 None (Some "hustle.example")
            Sample6.amp_join Sample6.railway_generate Sample.railway_empty))
  = Some (Railway.ClickData 0
            [("ab12cd34", Railway.Post 0 "twitter" "gold" "bob" "" None None 7000)]
            [] 0).
Proof.
  exact (proj1 (proj1 (proj2 (proj2 (proj2 (proj2 (proj2
           (railway_generate_tracking_url "" 5000 None (Some "hustle.example")
              Sample6.amp_join Sample6.railway_generate
              Sample.railway_empty)))))) eq_refl)).
Defined.

(** X12.  File-backed variant, [reset_all].  Whatever the save does, the
    data in memory are the initial ones and the tracker is empty; the answer
    is 200 when the save works and 500 when it fails.  After a reset the
    analytics report no post and no click, and the next request that is not a
    bot is counted, whatever the tracker held before. *)
Theorem railway_reset_all (can_write : bool) (st : Railway.state) :
  let r := fst (Railway.reset_all can_write st) in
  let st' := snd (Railway.reset_all can_write st) in
  Railway.st_data st' = Railway.initial_data
  /\ Railway.st_tracker st' = ∅
  /\ (can_write = true ->
      r = JSONResponse 200 (Railway.ResetPayload "success" "All data reset" 0 0)
      /\ Railway.st_file st' = Some Railway.initial_data)
  /\ (can_write = false ->
      r = HTTPError 500 (Detail "Internal Server Error")
      /\ Railway.st_file st' = Railway.st_file st)
  /\ Railway.build_analytics (Railway.st_data st') = RailwayTerms.empty_analytics
  /\ (forall ev, RailwaySpec.is_bot ev = false ->
        Railway.total_clicks (Railway.st_data (railway_step ev st')) = 1
        /\ RailwaySpec.counters (Railway.ev_tracking_id ev)
             (Railway.st_data (railway_step ev st'))
           = Some (1, Some (Railway.ev_now ev), Some (Railway.ev_now ev))).
Proof.
  intros r st'. subst r st'.
  unfold Railway.reset_all, Railway.reset_all_body.
  RailwayFacts.railway_exec_simpl.
  assert (Hclick :
    forall file ev, RailwaySpec.is_bot ev = false ->
      let st1 := railway_step ev (Railway.State Railway.initial_data ∅ file) in
      Railway.total_clicks (Railway.st_data st1) = 1
      /\ RailwaySpec.counters (Railway.ev_tracking_id ev) (Railway.st_data st1)
         = Some (1, Some (Railway.ev_now ev), Some (Railway.ev_now ev))).
  { intros file ev Hbot. unfold railway_step.
    rewrite RailwayClickFacts.railway_track_click_result. cbn [snd].
    unfold RailwayTerms.click_result. rewrite Hbot.
    cbn [Railway.st_tracker Railway.st_data Railway.st_file].
    rewrite RailwayAdminFacts.clean_empty.
    unfold is_rate_limited. rewrite lookup_empty.
    unfold RailwaySpec.counters, RailwayTerms.counted_data.
    destruct (RailwaySpec.ip_of ev); cbn [Railway.st_data Railway.total_clicks
      Railway.posts]; rewrite RailwayFacts.dict_get_set_eq;
      (split; [reflexivity|]); reflexivity. }
  destruct can_write; cbn [fst snd Railway.st_data Railway.st_tracker
    Railway.st_file];
    (split; [reflexivity|]); (split; [reflexivity|]);
    (split; [intros; try discriminate; now split|]);
    (split; [intros; try discriminate; now split|]);
    (split; [reflexivity|]); apply Hclick.
Qed.

(** X12 on the store with two clicks: a click after the reset is the first. *)
Lemma railway_reset_all_sample :
  Railway.total_clicks
    (Railway.st_data
       (railway_step (Sample.railway_click "203.0.113.7" 30 8000)
          (snd (Railway.reset_all true Sample5.railway_clicked))))
  = 1.
Proof.
  exact (proj1 (proj2 (proj2 (proj2 (proj2 (proj2
           (railway_reset_all true Sample5.railway_clicked)))))
           (Sample.railway_click "203.0.113.7" 30 8000) eq_refl)).
Defined.

(** ** Confirming a post, PostgreSQL variant *)

Module DbConfirmFacts.
Import Db DbSpec DbTerms DbFacts ConfirmFacts.

Lemma confirmed_row_id (ev : confirm_event) (r : post_row) :
  tracking_id (confirmed_row ev r) = tracking_id r.
Proof. unfold confirmed_row. now destruct (username_given _). Qed.

Lemma confirmed_row_counters (ev : confirm_event) (r : post_row) :
  clicks (confirmed_row ev r) = clicks r
  /\ first_click (confirmed_row ev r) = first_click r
  /\ last_click (confirmed_row ev r) = last_click r.
Proof. unfold confirmed_row. now destruct (username_given _). Qed.




End DbConfirmFacts.



(** ** Generating a link, PostgreSQL variant *)

Module DbGenerateFacts.
Import Db DbSpec DbTerms DbFacts.

Lemma existsb_select (tid : string) (d : database) :
  existsb (has_id tid) (posts d) = false <-> select_post tid d = [].
Proof.
  unfold select_post. induction (posts d) as [|r l IH]; simpl; [tauto|].
  destruct (has_id tid r); simpl; [split; discriminate | exact IH].
Qed.

Section Config.
Variable PUBLIC_URL : string.
Variable urlencode : list (string * string) -> string.

(** Every run of [generate_tracking_url], whatever fails in the storage. *)
Lemma generate_cases (ev : generate_event) (st : state) :
  let tid := PyStr.take 8 (ge_hexdigest ev) in
  (exists dt,
     generate_tracking_url PUBLIC_URL urlencode ev st = (HTTPError 500 dt, st))
  \/ (select_post tid (st_db st) = []
      /\ exists r,
           (r = generate_ok PUBLIC_URL urlencode ev \/ exists dt, r = HTTPError 500 dt)
           /\ generate_tracking_url PUBLIC_URL urlencode ev st
              = (r, State (generated_db ev (st_db st)) (st_tracker st))).
Proof.
  intros tid. subst tid. destruct st as [db tr].
  unfold generate_tracking_url, generate_tracking_url_body, insert_post,
    generated_db, pending_row, generate_ok.
  db_exec_simpl. cbn [tracking_id].
  exec_storage; db_exec_simpl; [|left; eauto].
  exec_storage; db_exec_simpl; [|left; eauto].
  destruct (existsb _ (posts db)) eqn:Hex; db_exec_simpl; [left; eauto|].
  apply existsb_select in Hex.
  exec_storage; db_exec_simpl; [|left; eauto].
  exec_storage; db_exec_simpl; right; (split; [exact Hex|]);
    eexists; (split; [|reflexivity]); eauto.
Qed.

(** A stored tracking id is rejected. *)
Lemma generate_collision (ev : generate_event) (st : state) :
  select_post (PyStr.take 8 (ge_hexdigest ev)) (st_db st) <> [] ->
  exists dt,
    generate_tracking_url PUBLIC_URL urlencode ev st = (HTTPError 500 dt, st).
Proof.
  intros Hsel.
  destruct (generate_cases ev st) as [H | [Hnone _]]; [exact H | contradiction].
Qed.

(** The run when no call to the storage fails. *)
Lemma generate_no_faults (ev : generate_event) (st : state) :
  no_faults (ge_faults ev) ->
  select_post (PyStr.take 8 (ge_hexdigest ev)) (st_db st) = [] ->
  generate_tracking_url PUBLIC_URL urlencode ev st
  = (generate_ok PUBLIC_URL urlencode ev,
     State (generated_db ev (st_db st)) (st_tracker st)).
Proof.
  intros Hok Hsel. apply existsb_select in Hsel. destruct st as [db tr].
  unfold generate_tracking_url, generate_tracking_url_body, insert_post,
    generated_db, pending_row, generate_ok.
  db_exec_simpl. cbn [tracking_id].
  exec_storage_ok Hok; db_exec_simpl.
  exec_storage_ok Hok; db_exec_simpl.
  cbn [st_db] in Hsel. rewrite Hsel. db_exec_simpl.
  exec_storage_ok Hok; db_exec_simpl.
  exec_storage_ok Hok; db_exec_simpl.
  reflexivity.
Qed.

End Config.

Lemma select_generated (ev : generate_event) (d : database) :
  select_post (PyStr.take 8 (ge_hexdigest ev)) d = [] ->
  select_post (PyStr.take 8 (ge_hexdigest ev)) (generated_db ev d)
  = [pending_row ev].
Proof.
  unfold select_post, generated_db. cbn [posts]. intros H.
  rewrite List.filter_app, H. simpl. unfold has_id. cbn [tracking_id].
  now rewrite String.eqb_refl.
Qed.

Lemma select_generated_other (ev : generate_event) (d : database) (tid : string) :
  tid <> PyStr.take 8 (ge_hexdigest ev) ->
  select_post tid (generated_db ev d) = select_post tid d.
Proof.
  unfold select_post, generated_db. cbn [posts]. intros H.
  rewrite List.filter_app. simpl. unfold has_id at 2, pending_row.
  cbn [tracking_id].
  destruct (String.eqb_spec (PyStr.take 8 (ge_hexdigest ev)) tid);
    [congruence | apply app_nil_r].
Qed.

Lemma generated_well_formed (ev : generate_event) (d : database) :
  select_post (PyStr.take 8 (ge_hexdigest ev)) d = [] ->
  well_formed d -> well_formed (generated_db ev d).
Proof.
  intros Hsel [Hnd Hfk]. unfold well_formed, generated_db.
  cbn [posts click_history]. split.
  - rewrite map_app. apply NoDup_app. split; [exact Hnd|]. split.
    + intros x Hx Hx2. cbn [map] in Hx2.
      apply list_elem_of_singleton in Hx2. subst x.
      apply list_elem_of_In, in_map_iff in Hx as (r & Hid & Hr).
      assert (Hin : In r (select_post (PyStr.take 8 (ge_hexdigest ev)) d)).
      { unfold select_post. apply filter_In. split; [exact Hr|].
        unfold has_id. cbn [tracking_id pending_row] in Hid.
        rewrite Hid. apply String.eqb_refl. }
      rewrite Hsel in Hin. destruct Hin.
    + apply NoDup_singleton.
  - intros ch Hch. destruct (Hfk ch Hch) as (p & Hp & Hid).
    exists p. split; [apply in_or_app; now left | exact Hid].
Qed.

End DbGenerateFacts.

(** X14.  PostgreSQL variant, [generate_tracking_url], whatever fails in the
    storage.  The database is left as it was, or it gains exactly one row: a
    pending post with zero clicks and no click timestamps under the first
    eight characters of the digest; the tracker never changes and the
    constraints of the schema keep holding.  An answer 200 means the row is
    stored and names the link [<PUBLIC_URL>/track/<id>?<query>].  A tracking
    id that is already stored is never overwritten: the answer is 500 and
    nothing changes.  With a fresh id and a working storage the answer is
    200. *)
Theorem db_generate_tracking_url (PUBLIC_URL : string)
    (urlencode : list (string * string) -> string)
    (ev : Db.generate_event) (st : Db.state) :
  let tid := PyStr.take 8 (Db.ge_hexdigest ev) in
  let d := Db.st_db st in
  let r := fst (Db.generate_tracking_url PUBLIC_URL urlencode ev st) in
  let st' := snd (Db.generate_tracking_url PUBLIC_URL urlencode ev st) in
  Db.st_tracker st' = Db.st_tracker st
  /\ (Db.st_db st' = d
      \/ (Db.select_post tid d = []
          /\ Db.st_db st' = DbTerms.generated_db ev d
          /\ DbSpec.counters tid (Db.st_db st') = Some (0, None, None)
          /\ DbSpec.never_confirmed tid (Db.st_db st')))
  /\ (forall other, other <> tid ->
        Db.select_post other (Db.st_db st') = Db.select_post other d)
  /\ (DbSpec.well_formed d -> DbSpec.well_formed (Db.st_db st'))
  /\ (forall payload, r = JSONResponse 200 payload ->
        r = DbTerms.generate_ok PUBLIC_URL urlencode ev
        /\ Db.st_db st' = DbTerms.generated_db ev d)
  /\ (Db.select_post tid d <> [] ->
      (exists dt, r = HTTPError 500 dt) /\ st' = st)
  /\ (no_faults (Db.ge_faults ev) -> Db.select_post tid d = [] ->
      r = DbTerms.generate_ok PUBLIC_URL urlencode ev
      /\ Db.st_db st' = DbTerms.generated_db ev d).
Proof.
  intros tid d r st'. subst r st'.
  assert (Hcoll :
    Db.select_post tid d <> [] ->
    (exists dt, fst (Db.generate_tracking_url PUBLIC_URL urlencode ev st)
                = HTTPError 500 dt)
    /\ snd (Db.generate_tracking_url PUBLIC_URL urlencode ev st) = st).
  { intros Hsel.
    destruct (DbGenerateFacts.generate_collision PUBLIC_URL urlencode ev st Hsel)
      as [dt ->]. split; [now exists dt | reflexivity]. }
  assert (Hgood :
    no_faults (Db.ge_faults ev) -> Db.select_post tid d = [] ->
    fst (Db.generate_tracking_url PUBLIC_URL urlencode ev st)
    = DbTerms.generate_ok PUBLIC_URL urlencode ev
    /\ Db.st_db (snd (Db.generate_tracking_url PUBLIC_URL urlencode ev st))
       = DbTerms.generated_db ev d).
  { intros Hok Hsel.
    rewrite (DbGenerateFacts.generate_no_faults PUBLIC_URL urlencode ev st Hok Hsel).
    now split. }
  revert Hcoll Hgood.
  destruct (DbGenerateFacts.generate_cases PUBLIC_URL urlencode ev st)
    as [[dt ->] | (Hnone & r & Hr & ->)];
    intros Hcoll Hgood; cbn [fst snd Db.st_db Db.st_tracker]; fold d tid.
  - split; [reflexivity|]. split; [now left|]. split; [reflexivity|].
    split; [tauto|]. split; [discriminate|]. split; assumption.
  - split; [reflexivity|]. split.
    { right. split; [exact Hnone|]. split; [reflexivity|]. split.
      - unfold DbSpec.counters. subst tid.
        now rewrite DbGenerateFacts.select_generated.
      - intros p Hp Hid.
        assert (Hin : In p (Db.select_post tid (DbTerms.generated_db ev d))).
        { unfold Db.select_post. apply filter_In. split; [exact Hp|].
          unfold Db.has_id. rewrite Hid. apply String.eqb_refl. }
        subst tid. rewrite DbGenerateFacts.select_generated in Hin by exact Hnone.
        destruct Hin as [<- | []]. reflexivity. }
    split; [intros other Hne; now apply DbGenerateFacts.select_generated_other|].
    split; [now apply DbGenerateFacts.generated_well_formed|].
    split; [|split; assumption].
    intros payload Hp. destruct Hr as [-> | [dt ->]]; [now split | discriminate Hp].
Qed.

(** X14 on the empty sample store. *)
Lemma db_generate_tracking_url_sample :
  Db.posts (Db.st_db (snd (Db.generate_tracking_url "https://hustle.example"
                             Sample6.amp_join Sample7.db_generate Sample.db_empty)))
  = [Sample.pending_post].
Proof.
  refine (f_equal Db.posts
            (proj2 (proj2 (proj2 (proj2 (proj2 (proj2 (proj2
               (db_generate_tracking_url "https://hustle.example"
                  Sample6.amp_join Sample7.db_generate Sample.db_empty))))))
               _ eq_refl))).
  constructor.
Defined.

(** ** The life of a link, PostgreSQL variant *)

Module DbLifeFacts.
Import Db DbSpec DbTerms DbFacts ConfirmFacts.

Lemma generated_never_confirmed (ev : generate_event) (d : database) :
  select_post (PyStr.take 8 (ge_hexdigest ev)) d = [] ->
  never_confirmed (PyStr.take 8 (ge_hexdigest ev)) (generated_db ev d).
Proof.
  intros Hnone p Hp Hid.
  assert (Hin : In p (select_post (PyStr.take 8 (ge_hexdigest ev))
                                  (generated_db ev d))).
  { unfold select_post. apply filter_In. split; [exact Hp|].
    unfold has_id. rewrite Hid. apply String.eqb_refl. }
  rewrite DbGenerateFacts.select_generated in Hin by exact Hnone.
  destruct Hin as [<- | []]. reflexivity.
Qed.

(** Clicks on a link that is not confirmed leave posts and history alone. *)
Lemma pending_run (tid : string) (evs : list click_event) (st : state) :
  Forall (fun e => ev_tracking_id e = tid) evs ->
  never_confirmed tid (st_db st) ->
  posts (st_db (run_all db_step evs st)) = posts (st_db st)
  /\ click_history (st_db (run_all db_step evs st)) = click_history (st_db st).
Proof.
  intros Hall. revert st.
  induction Hall as [|ev evs Hid _ IH]; intros st Hnever; [now split|].
  cbn [run_all fold_left]. fold (run_all db_step evs (db_step ev st)).
  assert (Hstep : posts (st_db (db_step ev st)) = posts (st_db st)
                  /\ click_history (st_db (db_step ev st))
                     = click_history (st_db st)).
  { unfold db_step.
    destruct (ClickFacts.db_click_changes_only_confirmed ev st)
      as [H | (post & Hin & Hp & Hc)]; [exact H|].
    rewrite Hid in Hp. rewrite (Hnever post Hin Hp) in Hc. discriminate. }
  destruct Hstep as [Hp Hh].
  destruct (IH (db_step ev st)) as [Hp' Hh'].
  { intros r Hr. rewrite Hp in Hr. now apply Hnever. }
  split; congruence.
Qed.

Lemma select_by_posts (tid : string) (d d' : database) :
  posts d' = posts d -> select_post tid d' = select_post tid d.
Proof. unfold select_post. now intros ->. Qed.

Lemma history_rows_by_history (tid : string) (d d' : database) :
  click_history d' = click_history d -> history_rows tid d' = history_rows tid d.
Proof. unfold history_rows. now intros ->. Qed.

Lemma confirmed_row_flag (ev : confirm_event) (r : post_row) :
  confirmed (confirmed_row ev r) = true.
Proof. unfold confirmed_row. now destruct (username_given _). Qed.

End DbLifeFacts.

(** X15.  PostgreSQL variant, the life of a link when the storage works for
    the three administrative steps.  A link generated under a fresh id stays
    at zero clicks, with no history row, whatever click requests arrive on it
    before it is confirmed, and whatever fails in storing them; the
    confirmation then answers 200; and the next request on the link that is
    neither a bot nor rate limited is its click number 1, stamps both click
    timestamps and adds the one history row. *)
Theorem db_link_lifecycle (PUBLIC_URL : string)
    (urlencode : list (string * string) -> string)
    (gev : Db.generate_event) (evs : list Db.click_event)
    (cev : Db.confirm_event) (ev : Db.click_event) (host : string)
    (st : Db.state) :
  let tid := PyStr.take 8 (Db.ge_hexdigest gev) in
  let st1 := snd (Db.generate_tracking_url PUBLIC_URL urlencode gev st) in
  let st2 := run_all db_step evs st1 in
  let st3 := snd (Db.confirm_post cev st2) in
  let st4 := db_step ev st3 in
  Db.select_post tid (Db.st_db st) = [] ->
  no_faults (Db.ge_faults gev) ->
  Forall (fun e => Db.ev_tracking_id e = tid) evs ->
  Db.cp_tracking_id (Db.ce_data cev) = tid ->
  no_faults (Db.ce_faults cev) ->
  Db.ev_tracking_id ev = tid ->
  no_faults (Db.ev_faults ev) ->
  Db.ev_client_host ev = Some host ->
  is_bot_request (Some (default "" (Db.ev_user_agent ev)))
                 (Some (DbSpec.ip_of ev host)) = false ->
  fst (is_rate_limited (Some (DbSpec.ip_of ev host)) tid (Db.ev_time_limit ev)
         (clean_ip_tracker (Db.ev_time_clean ev) (Db.st_tracker st3))) = false ->
  DbSpec.counters tid (Db.st_db st2) = Some (0, None, None)
  /\ DbTerms.history_rows tid (Db.st_db st2)
     = DbTerms.history_rows tid (Db.st_db st)
  /\ fst (Db.confirm_post cev st2) = DbSpec.confirm_ok cev
  /\ DbSpec.counters tid (Db.st_db st4)
     = Some (1, Some (Db.ev_now ev), Some (Db.ev_now ev))
  /\ DbTerms.history_rows tid (Db.st_db st4)
     = DbTerms.history_rows tid (Db.st_db st) + 1.
Proof.
  intros tid st1 st2 st3 st4 Hfresh Hgok Hall Hcid Hcok Hid Hok Hhost Hbot Hlim.
  assert (E1 : st1 = Db.State (DbTerms.generated_db gev (Db.st_db st))
                              (Db.st_tracker st)).
  { subst st1.
    now rewrite (DbGenerateFacts.generate_no_faults PUBLIC_URL urlencode gev st
                   Hgok Hfresh). }
  assert (Hnever : DbSpec.never_confirmed tid (Db.st_db st1)).
  { rewrite E1. now apply DbLifeFacts.generated_never_confirmed. }
  destruct (DbLifeFacts.pending_run tid evs st1 Hall Hnever) as [Hp2 Hh2].
  fold st2 in Hp2, Hh2.
  assert (Hsel2 : Db.select_post tid (Db.st_db st2) = [DbTerms.pending_row gev]).
  { rewrite (DbLifeFacts.select_by_posts tid _ _ Hp2), E1.
    now apply DbGenerateFacts.select_generated. }
  assert (Hh2' : Db.click_history (Db.st_db st2) = Db.click_history (Db.st_db st)).
  { rewrite Hh2, E1. reflexivity. }
  assert (E3 : Db.confirm_post cev st2
               = (DbSpec.confirm_ok cev,
                  Db.State (DbTerms.confirmed_db cev (Db.st_db st2))
                           (Db.st_tracker st2))).
  { destruct (ConfirmFacts.confirm_no_faults cev st2 Hcok) as [[Hn _] | [_ H]];
      [|exact H].
    rewrite Hcid, Hsel2 in Hn. discriminate. }
  assert (Hsel3 : Db.select_post tid (Db.st_db st3)
                  = [DbSpec.confirmed_row cev (DbTerms.pending_row gev)]).
  { subst st3. rewrite E3. cbn [snd Db.st_db].
    unfold DbTerms.confirmed_db, Db.select_post, Db.set_posts. cbn [Db.posts].
    rewrite ConfirmFacts.filter_update_where
      by apply DbConfirmFacts.confirmed_row_id.
    fold (Db.select_post tid (Db.st_db st2)). rewrite Hsel2, Hcid.
    cbn [map]. unfold Db.has_id at 1. cbn [Db.tracking_id DbTerms.pending_row].
    fold tid. now rewrite String.eqb_refl. }
  assert (Hh3 : Db.click_history (Db.st_db st3) = Db.click_history (Db.st_db st)).
  { subst st3. rewrite E3. cbn [snd Db.st_db]. exact Hh2'. }
  assert (E4 : st4 = Db.State (DbSpec.accepted_db ev host (Db.st_db st3))
                       (snd (is_rate_limited (Some (DbSpec.ip_of ev host)) tid
                               (Db.ev_time_limit ev)
                               (clean_ip_tracker (Db.ev_time_clean ev)
                                                 (Db.st_tracker st3))))).
  { subst st4. unfold db_step.
    rewrite (DbClickFacts.db_track_click_ok ev st3 host Hok Hhost). cbn [snd].
    unfold DbTerms.click_result. rewrite Hbot, Hid.
    destruct (is_rate_limited _ _ _ _) as [lim tr']. cbn [fst snd] in *.
    subst lim. rewrite Hsel3. cbn [head].
    now rewrite DbLifeFacts.confirmed_row_flag. }
  split.
  { unfold DbSpec.counters. now rewrite Hsel2. }
  split; [now apply DbLifeFacts.history_rows_by_history|].
  split; [now rewrite E3|].
  rewrite E4. cbn [Db.st_db]. split.
  - unfold DbSpec.counters, DbSpec.accepted_db, Db.select_post. cbn [Db.posts].
    rewrite Hid.
    rewrite ConfirmFacts.filter_update_where by reflexivity.
    fold (Db.select_post tid (Db.st_db st3)). rewrite Hsel3.
    cbn [map head]. unfold Db.has_id.
    rewrite DbConfirmFacts.confirmed_row_id.
    cbn [Db.tracking_id DbTerms.pending_row]. fold tid.
    rewrite String.eqb_refl.
    pose proof (DbConfirmFacts.confirmed_row_counters cev (DbTerms.pending_row gev))
      as (Hc & Hf & _).
    unfold Db.count_click. cbn [Db.clicks Db.first_click Db.last_click].
    rewrite Hc, Hf. reflexivity.
  - unfold DbTerms.history_rows, DbSpec.accepted_db. cbn [Db.click_history].
    rewrite Hh3, List.filter_app, length_app. cbn [List.filter].
    unfold DbSpec.history_row at 1. cbn [Db.ch_tracking_id].
    rewrite Hid, String.eqb_refl. cbn [length]. lia.
Qed.

(** X15 on the sample link: generated, clicked while pending, confirmed,
    clicked. *)
Lemma db_link_lifecycle_sample :
  DbSpec.counters "ab12cd34"
    (Db.st_db
       (db_step (Sample.db_click "198.51.100.9" 20 6000)
          (snd (Db.confirm_post Sample.confirm
                  (run_all db_step [Sample.db_click "203.0.113.7" 10 5000]
                     (snd (Db.generate_tracking_url "https://hustle.example"
                             Sample6.amp_join Sample7.db_generate
                             Sample.db_empty)))))))
  = Some (1, Some 6000, Some 6000).
Proof.
  refine (proj1 (proj2 (proj2 (proj2
            (db_link_lifecycle "https://hustle.example" Sample6.amp_join
               Sample7.db_generate [Sample.db_click "203.0.113.7" 10 5000]
               Sample.confirm (Sample.db_click "198.51.100.9" 20 6000)
               "198.51.100.9" Sample.db_empty
               eq_refl _ _ eq_refl _ eq_refl _ eq_refl eq_refl eq_refl)))));
    repeat constructor.
Defined.

(** ** Reset, health check and analytics, PostgreSQL variant *)

Module DbAdminFacts.
Import Db DbSpec DbTerms DbFacts.




(** Every run of [health], whatever fails in the storage. *)
Lemma health_cases (PUBLIC_URL : string) (ev : health_event) (st : state) :
  health PUBLIC_URL ev st
  = (JSONResponse 200 (healthy PUBLIC_URL (he_now ev) (st_db st)), st)
  \/ exists dt,
       health PUBLIC_URL ev st
       = (JSONResponse 200 (Unhealthy dt (he_now_error ev)), st).
Proof.
  destruct st as [db tr].
  unfold health, health_body, healthy. db_exec_simpl.
  do 7 (exec_storage; db_exec_simpl; [|right; eauto]).
  exec_storage; db_exec_simpl; [now left | right; eauto].
Qed.

Lemma health_no_faults (PUBLIC_URL : string) (ev : health_event) (st : state) :
  no_faults (he_faults ev) ->
  health PUBLIC_URL ev st
  = (JSONResponse 200 (healthy PUBLIC_URL (he_now ev) (st_db st)), st).
Proof.
  intros Hok. destruct st as [db tr].
  unfold health, health_body, healthy. db_exec_simpl.
  do 8 (exec_storage_ok Hok; db_exec_simpl).
  reflexivity.
Qed.

Lemma confirmed_pending_split (rows : list post_row) :
  (length (List.filter confirmed rows)
   + length (List.filter (fun r => negb (confirmed r)) rows))%nat
  = length rows.
Proof.
  induction rows as [|r rows IH]; simpl; [reflexivity|].
  destruct (confirmed r); simpl; lia.
Qed.

Lemma analytics_key_error (faults : list bool) (st : state) :
  no_faults faults ->
  get_analytics faults st = (HTTPError 500 (StrOfError KeyError), st).
Proof.
  intros Hok. destruct st as [db tr].
  unfold get_analytics, get_analytics_body, analytics_queries.
  db_exec_simpl.
  do 7 (exec_storage_ok Hok; db_exec_simpl).
  reflexivity.
Qed.

End DbAdminFacts.



(** X17.  PostgreSQL variant, [health].  Whatever fails in the storage the
    answer has status 200 and nothing stored changes: a failure is reported
    in the body as "unhealthy".  A healthy body counts the confirmed posts,
    the pending posts, the clicks of the confirmed posts and the bot tally of
    the database, so its two post counts add up to the number of stored
    posts; and a working storage gives the healthy body. *)
Theorem db_health (PUBLIC_URL : string) (ev : Db.health_event) (st : Db.state) :
  let d := Db.st_db st in
  snd (Db.health PUBLIC_URL ev st) = st
  /\ (exists payload, fst (Db.health PUBLIC_URL ev st) = JSONResponse 200 payload)
  /\ (forall now posts pending clicks bots url db production version,
        fst (Db.health PUBLIC_URL ev st)
        = JSONResponse 200
            (Db.Healthy now posts pending clicks bots url db production version) ->
        posts = Z.of_nat (length (Db.confirmed_rows d))
        /\ pending = Z.of_nat (length (Db.pending_rows d))
        /\ clicks = sumZ (map Db.clicks (Db.confirmed_rows d))
        /\ bots = Db.bot_requests_blocked d
        /\ posts + pending = Z.of_nat (length (Db.posts d)))
  /\ (no_faults (Db.he_faults ev) ->
      fst (Db.health PUBLIC_URL ev st)
      = JSONResponse 200 (DbTerms.healthy PUBLIC_URL (Db.he_now ev) d)).
Proof.
  intros d. split; [|split; [|split]].
  - destruct (DbAdminFacts.health_cases PUBLIC_URL ev st) as [-> | [dt ->]];
      reflexivity.
  - destruct (DbAdminFacts.health_cases PUBLIC_URL ev st) as [-> | [dt ->]];
      eexists; reflexivity.
  - intros now posts pending clicks bots url db production version.
    destruct (DbAdminFacts.health_cases PUBLIC_URL ev st) as [-> | [dt ->]];
      cbn [fst]; [|discriminate].
    unfold DbTerms.healthy. intros H.
    apply BotTestFacts.json_body in H.
    injection H as _ <- <- <- <- _ _ _ _. fold d.
    unfold Db.count_confirmed, Db.count_pending, Db.sum_confirmed.
    split; [reflexivity|]. split; [reflexivity|]. split.
    + destruct (Db.confirmed_rows d) as [|r rows] eqn:E; [reflexivity|].
      cbn [default]. apply AnalyticsFacts.sum_clicks_total.
    + split; [reflexivity|].
      unfold Db.confirmed_rows, Db.pending_rows.
      rewrite <- (DbAdminFacts.confirmed_pending_split (Db.posts d)). lia.
  - intros Hok. now rewrite DbAdminFacts.health_no_faults.
Qed.

(** X17 on the store with two clicks: one confirmed post, one pending. *)
Lemma db_health_sample :
  fst (Db.health "https://hustle.example" (Db.HealthEvent 9000 9001 [])
         (Db.State Sample2.db_two_clicks ∅))
  = JSONResponse 200
      (Db.Healthy 9000 1 1 2 0 "https://hustle.example" "PostgreSQL" false
                  "6.0_postgres").
Proof.
  refine (proj2 (proj2 (proj2
            (db_health "https://hustle.example" (Db.HealthEvent 9000 9001 [])
               (Db.State Sample2.db_two_clicks ∅))))
            _).
  constructor.
Defined.

(** X18.  PostgreSQL variant, [get_analytics]: the endpoint never answers
    its report.  Its cursor hands out rows as dicts keyed by column name and
    the pending count is read with index 0, so every request ends in status
    500 and changes nothing; when the storage works the error is the
    [KeyError] of that read. *)
Theorem db_analytics_never_answers (faults : list bool) (st : Db.state) :
  (exists dt, Db.get_analytics faults st = (HTTPError 500 dt, st))
  /\ (no_faults faults ->
      Db.get_analytics faults st = (HTTPError 500 (StrOfError KeyError), st)).
Proof.
  split.
  - apply AnalyticsFacts.db_get_analytics_fails.
  - apply DbAdminFacts.analytics_key_error.
Qed.

(** X18 on the store with two clicks and a working storage. *)
Lemma db_analytics_never_answers_sample :
  Db.get_analytics [] (Db.State Sample2.db_two_clicks ∅)
  = (HTTPError 500 (StrOfError KeyError), Db.State Sample2.db_two_clicks ∅).
Proof.
  apply (proj2 (db_analytics_never_answers []
                  (Db.State Sample2.db_two_clicks ∅))).
  constructor.
Defined.

(** ** The order of the posts in the analytics *)

Module TopFacts.

Section Top.
Context {A : Type} (key : A -> Z).

(** The first [n] of a list sorted by falling key. *)
Lemma top_of_sorted (n : nat) (l : list A) :
  let s := sort_desc key l in
  descending key (take n s)
  /\ length (take n s) = Nat.min n (length l)
  /\ Permutation (take n s ++ drop n s) l
  /\ forall x y, In x (take n s) -> In y (drop n s) -> key y <= key x.
Proof.
  intros s. subst s.
  split; [apply ListFacts.descending_take, ListFacts.sort_desc_sorted|].
  split; [now rewrite length_take, ListFacts.sort_desc_length|].
  split; [rewrite take_drop; apply ListFacts.sort_desc_perm|].
  apply ListFacts.descending_take_drop, ListFacts.sort_desc_sorted.
Qed.

End Top.

End TopFacts.

(** X19.  The order of the posts in the analytics.  File-backed variant:
    [top_posts] holds the 20 most clicked posts, or all of them when fewer,
    by falling clicks; together with the posts left out it is a rearrangement
    of the stored posts, and no post left out has more clicks than a listed
    one.  PostgreSQL variant, on the results of its queries: [all_posts]
    lists the confirmed posts by falling clicks and [top_posts] is its first
    50; a post is shown as "active" exactly when it has a click. *)
Theorem analytics_top_posts :
  (forall d : Railway.click_data_t,
     let top := Railway.an_top_posts (Railway.build_analytics d) in
     descending Railway.pv_clicks top
     /\ length top = Nat.min 20 (length (Railway.posts d))
     /\ exists rest,
          Permutation (top ++ rest) (RailwaySpec.all_posts d)
          /\ forall x y, In x top -> In y rest ->
                         Railway.pv_clicks y <= Railway.pv_clicks x)
  /\ (forall (d : Db.database) (qr : Db.query_results) (b1 b2 b3 : Z),
        DbSpec.from_queries d qr ->
        let a := Db.build_analytics qr b1 b2 b3 in
        descending Db.pv_clicks (Db.an_all_posts a)
        /\ Permutation (Db.an_all_posts a)
                       (map Db.view_post (Db.confirmed_rows d))
        /\ Db.an_top_posts a = take 50 (Db.an_all_posts a)
        /\ length (Db.an_top_posts a)
           = Nat.min 50 (length (Db.confirmed_rows d))
        /\ (forall x y, In x (Db.an_top_posts a) ->
                        In y (drop 50 (Db.an_all_posts a)) ->
                        Db.pv_clicks y <= Db.pv_clicks x)
        /\ forall v, In v (Db.an_all_posts a) ->
                     (Db.pv_status v = "active" <-> 0 < Db.pv_clicks v)).
Proof.
  split.
  - intros d top. subst top. unfold Railway.build_analytics.
    cbn [Railway.an_top_posts].
    destruct (TopFacts.top_of_sorted Railway.pv_clicks 20
                (map Railway.view_post (Railway.posts d)))
      as (Hsorted & Hlen & Hperm & Hdom).
    split; [exact Hsorted|].
    split; [now rewrite Hlen, length_map|].
    eexists. split; [exact Hperm | exact Hdom].
  - intros d qr b1 b2 b3 (Hposts & _) a. subst a.
    unfold Db.build_analytics. cbn [Db.an_all_posts Db.an_top_posts].
    rewrite Hposts. unfold Db.select_confirmed_posts.
    assert (Hdesc : descending Db.pv_clicks
                      (map Db.view_post
                           (sort_desc Db.clicks (Db.confirmed_rows d)))).
    { apply (RecentFacts.descending_map Db.view_post Db.pv_clicks Db.clicks);
        [reflexivity | apply ListFacts.sort_desc_sorted]. }
    split; [exact Hdesc|].
    split; [apply Permutation_map, ListFacts.sort_desc_perm|].
    split; [reflexivity|].
    split; [now rewrite length_take, length_map, ListFacts.sort_desc_length|].
    split; [now apply ListFacts.descending_take_drop|].
    intros v Hv. apply in_map_iff in Hv as (r & <- & _).
    unfold Db.view_post. cbn [Db.pv_status Db.pv_clicks].
    destruct (Z.ltb_spec 0 (Db.clicks r)); split; intros; try lia;
      try reflexivity; discriminate.
Qed.

(** X19 on the two sample stores. *)
Lemma analytics_top_posts_sample :
  length (Railway.an_top_posts (Railway.build_analytics Sample2.railway_two_clicks))
  = 1%nat
  /\ length (Db.an_top_posts
               (Db.build_analytics Sample2.queries_two_clicks 0 0 0))
     = 1%nat.
Proof.
  split.
  - exact (proj1 (proj2 (proj1 analytics_top_posts Sample2.railway_two_clicks))).
  - refine (proj1 (proj2 (proj2 (proj2
              (proj2 analytics_top_posts Sample2.db_two_clicks
                 Sample2.queries_two_clicks 0 0 0 _))))).
    repeat split.
Defined.
